(** * Yandex.Direct campaign automation: a shallow embedding and its properties

    The development follows two source files:
    - [advertising/yandex_direct_integration.py]  (API client, provisioning,
      bid optimisation);
    - [advertising/professional_campaign_manager.py]  (semantic core,
      budget allocation, JSON parsing of generated text).

    Python integers are [Z]; Python floats are IEEE-754 binary64 values of
    the Standard Library's [SpecFloat]; exceptions are values of [exn] and
    fallible code lives in the [result] monad; code that talks to the remote
    platform threads the list of requests issued so far.  String constants
    that are Russian in the source are given in English. *)

From Stdlib Require Import ZArith List String Ascii Bool Lia.
From Stdlib Require Import Floats.SpecFloat.
Import ListNotations.
Local Open Scope string_scope.
Local Open Scope list_scope.
Local Open Scope Z_scope.

Set Warnings "-register-all".

(** ** Exceptions and the result monad *)

(** One item of an ["Errors"] list returned by the platform. *)
Record api_error := { err_code : Z; err_message : string }.

(** The exceptions the modelled code can raise.  [PyException origin errs]
    stands for [raise Exception(f"...")]; [origin] names the raising
    statement and [errs] carries the error items formatted into the
    message. *)
Inductive exn :=
| PyException (origin : string) (errs : list api_error)
| KeyError (key : string)
| IndexError
| TypeError
| AttributeError
| ValueError
| ZeroDivisionError
| OverflowError
| EOFError.

Inductive result (A : Type) :=
| Ok (a : A)
| Raise (e : exn).
Arguments Ok {A} a.
Arguments Raise {A} e.

Definition rbind {A B} (r : result A) (k : A -> result B) : result B :=
  match r with
  | Ok a => k a
  | Raise e => Raise e
  end.

Declare Scope result_scope.
Delimit Scope result_scope with res.
Notation "x <- c ;; k" := (rbind c (fun x => k))
  (at level 61, c at next level, right associativity) : result_scope.

Definition is_ok {A} (r : result A) : bool :=
  match r with Ok _ => true | Raise _ => false end.

(** [d.get(key, default)] on a dictionary whose key may be absent. *)
Definition dict_get {A} (field : option A) (default : A) : A :=
  match field with Some v => v | None => default end.

(** ** Python numbers *)

Module PyNum.

(** binary64 *)
Definition prec : Z := 53.
Definition emax : Z := 1024.

Definition float := spec_float.

Definition fmul : float -> float -> float := SFmul prec emax.
Definition fsub : float -> float -> float := SFsub prec emax.
Definition fdiv : float -> float -> float := SFdiv prec emax.

Definition fis_zero (x : float) : bool :=
  match x with S754_zero _ => true | _ => false end.

(** [float(n)] for an integer [n]: correctly rounded, [OverflowError]
    when the rounded value does not fit. *)
Definition float_of_int (n : Z) : result float :=
  match binary_normalize prec emax n 0 false with
  | S754_infinity _ => Raise OverflowError
  | f => Ok f
  end.

(** [int(x)] for a float [x]: truncation toward zero; infinities raise
    [OverflowError] and NaN raises [ValueError]. *)
Definition int_of_float (x : float) : result Z :=
  match x with
  | S754_zero _ => Ok 0
  | S754_finite s m e => Ok (cond_Zopp s (Z.shiftl (Zpos m) e))
  | S754_infinity _ => Raise OverflowError
  | S754_nan => Raise ValueError
  end.

(** The correctly rounded quotient of two integers, as computed by
    [int / int]; the divisor is not zero. *)
Definition int_quotient (a b : Z) : float :=
  match a, b with
  | Z0, _ => S754_zero (b <? 0)
  | _, Z0 => S754_nan
  | Zpos p, Zpos q => fdiv (S754_finite false p 0) (S754_finite false q 0)
  | Zpos p, Zneg q => fdiv (S754_finite false p 0) (S754_finite true q 0)
  | Zneg p, Zpos q => fdiv (S754_finite true p 0) (S754_finite false q 0)
  | Zneg p, Zneg q => fdiv (S754_finite true p 0) (S754_finite true q 0)
  end.

(** A decimal literal [num/den] denotes the double nearest to it. *)
Definition literal (num den : Z) : float := int_quotient num den.

Definition lit_0_6 : float := Eval vm_compute in literal 6 10.
Definition lit_0_3 : float := Eval vm_compute in literal 3 10.
Definition lit_0_1 : float := Eval vm_compute in literal 1 10.
Definition lit_1_2 : float := Eval vm_compute in literal 12 10.
Definition lit_0_9 : float := Eval vm_compute in literal 9 10.
Definition lit_0_025 : float := Eval vm_compute in literal 25 1000.
Definition lit_0_08 : float := Eval vm_compute in literal 8 100.

(** A Python number is an [int] or a [float]. *)
Inductive num :=
| PyInt (n : Z)
| PyFloat (x : float).

Definition to_float (a : num) : result float :=
  match a with
  | PyInt n => float_of_int n
  | PyFloat x => Ok x
  end.

(** [a * b] *)
Definition mul (a b : num) : result num :=
  match a, b with
  | PyInt m, PyInt n => Ok (PyInt (m * n))
  | _, _ =>
      (x <- to_float a ;; y <- to_float b ;; Ok (PyFloat (fmul x y)))%res
  end.

(** [a - b] *)
Definition sub (a b : num) : result num :=
  match a, b with
  | PyInt m, PyInt n => Ok (PyInt (m - n))
  | _, _ =>
      (x <- to_float a ;; y <- to_float b ;; Ok (PyFloat (fsub x y)))%res
  end.

(** [a / b]: true division; a zero divisor raises [ZeroDivisionError],
    an integer quotient too large for a float raises [OverflowError]. *)
Definition truediv (a b : num) : result num :=
  match a, b with
  | PyInt m, PyInt n =>
      if n =? 0 then Raise ZeroDivisionError
      else match int_quotient m n with
           | S754_infinity _ => Raise OverflowError
           | q => Ok (PyFloat q)
           end
  | _, _ =>
      (x <- to_float a ;; y <- to_float b ;;
       if fis_zero y then Raise ZeroDivisionError
       else Ok (PyFloat (fdiv x y)))%res
  end.

(** [int(a)] *)
Definition to_int (a : num) : result Z :=
  match a with
  | PyInt n => Ok n
  | PyFloat x => int_of_float x
  end.

Definition float_one : float := Eval vm_compute in literal 1 1.

(** [max(a, 1)]: the first argument is kept unless [1 > a]; a NaN
    compares false and is kept. *)
Definition max_with_one (a : num) : num :=
  match a with
  | PyInt n => if 1 >? n then PyInt 1 else a
  | PyFloat x => if SFltb x float_one then PyInt 1 else a
  end.

End PyNum.

(** ** Bid optimisation ([YandexDirectAPIClient.optimize_keyword_bids]) *)

Module Rebid.
Import PyNum.
Local Open Scope res.

(** An input dictionary; either key may be absent. *)
Record keyword_bid := {
  kb_keyword : option string;
  kb_bid : option num
}.

(** An output dictionary. *)
Record optimized_bid := {
  ob_keyword : string;
  old_bid : num;
  new_bid : num;
  change_percent : num
}.

(** The body of the [for] loop: one entry is read, its new bid and its
    percent change are computed, and the entry is appended to
    [optimized_bids]. *)
Definition optimize_step (target_position : Z) (optimized_bids : list optimized_bid)
    (keyword_data : keyword_bid) : result (list optimized_bid) :=
  let current_bid := dict_get (kb_bid keyword_data) (PyInt 0) in
  let keyword := dict_get (kb_keyword keyword_data) EmptyString in
  nb <- (if target_position <=? 3 then mul current_bid (PyFloat lit_1_2)
         else if target_position <=? 6 then Ok current_bid
         else mul current_bid (PyFloat lit_0_9)) ;;
  diff <- sub nb current_bid ;;
  ratio <- truediv diff current_bid ;;
  pct <- mul ratio (PyInt 100) ;;
  Ok (optimized_bids ++
      [{| ob_keyword := keyword; old_bid := current_bid;
          new_bid := nb; change_percent := pct |}]).

Fixpoint optimize_loop (target_position : Z) (keyword_bids : list keyword_bid)
    (optimized_bids : list optimized_bid) : result (list optimized_bid) :=
  match keyword_bids with
  | [] => Ok optimized_bids
  | keyword_data :: rest =>
      acc <- optimize_step target_position optimized_bids keyword_data ;;
      optimize_loop target_position rest acc
  end.

Definition optimize_keyword_bids (keyword_bids : list keyword_bid)
    (target_position : Z) : result (list optimized_bid) :=
  optimize_loop target_position keyword_bids [].

(** *** The rule as the specification words it

    [targetRank <= 3] gives [bid * 1.2], [targetRank <= 6] leaves the bid
    unchanged, anything else gives [bid * 0.9]; the percent change is
    [(newBid - oldBid) / oldBid * 100].  Both are read in Python's
    arithmetic. *)
Definition rebid_rule (targetRank : Z) (bid : num) : result num :=
  if targetRank <=? 3 then mul bid (PyFloat lit_1_2)
  else if targetRank <=? 6 then Ok bid
  else mul bid (PyFloat lit_0_9).

Definition percent_change (newBid oldBid : num) : result num :=
  d <- sub newBid oldBid ;; q <- truediv d oldBid ;; mul q (PyInt 100).

(** The bid and the keyword an input entry stands for. *)
Definition bid_of (e : keyword_bid) : num := dict_get (kb_bid e) (PyInt 0).
Definition keyword_of (e : keyword_bid) : string := dict_get (kb_keyword e) EmptyString.

(** An output entry follows the rule for an input entry. *)
Definition follows_rule (targetRank : Z) (e : keyword_bid) (o : optimized_bid) : Prop :=
  ob_keyword o = keyword_of e /\
  old_bid o = bid_of e /\
  rebid_rule targetRank (bid_of e) = Ok (new_bid o) /\
  percent_change (new_bid o) (bid_of e) = Ok (change_percent o).

(** A bid that is [0], [0.0] or [-0.0]. *)
Definition is_zero_bid (bid : num) : bool :=
  match bid with
  | PyInt n => n =? 0
  | PyFloat x => fis_zero x
  end.

(** A bid that [float] accepts: any float, and any integer whose
    conversion does not overflow. *)
Definition fits_float (bid : num) : bool := is_ok (to_float bid).

End Rebid.

(** ** Parsed JSON of generated text *)

Module Json.

Inductive json :=
| JNull
| JBool (b : bool)
| JNum (n : PyNum.num)
| JStr (s : string)
| JArr (items : list json)
| JObj (fields : list (string * json)).

(** A Python [dict] with string keys, in insertion order. *)
Definition dict := list (string * json).

Fixpoint lookup (key : string) (d : dict) : option json :=
  match d with
  | [] => None
  | (k, v) :: rest => if String.eqb k key then Some v else lookup key rest
  end.

(** [d[key]] *)
Definition getitem (d : dict) (key : string) : result json :=
  match lookup key d with
  | Some v => Ok v
  | None => Raise (KeyError key)
  end.

(** [len(v)] *)
Definition len (v : json) : result Z :=
  match v with
  | JArr items => Ok (Z.of_nat (List.length items))
  | JObj fields => Ok (Z.of_nat (List.length fields))
  | JStr s => Ok (Z.of_nat (String.length s))
  | JNull | JBool _ | JNum _ => Raise TypeError
  end.

(** The match of [re.search(r'\{.*\}', content, re.DOTALL)]: from the
    first opening brace to the last closing brace after it. *)
Fixpoint from_first_open (s : string) : option string :=
  match s with
  | EmptyString => None
  | String c rest =>
      if Ascii.eqb c "{"%char then Some s else from_first_open rest
  end.

Fixpoint upto_last_close (s : string) : option string :=
  match s with
  | EmptyString => None
  | String c rest =>
      match upto_last_close rest with
      | Some r => Some (String c r)
      | None => if Ascii.eqb c "}"%char then Some (String c EmptyString) else None
      end
  end.

Definition search_braces (content : string) : option string :=
  match from_first_open content with
  | Some s => upto_last_close s
  | None => None
  end.

End Json.

(** ** The Yandex.Direct client ([YandexDirectAPIClient]) *)

Module Direct.

(** *** Configuration dictionaries passed by the caller

    Every key read with [.get] may be absent. *)

Record campaign_config := {
  cc_name : option string;
  cc_start_date : option string;
  cc_end_date : option string;
  cc_daily_budget : option Z;
  cc_bidding_strategy : option string;
  cc_average_cpc : option Z;
  cc_weekly_spend_limit : option Z
}.

Definition empty_campaign_config : campaign_config :=
  {| cc_name := None; cc_start_date := None; cc_end_date := None;
     cc_daily_budget := None; cc_bidding_strategy := None;
     cc_average_cpc := None; cc_weekly_spend_limit := None |}.

Record keyword_config := {
  kc_text : option string;
  kc_bid : option Z;
  kc_param1 : option string;
  kc_param2 : option string
}.

Record ad_config := {
  ac_title : option string;
  ac_text : option string;
  ac_href : option string;
  ac_title2 : option string;
  ac_display_href : option string
}.

Record group_config := {
  gc_name : option string;
  gc_region_ids : option (list Z);
  gc_negative_keywords : option (list string);
  gc_keywords : option (list keyword_config);
  gc_ads : option (list ad_config)
}.

Record strategy_config := {
  sc_campaign : option campaign_config;
  sc_ad_groups : option (list group_config)
}.

(** *** Request payloads *)

Record text_campaign := {
  SearchStrategyType : string;
  NetworkStrategyType : string;
  AverageCpc : option Z;
  WeeklySpendLimit : option Z
}.

Record campaign_data := {
  cd_Name : string;
  cd_StartDate : string;
  cd_TextCampaign : text_campaign;
  cd_DailyBudgetAmount : Z;
  cd_EndDate : option string
}.

Record ad_group := {
  ag_Name : string;
  ag_CampaignId : Z;
  ag_RegionIds : list Z;
  ag_NegativeKeywords : option (list string)
}.

Record keyword := {
  kw_Keyword : string;
  kw_AdGroupId : Z;
  kw_Bid : option Z;
  kw_UserParam1 : option string;
  kw_UserParam2 : option string
}.

Record ad := {
  ad_AdGroupId : Z;
  ad_Title : string;
  ad_Text : string;
  ad_Href : string;
  ad_Title2 : option string;
  ad_DisplayHref : option string
}.

Inductive params :=
| CampaignsParams (campaigns : list campaign_data)
| AdGroupsParams (ad_groups : list ad_group)
| KeywordsParams (keywords : list keyword)
| AdsParams (ads : list ad)
| KeywordsByKeyword (keywords : list string) (region_ids : list Z).

Record request := {
  service : string;
  method : string;
  req_params : params
}.

(** *** Responses *)

(** One element of ["AddResults"]: a dictionary that may hold an ["Id"],
    an ["Errors"] list, both or neither. *)
Record add_item := {
  item_Id : option Z;
  item_Errors : option (list api_error)
}.

Record keyword_data := {
  kd_Keyword : option string;
  kd_SearchVolume : option Z;
  kd_Competition : option string;
  kd_AverageBid : option PyNum.num
}.

Record keyword_result := { kr_Keywords : option (list keyword_data) }.

(** The ["result"] dictionary of a reply. *)
Record api_result := {
  AddResults : option (list add_item);
  Errors : option (list api_error);
  KeywordsByKeywordSearchResults : option (list keyword_result)
}.

Definition empty_result : api_result :=
  {| AddResults := None; Errors := None; KeywordsByKeywordSearchResults := None |}.

(** The decoded body of a reply: an ["error"] key, a ["result"] key. *)
Record body := {
  body_error : option string;
  body_result : option api_result
}.

(** What the HTTP exchange produces: no reply at all (connection error,
    timeout), or a status code with a body that decodes as JSON
    ([Some]) or does not ([None]). *)
Inductive wire :=
| NoReply
| Reply (status : Z) (decoded : option body).

(** *** Truthiness of values read from dictionaries *)

Definition truthy_string (s : option string) : option string :=
  match s with
  | Some EmptyString => None
  | other => other
  end.

Definition truthy_int (n : option Z) : option Z :=
  match n with
  | Some 0 => None
  | other => other
  end.

Definition nonempty {A} (l : list A) : bool :=
  match l with [] => false | _ => true end.

(** *** The client, over an arbitrary remote platform

    [api] is the platform: it answers a request in view of the requests
    it has already received.  [raises_for_status] is the behaviour of
    [response.raise_for_status()] on a status code other than 200.
    [today] and [now_iso] are the two readings of the clock. *)

Record created := {
  created_ids : list Z;
  raw_result : api_result
}.

Record suggestion := {
  sg_keyword : string;
  sg_search_volume : Z;
  sg_competition : string;
  sg_average_bid : PyNum.num;
  sg_source : string
}.

Record campaign_summary := {
  campaign_id : Z;
  groups_count : Z;
  created_at : string;
  status : string;
  next_steps : list string
}.

(** Code that talks to the platform: it threads the requests sent so far
    and either returns or raises. *)
Definition io (A : Type) : Type := list request -> result A * list request.

Definition ret {A} (a : A) : io A := fun tr => (Ok a, tr).
Definition throw {A} (e : exn) : io A := fun tr => (Raise e, tr).
Definition lift {A} (r : result A) : io A := fun tr => (r, tr).

Definition bind {A B} (c : io A) (k : A -> io B) : io B :=
  fun tr =>
    match c tr with
    | (Ok a, tr') => k a tr'
    | (Raise e, tr') => (Raise e, tr')
    end.

(** [try: c  except Exception as e: handler e] *)
Definition try_except {A} (c : io A) (handler : exn -> io A) : io A :=
  fun tr =>
    match c tr with
    | (Ok a, tr') => (Ok a, tr')
    | (Raise e, tr') => handler e tr'
    end.

(** [try: c  except Exception as e: logger.error(...); raise] *)
Definition logged {A} (c : io A) : io A := try_except c (fun e => throw e).

Declare Scope io_scope.
Delimit Scope io_scope with io.
Notation "x <- c ;; k" := (bind c (fun x => k))
  (at level 61, c at next level, right associativity) : io_scope.
Notation "c ;;; k" := (bind c (fun _ => k))
  (at level 61, right associativity) : io_scope.

(** The loop shared by the four [create_*] methods: ids of items holding
    an ["Id"], errors of the other items holding ["Errors"]. *)
Fixpoint collect_add_results (items : list add_item) (ids : list Z)
    (errors : list api_error) : list Z * list api_error :=
  match items with
  | [] => (ids, errors)
  | item :: rest =>
      match item_Id item, item_Errors item with
      | Some id, _ => collect_add_results rest (ids ++ [id]) errors
      | None, Some errs => collect_add_results rest ids (errors ++ errs)
      | None, None => collect_add_results rest ids errors
      end
  end.

Definition _build_text_campaign_config (campaign_config : campaign_config)
    : text_campaign :=
  let bidding_strategy :=
    dict_get (cc_bidding_strategy campaign_config) "HIGHEST_POSITION" in
  {| SearchStrategyType := bidding_strategy;
     NetworkStrategyType := "SERVING_OFF";
     AverageCpc :=
       if String.eqb bidding_strategy "AVERAGE_CPC"
       then Some (dict_get (cc_average_cpc campaign_config) 50 * 1000000)
       else None;
     WeeklySpendLimit :=
       if String.eqb bidding_strategy "AVERAGE_CPC" then None
       else if String.eqb bidding_strategy "WB_MAXIMUM_CLICKS"
       then Some (dict_get (cc_weekly_spend_limit campaign_config) 7000 * 1000000)
       else None |}.

Definition build_ad_group (campaign_id : Z) (group_config : group_config) : ad_group :=
  let negative_keywords := dict_get (gc_negative_keywords group_config) [] in
  {| ag_Name := dict_get (gc_name group_config) "Ad group";
     ag_CampaignId := campaign_id;
     ag_RegionIds := dict_get (gc_region_ids group_config) [213];
     ag_NegativeKeywords :=
       if nonempty negative_keywords then Some negative_keywords else None |}.

Definition build_keyword (group_id : Z) (keyword_config : keyword_config) : keyword :=
  {| kw_Keyword := dict_get (kc_text keyword_config) EmptyString;
     kw_AdGroupId := group_id;
     kw_Bid := option_map (fun bid => bid * 1000000) (truthy_int (kc_bid keyword_config));
     kw_UserParam1 := truthy_string (kc_param1 keyword_config);
     kw_UserParam2 := truthy_string (kc_param2 keyword_config) |}.

Definition build_ad (group_id : Z) (ad_config : ad_config) : ad :=
  {| ad_AdGroupId := group_id;
     ad_Title := dict_get (ac_title ad_config) "Ad title";
     ad_Text := dict_get (ac_text ad_config) "Ad text";
     ad_Href := dict_get (ac_href ad_config) "https://example.com";
     ad_Title2 := truthy_string (ac_title2 ad_config);
     ad_DisplayHref := truthy_string (ac_display_href ad_config) |}.

Section Client.

Variable api : list request -> request -> wire.
Variable raises_for_status : Z -> bool.
Variable today : string.
Variable now_iso : string.

Local Open Scope io_scope.

Definition _make_request (service method : string) (p : params)
    : io (option api_result) :=
  logged (fun tr =>
    let req := {| service := service; method := method; req_params := p |} in
    let tr' := tr ++ [req] in
    match api tr req with
    | NoReply => (Raise (PyException "request failed" []), tr')
    | Reply status decoded =>
        if status =? 200 then
          match decoded with
          | None => (Raise ValueError, tr')
          | Some b =>
              match body_error b with
              | Some _ => (Raise (PyException "Yandex.Direct API Error" []), tr')
              | None => (Ok (Some (dict_get (body_result b) empty_result)), tr')
              end
          end
        else if raises_for_status status
        then (Raise (PyException "HTTP status error" []), tr')
        else (Ok None, tr')
    end).

Definition build_campaign_data (campaign_config : campaign_config)
    : campaign_data :=
  {| cd_Name := dict_get (cc_name campaign_config) "Automatic campaign";
     cd_StartDate := dict_get (cc_start_date campaign_config) today;
     cd_TextCampaign := _build_text_campaign_config campaign_config;
     cd_DailyBudgetAmount :=
       dict_get (cc_daily_budget campaign_config) 1000 * 1000000;
     cd_EndDate := truthy_string (cc_end_date campaign_config) |}.

Definition create_campaign (campaign_config : campaign_config) : io created :=
  logged (
    let campaign_data := build_campaign_data campaign_config in
    result <- _make_request "campaigns" "add" (CampaignsParams [campaign_data]) ;;
    match result with
    | None => throw TypeError
    | Some r =>
        match AddResults r with
        | None => throw (PyException "unexpected API response structure" [])
        | Some add_results =>
            let '(campaign_ids, errors) := collect_add_results add_results [] [] in
            if nonempty errors
            then throw (PyException "campaign creation errors" errors)
            else ret {| created_ids := campaign_ids; raw_result := r |}
        end
    end).

Definition create_ad_groups (campaign_id : Z) (groups_config : list group_config)
    : io created :=
  logged (
    let ad_groups := map (build_ad_group campaign_id) groups_config in
    result <- _make_request "adgroups" "add" (AdGroupsParams ad_groups) ;;
    match result with
    | None => throw AttributeError
    | Some r =>
        let '(group_ids, errors) :=
          collect_add_results (dict_get (AddResults r) []) [] [] in
        if nonempty errors
        then throw (PyException "ad group creation errors" errors)
        else ret {| created_ids := group_ids; raw_result := r |}
    end).

Definition create_keywords (group_id : Z) (keywords_config : list keyword_config)
    : io created :=
  logged (
    let keywords := map (build_keyword group_id) keywords_config in
    result <- _make_request "keywords" "add" (KeywordsParams keywords) ;;
    match result with
    | None => throw AttributeError
    | Some r =>
        let '(keyword_ids, errors) :=
          collect_add_results (dict_get (AddResults r) []) [] [] in
        if nonempty errors
        then throw (PyException "keyword creation errors" errors)
        else ret {| created_ids := keyword_ids; raw_result := r |}
    end).

Definition create_ads (group_id : Z) (ads_config : list ad_config) : io created :=
  logged (
    let ads := map (build_ad group_id) ads_config in
    result <- _make_request "ads" "add" (AdsParams ads) ;;
    match result with
    | None => throw AttributeError
    | Some r =>
        let '(ad_ids, errors) :=
          collect_add_results (dict_get (AddResults r) []) [] [] in
        if nonempty errors
        then throw (PyException "ad creation errors" errors)
        else ret {| created_ids := ad_ids; raw_result := r |}
    end).

(** The inner loops of [get_keyword_suggestions]: one suggestion per
    keyword of every search result that holds ["Keywords"]. *)
Fixpoint suggestions_of_keywords (keywords : list keyword_data)
    (suggestions : list suggestion) : result (list suggestion) :=
  match keywords with
  | [] => Ok suggestions
  | keyword_data :: rest =>
      (average_bid <- PyNum.truediv
                        (dict_get (kd_AverageBid keyword_data) (PyNum.PyInt 0))
                        (PyNum.PyInt 1000000) ;;
       suggestions_of_keywords rest
         (suggestions ++
          [{| sg_keyword := dict_get (kd_Keyword keyword_data) EmptyString;
              sg_search_volume := dict_get (kd_SearchVolume keyword_data) 0;
              sg_competition := dict_get (kd_Competition keyword_data) "UNKNOWN";
              sg_average_bid := average_bid;
              sg_source := "yandex_direct_api" |}]))%res
  end.

Fixpoint suggestions_of_results (results : list keyword_result)
    (suggestions : list suggestion) : result (list suggestion) :=
  match results with
  | [] => Ok suggestions
  | keyword_result :: rest =>
      match kr_Keywords keyword_result with
      | Some keywords =>
          (acc <- suggestions_of_keywords keywords suggestions ;;
           suggestions_of_results rest acc)%res
      | None => suggestions_of_results rest suggestions
      end
  end.

Definition get_keyword_suggestions (base_keywords : list string)
    : io (list suggestion) :=
  let region_ids := [225] in
  try_except
    (result <- _make_request "keywordsresearch" "get"
                 (KeywordsByKeyword (firstn 10 base_keywords) region_ids) ;;
     match result with
     | None => throw TypeError
     | Some r =>
         match KeywordsByKeywordSearchResults r with
         | Some results => lift (suggestions_of_results results [])
         | None => ret []
         end
     end)
    (fun _ => ret []).

(** *** Provisioning ([YandexDirectCampaignManager]) *)

(** Step 3: keywords for the [i]-th created group, taken from the
    [i]-th group configuration. *)
Fixpoint keywords_stage (i : nat) (group_ids : list Z)
    (groups_config : list group_config) : io unit :=
  match group_ids with
  | [] => ret tt
  | group_id :: rest =>
      (match nth_error groups_config i with
       | Some group_config =>
           let keywords_config := dict_get (gc_keywords group_config) [] in
           if nonempty keywords_config
           then create_keywords group_id keywords_config ;;; ret tt
           else ret tt
       | None => ret tt
       end) ;;;
      keywords_stage (S i) rest groups_config
  end.

(** Step 4: ads for the [i]-th created group. *)
Fixpoint ads_stage (i : nat) (group_ids : list Z)
    (groups_config : list group_config) : io unit :=
  match group_ids with
  | [] => ret tt
  | group_id :: rest =>
      (match nth_error groups_config i with
       | Some group_config =>
           let ads_config := dict_get (gc_ads group_config) [] in
           if nonempty ads_config
           then create_ads group_id ads_config ;;; ret tt
           else ret tt
       | None => ret tt
       end) ;;;
      ads_stage (S i) rest groups_config
  end.

Definition create_full_campaign_from_strategy (strategy_config : strategy_config)
    : io campaign_summary :=
  logged (
    campaign_result <-
      create_campaign (dict_get (sc_campaign strategy_config) empty_campaign_config) ;;
    campaign_id <-
      match created_ids campaign_result with
      | id :: _ => ret id
      | [] => throw IndexError
      end ;;
    let groups_config := dict_get (sc_ad_groups strategy_config) [] in
    groups_result <- create_ad_groups campaign_id groups_config ;;
    keywords_stage 0 (created_ids groups_result) groups_config ;;;
    ads_stage 0 (created_ids groups_result) groups_config ;;;
    ret {| campaign_id := campaign_id;
           groups_count := Z.of_nat (List.length (created_ids groups_result));
           created_at := now_iso;
           status := "created_in_draft";
           next_steps := ["Check the campaign settings";
                          "Test the ads";
                          "Send to moderation"] |}).

End Client.

(** The requests the first two stages send. *)
Definition campaign_request (today : string) (campaign_config : campaign_config)
    : request :=
  {| service := "campaigns"; method := "add";
     req_params := CampaignsParams [build_campaign_data today campaign_config] |}.

Definition groups_request (campaign_id : Z) (groups_config : list group_config)
    : request :=
  {| service := "adgroups"; method := "add";
     req_params := AdGroupsParams (map (build_ad_group campaign_id) groups_config) |}.

(** Which requests a trace holds. *)
Definition is_service (name : string) (r : request) : bool :=
  String.eqb (service r) name.

Definition requests_to (name : string) (tr : list request) : list request :=
  filter (is_service name) tr.

End Direct.

(** ** The campaign manager ([ProfessionalCampaignManager]) *)

Module Manager.
Import PyNum.

Record BusinessInfo := {
  website : option string;
  description : string;
  bi_industry : string;
  bi_target_audience : string;
  budget_daily : Z;
  budget_currency : string
}.

Record LandingAnalysis := {
  source : string;
  title : string;
  la_description : string;
  keywords : list string;
  pain_points : list string;
  unique_value_propositions : list string;
  target_audience : string;
  industry : string;
  competitors : list string;
  call_to_action : string
}.

(** A suggestion in the format of the semantic core. *)
Record core_suggestion := {
  cs_keyword : string;
  cs_bid : Z;
  cs_search_volume : Z;
  cs_competition : string;
  cs_source : string
}.

(** The dataclass does not check its fields: the tiers hold whatever the
    parsed text held under the four keys. *)
Record SemanticCore := {
  high_priority : Json.json;
  medium_priority : Json.json;
  low_priority : Json.json;
  negative_keywords : Json.json;
  yandex_suggestions : list core_suggestion
}.

Record budget_allocation := {
  daily_budget : Z;
  high_priority_percent : Z;
  medium_priority_percent : Z;
  low_priority_percent : Z;
  high_priority_budget : Z;
  medium_priority_budget : Z;
  low_priority_budget : Z
}.

Record expected_performance := {
  expected_clicks_per_day : Z;
  expected_conversions_per_day : Z;
  expected_cpc : Z;
  expected_ctr : float;
  expected_conversion_rate : float;
  cost_per_conversion : Z;
  monthly_budget : Z;
  monthly_conversions : Z
}.

(** *** Budget input ([_collect_business_info])

    The [while True] loop that reads the daily budget.  Each input line
    either parses as an integer ([Some n]) or makes [int] raise
    [ValueError] ([None]); the loop leaves only on a positive integer.
    Running out of input makes [input] raise [EOFError]. *)
Fixpoint read_budget (lines : list (option Z)) : result Z :=
  match lines with
  | [] => Raise EOFError
  | Some budget_daily :: rest =>
      if budget_daily >? 0 then Ok budget_daily else read_budget rest
  | None :: rest => read_budget rest
  end.

(** *** Budget and forecast ([_calculate_budget_and_forecast]) *)

(** The [budget_allocation] dictionary literal. *)
Definition allocate (budget_daily : Z) : result budget_allocation :=
  (let budget := PyInt budget_daily in
   high_budget <- (x <- mul budget (PyFloat lit_0_6) ;; to_int x) ;;
   medium_budget <- (x <- mul budget (PyFloat lit_0_3) ;; to_int x) ;;
   low_budget <- (x <- mul budget (PyFloat lit_0_1) ;; to_int x) ;;
   Ok {| daily_budget := budget_daily;
         high_priority_percent := 60;
         medium_priority_percent := 30;
         low_priority_percent := 10;
         high_priority_budget := high_budget;
         medium_priority_budget := medium_budget;
         low_priority_budget := low_budget |})%res.

(** The forecast: [avg_cpc], [ctr], [conversion_rate] and the
    [expected_performance] dictionary literal. *)
Definition forecast (budget_daily : Z) : result expected_performance :=
  (let budget := PyInt budget_daily in
   let avg_cpc := 45 in
   let ctr := lit_0_025 in
   let conversion_rate := lit_0_08 in
   expected_clicks <- truediv budget (PyInt avg_cpc) ;;
   expected_conversions <- mul expected_clicks (PyFloat conversion_rate) ;;
   clicks_per_day <- to_int expected_clicks ;;
   conversions_per_day <- to_int expected_conversions ;;
   cost <- (q <- truediv budget (max_with_one expected_conversions) ;; to_int q) ;;
   month_conversions <- (x <- mul expected_conversions (PyInt 30) ;; to_int x) ;;
   Ok {| expected_clicks_per_day := clicks_per_day;
         expected_conversions_per_day := conversions_per_day;
         expected_cpc := avg_cpc;
         expected_ctr := ctr;
         expected_conversion_rate := conversion_rate;
         cost_per_conversion := cost;
         monthly_budget := budget_daily * 30;
         monthly_conversions := month_conversions |})%res.

Definition _calculate_budget_and_forecast (business_info : BusinessInfo)
    (semantic_core : SemanticCore) (analysis : LandingAnalysis)
    : result (budget_allocation * expected_performance) :=
  (n_high <- Json.len (high_priority semantic_core) ;;
   n_medium <- Json.len (medium_priority semantic_core) ;;
   n_low <- Json.len (low_priority semantic_core) ;;
   let total_keywords := n_high + n_medium + n_low in
   budget_allocation <- allocate (budget_daily business_info) ;;
   expected_performance <- forecast (budget_daily business_info) ;;
   Ok (budget_allocation, expected_performance))%res.

(** *** Semantic core *)

Section SemanticCoreAssembly.

(** The remote platform behind [self.yandex_client]. *)
Variable api : list Direct.request -> Direct.request -> Direct.wire.
Variable raises_for_status : Z -> bool.

(** The content-generation service: [responses.create] with a reasoning
    effort and a prompt returns the output text or raises. *)
Variable openai_create : string -> string -> result string.

(** [json.loads] on a text that starts with an opening brace: a
    dictionary, or a decoding error. *)
Variable json_loads : string -> result Json.dict.

(** The prompt template of [_generate_ai_keywords].  The source builds
    the prompt before its [try], joining the keywords, the pain points and
    the value propositions of the analysis; on lists of strings, which is
    what [LandingAnalysis] declares and what this record holds, that cannot
    fail.  [Generated._generate_ai_keywords] is the same method on an
    analysis whose fields hold whatever the generated answer held, where
    it can. *)
Variable keywords_prompt : LandingAnalysis -> Z -> string.

Definition _safe_json_parse (content : string) : Json.dict :=
  match Json.search_braces content with
  | Some json_match =>
      match json_loads json_match with
      | Ok parsed => parsed
      | Raise _ => []
      end
  | None => []
  end.

Definition empty_keywords : Json.dict :=
  [("high_priority", Json.JArr []);
   ("medium_priority", Json.JArr []);
   ("low_priority", Json.JArr []);
   ("negative_keywords", Json.JArr [])].

Definition _generate_ai_keywords (analysis : LandingAnalysis) (budget : Z)
    : Json.dict :=
  let prompt := keywords_prompt analysis budget in
  match openai_create "high" prompt with
  | Ok output_text => _safe_json_parse output_text
  | Raise _ => empty_keywords
  end.

Fixpoint format_suggestions (suggestions : list Direct.suggestion)
    (formatted_suggestions : list core_suggestion)
    : result (list core_suggestion) :=
  match suggestions with
  | [] => Ok formatted_suggestions
  | suggestion :: rest =>
      (bid <- to_int (Direct.sg_average_bid suggestion) ;;
       format_suggestions rest
         (formatted_suggestions ++
          [{| cs_keyword := Direct.sg_keyword suggestion;
              cs_bid := bid;
              cs_search_volume := Direct.sg_search_volume suggestion;
              cs_competition := Direct.sg_competition suggestion;
              cs_source := "yandex_api" |}]))%res
  end.

Definition fallback_suggestions (base_keywords : list string)
    : list core_suggestion :=
  map (fun keyword =>
         {| cs_keyword := keyword; cs_bid := 50; cs_search_volume := 1000;
            cs_competition := "MEDIUM"; cs_source := "fallback" |})
      (firstn 5 base_keywords).

Definition _get_yandex_keyword_suggestions (base_keywords : list string)
    : Direct.io (list core_suggestion) :=
  Direct.try_except
    (Direct.bind
       (Direct.get_keyword_suggestions api raises_for_status base_keywords)
       (fun suggestions => Direct.lift (format_suggestions suggestions [])))
    (fun _ => Direct.ret (fallback_suggestions base_keywords)).

Local Notation "x <~ c ;; k" := (Direct.bind c (fun x => k))
  (at level 61, c at next level, right associativity).

Definition _create_semantic_core_with_yandex (analysis : LandingAnalysis)
    (budget : Z) : Direct.io SemanticCore :=
  let ai_keywords := _generate_ai_keywords analysis budget in
  suggestions <~ _get_yandex_keyword_suggestions (keywords analysis) ;;
  high <~ Direct.lift (Json.getitem ai_keywords "high_priority") ;;
  medium <~ Direct.lift (Json.getitem ai_keywords "medium_priority") ;;
  low <~ Direct.lift (Json.getitem ai_keywords "low_priority") ;;
  negative <~ Direct.lift (Json.getitem ai_keywords "negative_keywords") ;;
  let semantic_core :=
    {| high_priority := high; medium_priority := medium;
       low_priority := low; negative_keywords := negative;
       yandex_suggestions := suggestions |} in
  (* the closing log line formats len(semantic_core.high_priority) *)
  _ <~ Direct.lift (Json.len (high_priority semantic_core)) ;;
  Direct.ret semantic_core.

End SemanticCoreAssembly.

(** *** Observations on a semantic core, used to state its properties *)

(** The keyword texts of a tier: the ["keyword"] strings of its entries. *)
Definition entry_text (entry : Json.json) : list string :=
  match entry with
  | Json.JObj fields =>
      match Json.lookup "keyword" fields with
      | Some (Json.JStr text) => [text]
      | _ => []
      end
  | _ => []
  end.

Definition tier_texts (tier : Json.json) : list string :=
  match tier with
  | Json.JArr entries => flat_map entry_text entries
  | _ => []
  end.

Definition negative_texts (negatives : Json.json) : list string :=
  match negatives with
  | Json.JArr entries =>
      flat_map (fun e => match e with Json.JStr s => [s] | _ => [] end) entries
  | _ => []
  end.

Definition tier_is_empty (tier : Json.json) : bool :=
  match tier with
  | Json.JArr [] => true
  | _ => false
  end.

Definition all_tiers_empty (core : SemanticCore) : bool :=
  tier_is_empty (high_priority core) &&
  tier_is_empty (medium_priority core) &&
  tier_is_empty (low_priority core).

Definition is_list (v : Json.json) : bool :=
  match v with Json.JArr _ => true | _ => false end.

(** A semantic core whose three tiers are lists, as its annotations say. *)
Definition tiers_are_lists (core : SemanticCore) : bool :=
  is_list (high_priority core) &&
  is_list (medium_priority core) &&
  is_list (low_priority core).

End Manager.

(** ** Concrete inputs used in examples *)

Module Scenarios.
Import PyNum.

(** *** Bid optimisation *)

Definition entry_50 : Rebid.keyword_bid :=
  {| Rebid.kb_keyword := Some "shoes"; Rebid.kb_bid := Some (PyInt 50) |}.

(** An entry whose integer bid is too large for a float. *)
Definition entry_huge : Rebid.keyword_bid :=
  {| Rebid.kb_keyword := Some "boots"; Rebid.kb_bid := Some (PyInt (2 ^ 1024)) |}.

(** An entry without a ["bid"] key. *)
Definition entry_no_bid : Rebid.keyword_bid :=
  {| Rebid.kb_keyword := Some "laces"; Rebid.kb_bid := None |}.

(** *** Budget allocation *)

Definition business (budget : Z) : Manager.BusinessInfo :=
  {| Manager.website := None; Manager.description := "shoe shop";
     Manager.bi_industry := "retail"; Manager.bi_target_audience := "adults";
     Manager.budget_daily := budget; Manager.budget_currency := "RUB" |}.

Definition candidate (text : string) (bid : Z) : Json.json :=
  Json.JObj [("keyword", Json.JStr text); ("bid", Json.JNum (PyInt bid))].

(** A semantic core with tiers of sizes 5, 3 and 2. *)
Definition core_5_3_2 : Manager.SemanticCore :=
  {| Manager.high_priority :=
       Json.JArr [candidate "buy shoes" 100; candidate "shoes price" 100;
                  candidate "order shoes" 100; candidate "shoes delivery" 100;
                  candidate "shoe shop" 100];
     Manager.medium_priority :=
       Json.JArr [candidate "leather shoes" 70; candidate "winter shoes" 70;
                  candidate "shoes sale" 70];
     Manager.low_priority :=
       Json.JArr [candidate "shoe care" 30; candidate "shoe sizes" 30];
     Manager.negative_keywords := Json.JArr [Json.JStr "free"];
     Manager.yandex_suggestions := [] |}.

Definition analysis : Manager.LandingAnalysis :=
  {| Manager.source := "description"; Manager.title := "Shoe shop";
     Manager.la_description := "shoes"; Manager.keywords := ["shoes"; "boots"];
     Manager.pain_points := []; Manager.unique_value_propositions := [];
     Manager.target_audience := "adults"; Manager.industry := "retail";
     Manager.competitors := []; Manager.call_to_action := "Buy" |}.

(** *** Remote platform *)

Import Direct.

(** A platform that cannot be reached. *)
Definition api_down (tr : list request) (r : request) : wire := NoReply.

Definition reply_ok (r : api_result) : wire :=
  Reply 200 (Some {| body_error := None; body_result := Some r |}).

Definition add_results (items : list add_item) : api_result :=
  {| AddResults := Some items; Errors := None;
     KeywordsByKeywordSearchResults := None |}.

Definition item_ok (id : Z) : add_item :=
  {| item_Id := Some id; item_Errors := None |}.

Definition item_rejected (code : Z) (message : string) : add_item :=
  {| item_Id := None;
     item_Errors := Some [{| err_code := code; err_message := message |}] |}.

(** The campaign is created; of the two ad groups submitted, the first
    is rejected and the second is created; keywords and ads would be
    created if asked for. *)
Definition api_group_A_rejected (tr : list request) (r : request) : wire :=
  if String.eqb (service r) "campaigns" then reply_ok (add_results [item_ok 100])
  else if String.eqb (service r) "adgroups"
  then reply_ok (add_results [item_rejected 5005 "invalid group name"; item_ok 7])
  else reply_ok (add_results [item_ok 1]).

Definition keyword_buy : keyword_config :=
  {| kc_text := Some "buy shoes"; kc_bid := Some 10;
     kc_param1 := None; kc_param2 := None |}.

Definition ad_shoes : ad_config :=
  {| ac_title := Some "Shoes"; ac_text := Some "Buy shoes";
     ac_href := None; ac_title2 := None; ac_display_href := None |}.

Definition group_named (name : string) : group_config :=
  {| gc_name := Some name; gc_region_ids := None; gc_negative_keywords := None;
     gc_keywords := Some [keyword_buy]; gc_ads := Some [ad_shoes] |}.

(** A plan with two ad groups, A and B, each with a keyword and an ad. *)
Definition plan_AB : strategy_config :=
  {| sc_campaign := None; sc_ad_groups := Some [group_named "A"; group_named "B"] |}.

Definition always_raises (status : Z) : bool := true.

(** *** Generated text *)

(** Generated text in which one keyword is both a high-priority
    candidate and a negative keyword, and what [json.loads] makes of it. *)
Definition quoted (s : string) : string :=
  String (ascii_of_nat 34) s ++ String (ascii_of_nat 34) EmptyString.

Definition text_conflict : string :=
  "{" ++ quoted "high_priority" ++ ": [{" ++ quoted "keyword" ++ ": "
      ++ quoted "cheap shoes" ++ ", " ++ quoted "bid" ++ ": 100}], "
      ++ quoted "medium_priority" ++ ": [], "
      ++ quoted "low_priority" ++ ": [], "
      ++ quoted "negative_keywords" ++ ": [" ++ quoted "cheap shoes" ++ "]}".

Definition parsed_conflict : Json.dict :=
  [("high_priority", Json.JArr [candidate "cheap shoes" 100]);
   ("medium_priority", Json.JArr []);
   ("low_priority", Json.JArr []);
   ("negative_keywords", Json.JArr [Json.JStr "cheap shoes"])].

Definition loads_conflict (s : string) : result Json.dict :=
  if String.eqb s text_conflict then Ok parsed_conflict else Raise ValueError.

Definition generate_conflict (effort prompt : string) : result string :=
  Ok text_conflict.

(** Generated text without any JSON in it. *)
Definition generate_prose (effort prompt : string) : result string :=
  Ok "Sorry, I cannot produce keywords for this business.".

(** A content-generation service that is down. *)
Definition generate_down (effort prompt : string) : result string :=
  Raise (PyException "service unavailable" []).

Definition loads_nothing (s : string) : result Json.dict := Raise ValueError.

Definition prompt_stub (a : Manager.LandingAnalysis) (budget : Z) : string :=
  "prompt".

(** Two readings of the clock. *)
Definition today : string := "2025-06-01".
Definition now_iso : string := "2025-06-01T12:00:00".

End Scenarios.

(** ** Auxiliary notions for reasoning about binary64 rounding *)

Module FloatAux.
Import PyNum.

(** The number of binary digits of a mantissa. *)
Definition digits (p : positive) : Z := Zpos (digits2_pos p).

(** What a shift record knows about the bits it has dropped:
    [m = shr_m * 2^k + rem], with the round bit telling whether [rem]
    reaches half of [2^k] and the sticky bit whether it lies strictly
    between the representable points. *)
Definition shr_inv (m k : Z) (mrs : shr_record) : Prop :=
  0 <= shr_m mrs /\
  exists rem, m = shr_m mrs * 2 ^ k + rem /\ 0 <= rem < 2 ^ k /\
    (shr_r mrs = true <-> 2 ^ k <= 2 * rem) /\
    (shr_s mrs = true <-> 2 * rem <> 0 /\ 2 * rem <> 2 ^ k).

(** The record reached by the first shift of [binary_round_aux] when the
    mantissa has at least 53 digits. *)
Definition shifted (p : positive) (l : location) : shr_record :=
  Nat.iter (Z.to_nat (digits p - 53)) shr_1 (shr_record_of_loc (Zpos p) l).

Definition rounded (p : positive) (l : location) : Z :=
  round_nearest_even (shr_m (shifted p l)) (loc_of_shr_record (shifted p l)).

Definition fin_or_inf (s : bool) (m : positive) (e : Z) : float :=
  if e <=? emax - prec then S754_finite s m e else S754_infinity s.

(** A float that is finite with a full 53-digit mantissa and binade
    [e + 53] between [lo] and [hi]. *)
Definition normal (lo hi : Z) (s : bool) (x : float) : Prop :=
  exists m e, x = S754_finite s m e /\ digits m = 53 /\ lo <= e + 53 <= hi.

(** The aligned mantissa of an integer. *)
Definition aligned (p : positive) : positive :=
  if digits p <=? 53 then Z.to_pos (Zpos p * 2 ^ (53 - digits p)) else p.

End FloatAux.

(** ** Observations on provisioning, used to state its properties *)

Module Rollout.
Import Direct.

(** The id and the errors one ["AddResults"] item contributes. *)
Definition item_ids (item : add_item) : list Z :=
  match item_Id item with
  | Some id => [id]
  | None => []
  end.

Definition item_errors (item : add_item) : list api_error :=
  match item_Id item, item_Errors item with
  | None, Some errs => errs
  | _, _ => []
  end.

Definition keywords_request (group_id : Z) (keywords_config : list keyword_config)
    : request :=
  {| service := "keywords"; method := "add";
     req_params := KeywordsParams (map (build_keyword group_id) keywords_config) |}.

Definition ads_request (group_id : Z) (ads_config : list ad_config) : request :=
  {| service := "ads"; method := "add";
     req_params := AdsParams (map (build_ad group_id) ads_config) |}.

(** Created group ids paired by position with the configured groups. *)
Definition keywords_of_pair (p : Z * group_config) : list request :=
  let keywords_config := dict_get (gc_keywords (snd p)) [] in
  if nonempty keywords_config then [keywords_request (fst p) keywords_config] else [].

Definition ads_of_pair (p : Z * group_config) : list request :=
  let ads_config := dict_get (gc_ads (snd p)) [] in
  if nonempty ads_config then [ads_request (fst p) ads_config] else [].

Definition planned_keywords (group_ids : list Z) (groups_config : list group_config)
    : list request :=
  flat_map keywords_of_pair (combine group_ids groups_config).

Definition planned_ads (group_ids : list Z) (groups_config : list group_config)
    : list request :=
  flat_map ads_of_pair (combine group_ids groups_config).

(** The whole plan of a run, once the campaign id and the group ids are
    known. *)
Definition planned_requests (today : string) (plan : strategy_config)
    (campaign_id : Z) (group_ids : list Z) : list request :=
  let groups_config := dict_get (sc_ad_groups plan) [] in
  campaign_request today (dict_get (sc_campaign plan) empty_campaign_config)
    :: groups_request campaign_id groups_config
    :: planned_keywords group_ids groups_config ++ planned_ads group_ids groups_config.

(** [sent] is an initial part of [planned]. *)
Definition initial_part (sent planned : list request) : Prop :=
  exists rest, planned = sent ++ rest.

(** *** What the platform answers

    The answers are read through [_make_request]: the request is the one
    the client would send after the requests of [tr]. *)

(** The first campaign id of the answer to the campaign request: the
    answer holds ["AddResults"], no item without an id carries errors,
    and some item holds an id. *)
Definition campaign_id_answered (api : list request -> request -> wire)
    (raises_for_status : Z -> bool) (today : string)
    (campaign_config : campaign_config) (tr : list request) : option Z :=
  match fst (_make_request api raises_for_status "campaigns" "add"
               (CampaignsParams [build_campaign_data today campaign_config]) tr) with
  | Ok (Some r) =>
      match AddResults r with
      | Some add_results =>
          match flat_map item_errors add_results, flat_map item_ids add_results with
          | [], campaign_id :: _ => Some campaign_id
          | _, _ => None
          end
      | None => None
      end
  | _ => None
  end.

(** The errors of the answer to a batch (ad groups, keywords or ads): those
    of its items without an id. *)
Definition batch_errors (api : list request -> request -> wire)
    (raises_for_status : Z -> bool) (batch : request) (tr : list request)
    : list api_error :=
  match fst (_make_request api raises_for_status (service batch) (method batch)
               (req_params batch) tr) with
  | Ok (Some r) => flat_map item_errors (dict_get (AddResults r) [])
  | _ => []
  end.

(** The ids of the answer to a batch, when the request returns a
    dictionary and no item without an id carries errors. *)
Definition batch_ids (api : list request -> request -> wire)
    (raises_for_status : Z -> bool) (batch : request) (tr : list request)
    : option (list Z) :=
  match fst (_make_request api raises_for_status (service batch) (method batch)
               (req_params batch) tr) with
  | Ok (Some r) =>
      match flat_map item_errors (dict_get (AddResults r) []) with
      | [] => Some (flat_map item_ids (dict_get (AddResults r) []))
      | _ => None
      end
  | _ => None
  end.

(** Every batch of a list, sent in order after [tr], is accepted. *)
Fixpoint accepted (api : list request -> request -> wire)
    (raises_for_status : Z -> bool) (batches : list request) (tr : list request)
    : bool :=
  match batches with
  | [] => true
  | batch :: rest =>
      match batch_ids api raises_for_status batch tr with
      | Some _ => accepted api raises_for_status rest (tr ++ [batch])
      | None => false
      end
  end.

(** The exception a run ends with when the campaign request gives no
    campaign id. *)
Definition campaign_failure (api : list request -> request -> wire)
    (raises_for_status : Z -> bool) (today : string)
    (campaign_config : campaign_config) (tr : list request) : exn :=
  match fst (_make_request api raises_for_status "campaigns" "add"
               (CampaignsParams [build_campaign_data today campaign_config]) tr) with
  | Raise e => e
  | Ok None => TypeError
  | Ok (Some r) =>
      match AddResults r with
      | None => PyException "unexpected API response structure" []
      | Some add_results =>
          match flat_map item_errors add_results with
          | [] => IndexError
          | errors => PyException "campaign creation errors" errors
          end
      end
  end.

(** *** The shape the three batch methods share

    [create_ad_groups], [create_keywords] and [create_ads] differ in the
    request they build and in the text of their exception only. *)
Definition send_batch (api : list request -> request -> wire)
    (raises_for_status : Z -> bool) (label : string) (batch : request) : io created :=
  logged (
    bind (_make_request api raises_for_status (service batch) (method batch)
            (req_params batch))
      (fun result =>
         match result with
         | None => throw AttributeError
         | Some r =>
             let '(ids, errors) :=
               collect_add_results (dict_get (AddResults r) []) [] [] in
             if nonempty errors
             then throw (PyException label errors)
             else ret {| created_ids := ids; raw_result := r |}
         end)).

Fixpoint send_all (api : list request -> request -> wire)
    (raises_for_status : Z -> bool) (label : string) (batches : list request)
    : io unit :=
  match batches with
  | [] => ret tt
  | batch :: rest =>
      bind (send_batch api raises_for_status label batch)
        (fun _ => send_all api raises_for_status label rest)
  end.

(** The summary of a run that created the campaign and the groups. *)
Definition summary_of (now_iso : string) (campaign_id : Z) (group_ids : list Z)
    : campaign_summary :=
  {| Direct.campaign_id := campaign_id;
     groups_count := Z.of_nat (List.length group_ids);
     created_at := now_iso;
     status := "created_in_draft";
     next_steps := ["Check the campaign settings";
                    "Test the ads";
                    "Send to moderation"] |}.

End Rollout.

(** ** Observations on keyword suggestions, used to state their properties *)

Module Suggest.
Import PyNum Direct Manager.

(** The one request [get_keyword_suggestions] sends. *)
Definition suggestion_request (base_keywords : list string) : request :=
  {| service := "keywordsresearch"; method := "get";
     req_params := KeywordsByKeyword (firstn 10 base_keywords) [225] |}.

(** The keywords of a reply, in the order of the reply. *)
Definition reply_keywords (results : list keyword_result) : list keyword_data :=
  flat_map (fun keyword_result => dict_get (kr_Keywords keyword_result) []) results.

(** A keyword whose ["AverageBid"] is absent or an integer number of
    micro-roubles of magnitude below [2^52]. *)
Definition micro_bid (keyword_data : keyword_data) : option Z :=
  match kd_AverageBid keyword_data with
  | None => Some 0
  | Some (PyInt n) => if Z.abs n <? 2 ^ 52 then Some n else None
  | Some (PyFloat _) => None
  end.

Definition has_micro_bid (keyword_data : keyword_data) : bool :=
  match micro_bid keyword_data with Some _ => true | None => false end.

(** The suggestion such a keyword ends up as in the semantic core: the
    bid in whole roubles, truncated toward zero. *)
Definition in_roubles (keyword_data : keyword_data) : core_suggestion :=
  {| cs_keyword := dict_get (kd_Keyword keyword_data) EmptyString;
     cs_bid := Z.quot (dict_get (micro_bid keyword_data) 0) 1000000;
     cs_search_volume := dict_get (kd_SearchVolume keyword_data) 0;
     cs_competition := dict_get (kd_Competition keyword_data) "UNKNOWN";
     cs_source := "yandex_api" |}.

Definition from_platform (s : core_suggestion) : bool :=
  String.eqb (cs_source s) "yandex_api".

(** A bid [int] accepts: anything but an infinity and NaN. *)
Definition has_integer_part (bid : num) : bool :=
  match bid with
  | PyFloat (S754_infinity _) | PyFloat S754_nan => false
  | _ => true
  end.

Definition integer_part (bid : num) : Z :=
  match to_int bid with
  | Ok n => n
  | Raise _ => 0
  end.

Definition convertible (s : suggestion) : bool := has_integer_part (sg_average_bid s).

(** A suggestion of the client in the format of the semantic core. *)
Definition formatted (s : suggestion) : core_suggestion :=
  {| cs_keyword := sg_keyword s;
     cs_bid := integer_part (sg_average_bid s);
     cs_search_volume := sg_search_volume s;
     cs_competition := sg_competition s;
     cs_source := "yandex_api" |}.

End Suggest.

(** ** Observations on generated text *)

Module Text.

(** Whether a character occurs in a text. *)
Fixpoint occurs (c : ascii) (s : string) : bool :=
  match s with
  | EmptyString => false
  | String c' rest => Ascii.eqb c' c || occurs c rest
  end.

(** A text laid out as prose, an opening brace, a middle part, a closing
    brace and more prose. *)
Definition around (pre mid post : string) : string :=
  (pre ++ String "{" (mid ++ String "}" post))%string.

Definition braced (mid : string) : string :=
  String "{" (mid ++ String "}" EmptyString)%string.

End Text.

(** ** The interactive intake ([_collect_business_info]) *)

Module Console.
Import Manager.

(** [input(...)] on the lines still to be typed: the next line, or
    [EOFError] when there is none. *)
Definition input (lines : list string) : result (string * list string) :=
  match lines with
  | [] => Raise EOFError
  | line :: rest => Ok (line, rest)
  end.

Definition is_empty (s : string) : bool :=
  match s with EmptyString => true | _ => false end.

(** [website.startswith(('http://', 'https://'))] *)
Definition starts_with_scheme (website : string) : bool :=
  String.prefix "http://" website || String.prefix "https://" website.

(** A budget line the loop turns away: not an integer, or not positive. *)
Definition turned_away (line : option Z) : bool :=
  match line with
  | Some budget_daily => budget_daily <=? 0
  | None => true
  end.

Section Intake.

(** [str.strip] and [int] on a typed line ([None] for [ValueError]). *)
Variable strip : string -> string.
Variable int_of_line : string -> option Z.

(** The first part of the dialogue: the website or the description. *)
Definition ask_business (lines : list string)
    : result (option string * string * list string) :=
  (answer <- input lines ;;
   let choice := strip (fst answer) in
   if String.eqb choice "1" then
     answer <- input (snd answer) ;;
     let website := strip (fst answer) in
     let website :=
       if negb (is_empty website) && negb (starts_with_scheme website)
       then ("https://" ++ website)%string else website in
     if is_empty website || String.eqb website "https://" || String.eqb website "http://"
     then
       answer <- input (snd answer) ;;
       Ok (None, strip (fst answer), snd answer)
     else Ok (Some website, EmptyString, snd answer)
   else
     answer <- input (snd answer) ;;
     Ok (None, strip (fst answer), snd answer))%res.

Definition _collect_business_info (lines : list string) : result BusinessInfo :=
  (business <- ask_business lines ;;
   let '(website, description, lines) := business in
   budget_daily <- read_budget (map int_of_line lines) ;;
   Ok {| website := website;
         description := description;
         bi_industry := EmptyString;
         bi_target_audience := EmptyString;
         budget_daily := budget_daily;
         budget_currency := "RUB" |})%res.

End Intake.

End Console.

(** ** Creatives and business analysis from generated text *)

Module Generated.
Import Manager.

(** [d.get(key, default)] on a parsed dictionary. *)
Definition get (d : Json.dict) (key : string) (default : Json.json) : Json.json :=
  dict_get (Json.lookup key d) default.

(** *** Creatives ([_generate_professional_creatives]) *)

(** The dataclass does not check its fields. *)
Record AdCreatives := {
  ads : Json.json;
  sitelinks : Json.json;
  callouts : Json.json
}.

Definition no_creatives : AdCreatives :=
  {| ads := Json.JArr []; sitelinks := Json.JArr []; callouts := Json.JArr [] |}.

(** The creatives read from a parsed answer. *)
Definition creatives_of (parsed : Json.dict) : AdCreatives :=
  {| ads := get parsed "ads" (Json.JArr []);
     sitelinks := get parsed "sitelinks" (Json.JArr []);
     callouts := get parsed "callouts" (Json.JArr []) |}.

(** *** Business analysis ([_analyze_business_deep]) *)

(** The analysis as it is built from the parsed answer: apart from the
    source, every field holds whatever the answer held. *)
Record LandingAnalysis := {
  source : string;
  title : Json.json;
  description : Json.json;
  keywords : Json.json;
  pain_points : Json.json;
  unique_value_propositions : Json.json;
  target_audience : Json.json;
  industry : Json.json;
  competitors : Json.json;
  call_to_action : Json.json
}.

Definition analysis_of (source : string) (parsed : Json.dict) : LandingAnalysis :=
  {| source := source;
     title := get parsed "title" (Json.JStr "Undefined");
     description := get parsed "description" (Json.JStr "Undefined");
     keywords := get parsed "keywords" (Json.JArr []);
     pain_points := get parsed "pain_points" (Json.JArr []);
     unique_value_propositions :=
       get parsed "unique_value_propositions" (Json.JArr []);
     target_audience := get parsed "target_audience" (Json.JStr "Undefined");
     industry := get parsed "industry" (Json.JStr "Undefined");
     competitors := get parsed "competitors" (Json.JArr []);
     call_to_action := get parsed "call_to_action" (Json.JStr "Learn more") |}.

(** [', '.join(value)], used to build the prompts, is defined on a list
    of strings, on a string (its characters) and on a dictionary (its
    keys); on anything else it raises [TypeError]. *)
Definition is_text (v : Json.json) : bool :=
  match v with Json.JStr _ => true | _ => false end.

Definition joinable (v : Json.json) : bool :=
  match v with
  | Json.JArr items => forallb is_text items
  | Json.JStr _ | Json.JObj _ => true
  | Json.JNull | Json.JBool _ | Json.JNum _ => false
  end.

(** An analysis whose fields hold what the dataclass declares, strings
    and lists of strings, read as the typed record. *)
Definition text_of (v : Json.json) : option string :=
  match v with Json.JStr s => Some s | _ => None end.

Fixpoint texts_of_items (items : list Json.json) : option (list string) :=
  match items with
  | [] => Some []
  | Json.JStr s :: rest => option_map (cons s) (texts_of_items rest)
  | _ :: _ => None
  end.

Definition texts_of (v : Json.json) : option (list string) :=
  match v with Json.JArr items => texts_of_items items | _ => None end.

Definition as_declared (analysis : LandingAnalysis) : option Manager.LandingAnalysis :=
  match text_of (title analysis), text_of (description analysis),
        texts_of (keywords analysis), texts_of (pain_points analysis),
        texts_of (unique_value_propositions analysis),
        text_of (target_audience analysis), text_of (industry analysis),
        texts_of (competitors analysis), text_of (call_to_action analysis) with
  | Some title, Some description, Some keywords, Some pain_points,
    Some unique_value_propositions, Some target_audience, Some industry,
    Some competitors, Some call_to_action =>
      Some {| Manager.source := source analysis;
              Manager.title := title;
              Manager.la_description := description;
              Manager.keywords := keywords;
              Manager.pain_points := pain_points;
              Manager.unique_value_propositions := unique_value_propositions;
              Manager.target_audience := target_audience;
              Manager.industry := industry;
              Manager.competitors := competitors;
              Manager.call_to_action := call_to_action |}
  | _, _, _, _, _, _, _, _, _ => None
  end.

(** The other way round: a typed analysis as the values it holds. *)
Definition declared (analysis : Manager.LandingAnalysis) : LandingAnalysis :=
  {| source := Manager.source analysis;
     title := Json.JStr (Manager.title analysis);
     description := Json.JStr (Manager.la_description analysis);
     keywords := Json.JArr (map Json.JStr (Manager.keywords analysis));
     pain_points := Json.JArr (map Json.JStr (Manager.pain_points analysis));
     unique_value_propositions :=
       Json.JArr (map Json.JStr (Manager.unique_value_propositions analysis));
     target_audience := Json.JStr (Manager.target_audience analysis);
     industry := Json.JStr (Manager.industry analysis);
     competitors := Json.JArr (map Json.JStr (Manager.competitors analysis));
     call_to_action := Json.JStr (Manager.call_to_action analysis) |}.

Definition set_description (business_info : BusinessInfo) (text : string)
    : BusinessInfo :=
  {| website := website business_info;
     Manager.description := text;
     bi_industry := bi_industry business_info;
     bi_target_audience := bi_target_audience business_info;
     budget_daily := budget_daily business_info;
     budget_currency := budget_currency business_info |}.

Section Generation.

Variable openai_create : string -> string -> result string.
Variable json_loads : string -> result Json.dict.

(** [str.strip] on generated text. *)
Variable strip : string -> string.

(** The text of a page without its scripts, styles, navigation and
    footer, cut to its first 5000 characters; fetching may fail. *)
Variable page_text : string -> result string.

(** The prompt templates. *)
Variable keywords_prompt : LandingAnalysis -> Z -> string.
Variable creatives_prompt : LandingAnalysis -> string.
Variable enhance_prompt : string -> string.
Variable analysis_prompt : string -> string.

(** [_generate_ai_keywords] on the analysis [_analyze_business_deep]
    returned.  The prompt is built before the [try]: it joins the
    keywords, the pain points and the value propositions, which raises
    [TypeError] when one of them cannot be joined.  What follows is inside
    the [try], whose handler returns the four empty tiers. *)
Definition _generate_ai_keywords (analysis : LandingAnalysis) (budget : Z)
    : result Json.dict :=
  if joinable (keywords analysis) && joinable (pain_points analysis) &&
     joinable (unique_value_propositions analysis)
  then
    let prompt := keywords_prompt analysis budget in
    Ok (match openai_create "high" prompt with
        | Ok output_text => _safe_json_parse json_loads output_text
        | Raise _ => empty_keywords
        end)
  else Raise TypeError.

(** The analysis is the one [_analyze_business_deep] returned.  The
    prompt is built before the [try]: it joins the pain points and the
    value propositions, which raises [TypeError] when one of them cannot
    be joined. *)
Definition _generate_professional_creatives (analysis : LandingAnalysis)
    (semantic_core : SemanticCore) : result AdCreatives :=
  if joinable (pain_points analysis) && joinable (unique_value_propositions analysis)
  then
    let prompt := creatives_prompt analysis in
    Ok (match
          (output_text <- openai_create "medium" prompt ;;
           let result := _safe_json_parse json_loads output_text in
           let creatives := creatives_of result in
           (* the log line formats len(creatives.ads) *)
           _ <- Json.len (ads creatives) ;;
           Ok creatives)%res
        with
        | Ok creatives => creatives
        | Raise _ => no_creatives
        end)
  else Raise TypeError.

Definition _enhance_business_description (description : string) : string :=
  match openai_create "low" (enhance_prompt description) with
  | Ok output_text => strip output_text
  | Raise _ => description
  end.

Definition _fetch_page_content (url : string) : string :=
  match page_text url with
  | Ok text => text
  | Raise _ => EmptyString
  end.

(** The business description after the first step, which overwrites it
    with its enhanced version when it is not empty. *)
Definition enhanced (business_info : BusinessInfo) : BusinessInfo :=
  match Manager.description business_info with
  | EmptyString => business_info
  | text => set_description business_info (_enhance_business_description text)
  end.

(** The content that is analysed and the name of its source. *)
Definition content_and_source (business_info : BusinessInfo) : string * string :=
  match Direct.truthy_string (website business_info) with
  | Some url => (_fetch_page_content url, url)
  | None => (Manager.description business_info, "description")
  end.

(** The result, and the business information as the call leaves it. *)
Definition _analyze_business_deep (business_info : BusinessInfo)
    : result LandingAnalysis * BusinessInfo :=
  let business_info := enhanced business_info in
  let '(content, source) := content_and_source business_info in
  let prompt := analysis_prompt content in
  ((output_text <- openai_create "medium" prompt ;;
    let result := _safe_json_parse json_loads output_text in
    let analysis := analysis_of source result in
    (* the log line formats len(analysis.keywords) and len(analysis.pain_points) *)
    _ <- Json.len (keywords analysis) ;;
    _ <- Json.len (pain_points analysis) ;;
    Ok analysis)%res,
   business_info).

End Generation.

End Generated.

(** ** Observations on bids *)

Module Bids.
Import PyNum.

(** A bid that is an integer or a finite float. *)
Definition is_finite_bid (bid : num) : bool :=
  match bid with
  | PyInt _ => true
  | PyFloat (S754_zero _) | PyFloat (S754_finite _ _ _) => true
  | PyFloat _ => false
  end.

End Bids.

(** ** The other endpoints of the client

    Forecasts, statistics and bid updates send parameters and read
    replies of other shapes than the creation methods, so they get request
    and reply types of their own; [_make_request] is the same code over
    them. *)

Module Endpoints.
Import PyNum.

(** *** Requests and replies *)

Inductive params :=
| CreateNewForecast (region_ids : list Z) (keywords : list string)
| GetForecast (forecast_id : Z)
| SearchQueryReport (date_from date_to : string)
| CampaignReport (date_from date_to : string) (campaign_ids : list Z)
    (report_date : string)
| KeywordsUpdate (keywords : list (Z * Z)).

Record request := {
  service : string;
  method : string;
  req_params : params
}.

(** One element of ["KeywordForecasts"]. *)
Record forecast_data := {
  fd_Keyword : option string;
  fd_MinSearches : option Z;
  fd_MaxSearches : option Z;
  fd_MinPrice : option num;
  fd_MaxPrice : option num;
  fd_Competition : option string
}.

(** The ["result"] dictionary of a reply. *)
Record api_result := {
  ForecastId : option Z;
  KeywordForecasts : option (list forecast_data)
}.

Definition empty_result : api_result :=
  {| ForecastId := None; KeywordForecasts := None |}.

Record body := {
  body_error : option string;
  body_result : option api_result
}.

Inductive wire :=
| NoReply
| Reply (status : Z) (decoded : option body).

(** A forecast as the client returns it. *)
Record forecast := {
  fc_keyword : string;
  fc_min_searches : Z;
  fc_max_searches : Z;
  fc_min_price : num;
  fc_max_price : num;
  fc_competition : string
}.

Record optimization_result := {
  or_campaign_id : Z;
  optimization_date : string;
  changes_made : Z;
  expected_improvement : string
}.

(** *** Code that talks to the platform *)

Definition io (A : Type) : Type := list request -> result A * list request.

Definition ret {A} (a : A) : io A := fun tr => (Ok a, tr).
Definition throw {A} (e : exn) : io A := fun tr => (Raise e, tr).
Definition lift {A} (r : result A) : io A := fun tr => (r, tr).

Definition bind {A B} (c : io A) (k : A -> io B) : io B :=
  fun tr =>
    match c tr with
    | (Ok a, tr') => k a tr'
    | (Raise e, tr') => (Raise e, tr')
    end.

Definition try_except {A} (c : io A) (handler : exn -> io A) : io A :=
  fun tr =>
    match c tr with
    | (Ok a, tr') => (Ok a, tr')
    | (Raise e, tr') => handler e tr'
    end.

Definition logged {A} (c : io A) : io A := try_except c (fun e => throw e).

Declare Scope endpoint_scope.
Delimit Scope endpoint_scope with endpoint.
Notation "x <- c ;; k" := (bind c (fun x => k))
  (at level 61, c at next level, right associativity) : endpoint_scope.

(** The loop of [update_bids]: ids and bids paired by [zip], each bid
    turned into micro-roubles. *)
Fixpoint bid_updates (keyword_ids : list Z) (new_bids : list num)
    (keywords : list (Z * Z)) : result (list (Z * Z)) :=
  match keyword_ids, new_bids with
  | keyword_id :: ids, bid :: bids =>
      (micro <- (x <- mul bid (PyInt 1000000) ;; to_int x) ;;
       bid_updates ids bids (keywords ++ [(keyword_id, micro)]))%res
  | _, _ => Ok keywords
  end.

(** The loop of [get_keyword_forecast] over ["KeywordForecasts"]. *)
Fixpoint forecasts_of (items : list forecast_data) (forecasts : list forecast)
    : result (list forecast) :=
  match items with
  | [] => Ok forecasts
  | item :: rest =>
      (min_price <- truediv (dict_get (fd_MinPrice item) (PyInt 0)) (PyInt 1000000) ;;
       max_price <- truediv (dict_get (fd_MaxPrice item) (PyInt 0)) (PyInt 1000000) ;;
       forecasts_of rest
         (forecasts ++
          [{| fc_keyword := dict_get (fd_Keyword item) EmptyString;
              fc_min_searches := dict_get (fd_MinSearches item) 0;
              fc_max_searches := dict_get (fd_MaxSearches item) 0;
              fc_min_price := min_price;
              fc_max_price := max_price;
              fc_competition := dict_get (fd_Competition item) "UNKNOWN" |}]))%res
  end.

Section Client.

Variable api : list request -> request -> wire.
Variable raises_for_status : Z -> bool.

(** The clock: today's date, the date seven days ago, and the ISO time. *)
Variable today : string.
Variable week_ago : string.
Variable now_iso : string.

Local Open Scope endpoint_scope.

Definition _make_request (service method : string) (p : params)
    : io (option api_result) :=
  logged (fun tr =>
    let req := {| service := service; method := method; req_params := p |} in
    let tr' := tr ++ [req] in
    match api tr req with
    | NoReply => (Raise (PyException "request failed" []), tr')
    | Reply status decoded =>
        if status =? 200 then
          match decoded with
          | None => (Raise ValueError, tr')
          | Some b =>
              match body_error b with
              | Some _ => (Raise (PyException "Yandex.Direct API Error" []), tr')
              | None => (Ok (Some (dict_get (body_result b) empty_result)), tr')
              end
          end
        else if raises_for_status status
        then (Raise (PyException "HTTP status error" []), tr')
        else (Ok None, tr')
    end).

(** The regions default to [[225]].  A result of [None] stands for the
    [None] a Python function returns when it falls off its end. *)
Definition get_keyword_forecast (keywords : list string)
    : io (option (list forecast)) :=
  let region_ids := [225] in
  try_except
    (result <- _make_request "keywordsresearch" "CreateNewForecast"
                 (CreateNewForecast region_ids (firstn 50 keywords)) ;;
     match result with
     | None => throw TypeError
     | Some r =>
         match ForecastId r with
         | Some forecast_id =>
             forecast_result <- _make_request "keywordsresearch" "GetForecast"
                                  (GetForecast forecast_id) ;;
             match forecast_result with
             | None => throw TypeError
             | Some fr =>
                 match KeywordForecasts fr with
                 | Some items =>
                     forecasts <- lift (forecasts_of items []) ;; ret (Some forecasts)
                 | None => ret (Some [])
                 end
             end
         | None => ret None
         end
     end)
    (fun _ => ret (Some [])).

(** The statistics are never parsed: the list stays empty. *)
Definition get_keyword_statistics (keywords : list string)
    (date_from date_to : string) : io (list Json.dict) :=
  try_except
    (result <- _make_request "reports" "get" (SearchQueryReport date_from date_to) ;;
     match result with
     | None => throw TypeError
     | Some _ => ret []
     end)
    (fun _ => ret []).

Definition get_campaign_stats (campaign_ids : list Z) (date_from date_to : string)
    : io (option api_result) :=
  logged (_make_request "reports" "get"
            (CampaignReport date_from date_to campaign_ids today)).

Definition update_bids (keyword_ids : list Z) (new_bids : list num)
    : io (option api_result) :=
  logged (
    keywords <- lift (bid_updates keyword_ids new_bids []) ;;
    _make_request "keywords" "update" (KeywordsUpdate keywords)).

(** [YandexDirectCampaignManager.optimize_campaign_bids]; its second
    argument, the optimisation rules, is not used. *)
Definition optimize_campaign_bids (campaign_id : Z) : io optimization_result :=
  logged (
    stats <- get_campaign_stats [campaign_id] week_ago today ;;
    ret {| or_campaign_id := campaign_id;
           optimization_date := now_iso;
           changes_made := 0;
           expected_improvement := "5-15%" |}).

End Client.

(** Pairs of an id and an integer bid, in micro-roubles. *)
Definition in_micro_roubles (keyword_ids : list Z) (bids : list Z) : list (Z * Z) :=
  map (fun p => (fst p, snd p * 1000000)) (combine keyword_ids bids).

(** A bid that is an infinity or not a number. *)
Definition is_unbounded (bid : num) : bool :=
  match bid with
  | PyFloat (S754_infinity _) | PyFloat S754_nan => true
  | _ => false
  end.

End Endpoints.

(** ** More concrete inputs *)

Module Examples.
Import Direct.

(** A platform that creates whatever it is asked for: campaign 100, one
    group id per submitted group (counting from 1), and one id for each
    keyword or ad batch. *)
Definition group_items (ad_groups : list ad_group) : list add_item :=
  map (fun n => Scenarios.item_ok (Z.of_nat n)) (seq 1 (List.length ad_groups)).

Definition api_creates_all (tr : list request) (r : request) : wire :=
  match req_params r with
  | CampaignsParams _ => Scenarios.reply_ok (Scenarios.add_results [Scenarios.item_ok 100])
  | AdGroupsParams ad_groups => Scenarios.reply_ok (Scenarios.add_results (group_items ad_groups))
  | _ => Scenarios.reply_ok (Scenarios.add_results [Scenarios.item_ok 1])
  end.

(** A platform whose answer to the ad-group batch has no ["AddResults"]. *)
Definition api_groups_without_results (tr : list request) (r : request) : wire :=
  match req_params r with
  | CampaignsParams _ => Scenarios.reply_ok (Scenarios.add_results [Scenarios.item_ok 100])
  | _ => Scenarios.reply_ok empty_result
  end.

(** A platform that creates the campaign and both groups, accepts the
    keywords of the first group it is asked about and rejects those of the
    second. *)
Definition api_second_keywords_rejected (tr : list request) (r : request) : wire :=
  match req_params r with
  | CampaignsParams _ => Scenarios.reply_ok (Scenarios.add_results [Scenarios.item_ok 100])
  | AdGroupsParams ad_groups => Scenarios.reply_ok (Scenarios.add_results (group_items ad_groups))
  | KeywordsParams _ =>
      if (List.length (requests_to "keywords" tr) =? 0)%nat
      then Scenarios.reply_ok (Scenarios.add_results [Scenarios.item_ok 1])
      else Scenarios.reply_ok
             (Scenarios.add_results
                [Scenarios.item_rejected 5161 "invalid keyword";
                 Scenarios.item_ok 2;
                 {| item_Id := None;
                    item_Errors := Some [{| err_code := 5162; err_message := "too long" |};
                                         {| err_code := 5163; err_message := "duplicate" |}] |}])
  | _ => Scenarios.reply_ok (Scenarios.add_results [Scenarios.item_ok 1])
  end.

(** A platform that creates everything except the ads: every ad batch is
    rejected. *)
Definition api_ads_rejected (tr : list request) (r : request) : wire :=
  match req_params r with
  | CampaignsParams _ => Scenarios.reply_ok (Scenarios.add_results [Scenarios.item_ok 100])
  | AdGroupsParams ad_groups => Scenarios.reply_ok (Scenarios.add_results (group_items ad_groups))
  | AdsParams _ =>
      Scenarios.reply_ok (Scenarios.add_results [Scenarios.item_rejected 5201 "invalid ad"])
  | _ => Scenarios.reply_ok (Scenarios.add_results [Scenarios.item_ok 1])
  end.


(** An ad-group answer in which the first item holds both an id and
    errors, the second neither, the third an id. *)
Definition mixed_items : list add_item :=
  [{| item_Id := Some 7;
      item_Errors := Some [{| err_code := 1; err_message := "warning" |}] |};
   {| item_Id := None; item_Errors := None |};
   Scenarios.item_ok 9].

Definition api_mixed_groups (tr : list request) (r : request) : wire :=
  match req_params r with
  | AdGroupsParams _ => Scenarios.reply_ok (Scenarios.add_results mixed_items)
  | _ => Scenarios.reply_ok (Scenarios.add_results [Scenarios.item_ok 100])
  end.

(** Search results of the keyword-suggestion service. *)
Definition kd (text : string) (bid : PyNum.num) : keyword_data :=
  {| kd_Keyword := Some text; kd_SearchVolume := Some 1000;
     kd_Competition := Some "HIGH"; kd_AverageBid := Some bid |}.

Definition search_results : list keyword_result :=
  [{| kr_Keywords := Some [kd "buy shoes" (PyNum.PyInt 45000000);
                           kd "shoes online" (PyNum.PyInt 30500000)] |};
   {| kr_Keywords := None |};
   {| kr_Keywords := Some [kd "boots" (PyNum.PyInt 0)] |}].

Definition api_suggests (tr : list request) (r : request) : wire :=
  Scenarios.reply_ok
    {| AddResults := None; Errors := None;
       KeywordsByKeywordSearchResults := Some search_results |}.

(** *** Generated text *)

(** The text of [Scenarios.text_conflict] between its outer braces, and
    the same object inside a sentence. *)
Definition conflict_body : string :=
  Scenarios.quoted "high_priority" ++ ": [{" ++ Scenarios.quoted "keyword" ++ ": "
      ++ Scenarios.quoted "cheap shoes" ++ ", " ++ Scenarios.quoted "bid" ++ ": 100}], "
      ++ Scenarios.quoted "medium_priority" ++ ": [], "
      ++ Scenarios.quoted "low_priority" ++ ": [], "
      ++ Scenarios.quoted "negative_keywords" ++ ": [" ++ Scenarios.quoted "cheap shoes" ++ "]".

Definition answer_in_prose : string :=
  Text.around "Here is the core: " conflict_body " Good luck.".

(** Generated text whose medium tier is a number instead of a list. *)
Definition flat_body : string :=
  Scenarios.quoted "high_priority" ++ ": [], "
      ++ Scenarios.quoted "medium_priority" ++ ": 3, "
      ++ Scenarios.quoted "low_priority" ++ ": [], "
      ++ Scenarios.quoted "negative_keywords" ++ ": []".

Definition parsed_flat : Json.dict :=
  [("high_priority", Json.JArr []);
   ("medium_priority", Json.JNum (PyNum.PyInt 3));
   ("low_priority", Json.JArr []);
   ("negative_keywords", Json.JArr [])].

Definition loads_flat (s : string) : result Json.dict :=
  if String.eqb s (Text.braced flat_body) then Ok parsed_flat else Raise ValueError.

Definition generate_flat (effort prompt : string) : result string :=
  Ok (Text.braced flat_body).

(** Creatives whose ["ads"] is not a list. *)
Definition ads_body : string :=
  Scenarios.quoted "ads" ++ ": null, " ++ Scenarios.quoted "callouts" ++ ": ["
      ++ Scenarios.quoted "Free delivery" ++ "]".

Definition parsed_ads : Json.dict :=
  [("ads", Json.JNull); ("callouts", Json.JArr [Json.JStr "Free delivery"])].

Definition loads_ads (s : string) : result Json.dict :=
  if String.eqb s (Text.braced ads_body) then Ok parsed_ads else Raise ValueError.

Definition generate_ads (effort prompt : string) : result string :=
  Ok (Text.braced ads_body).

(** *** The console *)

(** [int] on plain decimal numerals, with an optional minus sign. *)
Fixpoint numeral (s : string) (acc : Z) : option Z :=
  match s with
  | EmptyString => Some acc
  | String c rest =>
      let n := nat_of_ascii c in
      if ((48 <=? n) && (n <=? 57))%nat
      then numeral rest (10 * acc + Z.of_nat (n - 48))
      else None
  end.

Definition int_of_line (s : string) : option Z :=
  match s with
  | EmptyString => None
  | String "-" EmptyString => None
  | String "-" rest => option_map Z.opp (numeral rest 0)
  | _ => numeral s 0
  end.

Definition no_strip (s : string) : string := s.

(** A dialogue: a website without scheme, then three budget lines. *)
Definition typed_lines : list string :=
  ["1"; "shop.example"; "a lot"; "0"; "3500"; "7"].

(** *** Business analysis *)

Definition page_unreachable (url : string) : result string :=
  Raise (PyException "connection refused" []).

Definition prompt_of (content : string) : string := content.

Definition prompt_for (a : Generated.LandingAnalysis) : string := "prompt".

(** The analysis of [Scenarios.analysis] as the analysis stage builds it,
    and one whose pain points are numbers. *)
Definition texts (l : list string) : Json.json := Json.JArr (map Json.JStr l).

Definition analysis_answer : Generated.LandingAnalysis :=
  {| Generated.source := "description";
     Generated.title := Json.JStr "Shoe shop";
     Generated.description := Json.JStr "shoes";
     Generated.keywords := texts ["shoes"; "boots"];
     Generated.pain_points := texts [];
     Generated.unique_value_propositions := texts [];
     Generated.target_audience := Json.JStr "adults";
     Generated.industry := Json.JStr "retail";
     Generated.competitors := texts [];
     Generated.call_to_action := Json.JStr "Buy" |}.

Definition analysis_numbers : Generated.LandingAnalysis :=
  {| Generated.source := "description";
     Generated.title := Json.JStr "Shoe shop";
     Generated.description := Json.JStr "shoes";
     Generated.keywords := texts ["shoes"; "boots"];
     Generated.pain_points :=
       Json.JArr [Json.JNum (PyNum.PyInt 1); Json.JNum (PyNum.PyInt 2)];
     Generated.unique_value_propositions := texts [];
     Generated.target_audience := Json.JStr "adults";
     Generated.industry := Json.JStr "retail";
     Generated.competitors := texts [];
     Generated.call_to_action := Json.JStr "Buy" |}.

Definition core_prompt_for (analysis : Generated.LandingAnalysis) (budget : Z) : string :=
  "core".

(** *** The other endpoints *)

(** A platform whose answers are empty dictionaries. *)
Definition api_empty_answers (tr : list Endpoints.request) (r : Endpoints.request)
    : Endpoints.wire :=
  Endpoints.Reply 200
    (Some {| Endpoints.body_error := None;
             Endpoints.body_result := Some Endpoints.empty_result |}).

Definition forecast_request (keywords : list string) : Endpoints.request :=
  {| Endpoints.service := "keywordsresearch"; Endpoints.method := "CreateNewForecast";
     Endpoints.req_params := Endpoints.CreateNewForecast [225] keywords |}.

Definition fetch_request (forecast_id : Z) : Endpoints.request :=
  {| Endpoints.service := "keywordsresearch"; Endpoints.method := "GetForecast";
     Endpoints.req_params := Endpoints.GetForecast forecast_id |}.

Definition forecast_handed_out : Endpoints.api_result :=
  {| Endpoints.ForecastId := Some 7; Endpoints.KeywordForecasts := None |}.

Definition answered (r : Endpoints.api_result) : Endpoints.wire :=
  Endpoints.Reply 200
    (Some {| Endpoints.body_error := None; Endpoints.body_result := Some r |}).

(** A platform that hands out forecast 7 and, asked for it, two keywords:
    one with its figures, prices in micro-roubles, and one with none. *)
Definition api_forecasts (tr : list Endpoints.request) (r : Endpoints.request)
    : Endpoints.wire :=
  match Endpoints.req_params r with
  | Endpoints.CreateNewForecast _ _ => answered forecast_handed_out
  | Endpoints.GetForecast 7 =>
      answered
        {| Endpoints.ForecastId := None;
           Endpoints.KeywordForecasts :=
             Some [{| Endpoints.fd_Keyword := Some "shoes";
                      Endpoints.fd_MinSearches := Some 100;
                      Endpoints.fd_MaxSearches := Some 300;
                      Endpoints.fd_MinPrice := Some (PyNum.PyInt 2000000);
                      Endpoints.fd_MaxPrice := Some (PyNum.PyInt 5000000);
                      Endpoints.fd_Competition := Some "HIGH" |};
                   {| Endpoints.fd_Keyword := None;
                      Endpoints.fd_MinSearches := None;
                      Endpoints.fd_MaxSearches := None;
                      Endpoints.fd_MinPrice := None;
                      Endpoints.fd_MaxPrice := None;
                      Endpoints.fd_Competition := None |}] |}
  | _ => Endpoints.NoReply
  end.

(** What the client reads from the answers of [api_forecasts]: prices of
    2.0 and 5.0 roubles, and the defaults for the keyword without
    figures. *)
Definition forecasts_read : list Endpoints.forecast :=
  [{| Endpoints.fc_keyword := "shoes";
      Endpoints.fc_min_searches := 100;
      Endpoints.fc_max_searches := 300;
      Endpoints.fc_min_price :=
        PyNum.PyFloat (S754_finite false 4503599627370496 (-51));
      Endpoints.fc_max_price :=
        PyNum.PyFloat (S754_finite false 5629499534213120 (-50));
      Endpoints.fc_competition := "HIGH" |};
   {| Endpoints.fc_keyword := EmptyString;
      Endpoints.fc_min_searches := 0;
      Endpoints.fc_max_searches := 0;
      Endpoints.fc_min_price := PyNum.PyFloat (S754_zero false);
      Endpoints.fc_max_price := PyNum.PyFloat (S754_zero false);
      Endpoints.fc_competition := "UNKNOWN" |}].

(** A platform that hands out forecast 7 and then stops answering. *)
Definition api_forecast_lost (tr : list Endpoints.request) (r : Endpoints.request)
    : Endpoints.wire :=
  match Endpoints.req_params r with
  | Endpoints.CreateNewForecast _ _ => answered forecast_handed_out
  | _ => Endpoints.NoReply
  end.

Definition infinite_bid : PyNum.num := PyNum.PyFloat (S754_infinity false).

End Examples.

(** * Properties *)

(** ** Facts about binary64 rounding *)

Module FloatFacts.
Import PyNum FloatAux.


Lemma digits2_size p : digits2_pos p = Pos.size p.
Proof. induction p; cbn; congruence. Qed.

Lemma digits_log2 p : digits p = Z.log2 (Zpos p) + 1.
Proof.
  unfold digits. rewrite digits2_size.
  destruct p; cbn [Z.log2 Pos.size]; rewrite ?Pos2Z.inj_succ; lia.
Qed.

Lemma digits_pos p : 1 <= digits p.
Proof. unfold digits. lia. Qed.

Lemma digits_bounds p : 2 ^ (digits p - 1) <= Zpos p < 2 ^ digits p.
Proof.
  rewrite digits_log2.
  replace (Z.log2 (Zpos p) + 1 - 1) with (Z.log2 (Zpos p)) by lia.
  replace (Z.log2 (Zpos p) + 1) with (Z.succ (Z.log2 (Zpos p))) by lia.
  apply Z.log2_spec. lia.
Qed.

Lemma digits_unique p d : 2 ^ (d - 1) <= Zpos p < 2 ^ d -> digits p = d.
Proof.
  intros H. rewrite digits_log2.
  assert (0 <= d - 1).
  { destruct (Z.le_gt_cases 0 (d - 1)) as [|Hn]; [assumption|].
    exfalso. destruct (Z.eq_dec d 0) as [->|Hd].
    - cbn in H. lia.
    - rewrite (Z.pow_neg_r 2 d) in H by lia. lia. }
  assert (Z.log2 (Zpos p) = d - 1); [|lia].
  apply Z.log2_unique; [assumption|].
  replace (Z.succ (d - 1)) with d by lia. assumption.
Qed.

Lemma iter_pos_nat {A} (f : A -> A) p x :
  iter_pos f p x = Nat.iter (Pos.to_nat p) f x.
Proof.
  revert x. induction p as [p IH|p IH|]; intros x; cbn [iter_pos].
  - rewrite !IH, Pos2Nat.inj_xI.
    replace (S (2 * Pos.to_nat p))%nat with (Pos.to_nat p + S (Pos.to_nat p))%nat by lia.
    rewrite Nat.iter_add. f_equal. rewrite Nat.iter_succ_r. reflexivity.
  - rewrite !IH, Pos2Nat.inj_xO.
    replace (2 * Pos.to_nat p)%nat with (Pos.to_nat p + Pos.to_nat p)%nat by lia.
    rewrite Nat.iter_add. reflexivity.
  - reflexivity.
Qed.

Lemma shr_inv_init m : 0 <= m -> shr_inv m 0 (Build_shr_record m false false).
Proof.
  intros Hm. split; [assumption|]. exists 0. cbn. split; [lia|]. split; [lia|]. split; split; try discriminate; lia.
Qed.

Lemma shr_1_m mrs : 0 <= shr_m mrs ->
  shr_m (shr_1 mrs) = shr_m mrs / 2 /\
  shr_r (shr_1 mrs) = Z.odd (shr_m mrs) /\
  shr_s (shr_1 mrs) = shr_r mrs || shr_s mrs.
Proof.
  destruct mrs as [m r s]. cbn [shr_m shr_r shr_s]. intros Hm.
  destruct m as [|p|p]; [| |lia].
  - cbn. auto.
  - destruct p as [p|p|]; cbn [shr_1 shr_m shr_r shr_s].
    + repeat split. rewrite Pos2Z.inj_xI.
      apply (Z.div_unique _ 2 _ 1); lia.
    + repeat split. rewrite Pos2Z.inj_xO.
      apply (Z.div_unique _ 2 _ 0); lia.
    + repeat split.
Qed.

Lemma shr_inv_step m k mrs : 0 <= k -> shr_inv m k mrs -> shr_inv m (k + 1) (shr_1 mrs).
Proof.
  intros Hk [Hm (rem & Heq & Hrem & Hr & Hs)].
  destruct (shr_1_m mrs Hm) as (Em & Er & Es).
  assert (Hp : 0 < 2 ^ k) by (apply Z.pow_pos_nonneg; lia).
  assert (Hp1 : 2 ^ (k + 1) = 2 * 2 ^ k) by (rewrite Z.pow_add_r by lia; lia).
  pose proof (Z.div_mod (shr_m mrs) 2 ltac:(lia)) as Hdm.
  pose proof (Z.mod_pos_bound (shr_m mrs) 2 ltac:(lia)) as Hmb.
  split.
  - rewrite Em. apply Z.div_pos; lia.
  - exists ((shr_m mrs mod 2) * 2 ^ k + rem).
    rewrite Em, Er, Es, Hp1.
    assert (Hodd : Z.odd (shr_m mrs) = true <-> shr_m mrs mod 2 = 1).
    { rewrite Zmod_odd. destruct (Z.odd (shr_m mrs)); split; intros; try lia; try discriminate; reflexivity. }
    split; [rewrite Heq; rewrite Hdm at 1; ring|].
    assert (Hb : shr_m mrs mod 2 = 0 \/ shr_m mrs mod 2 = 1) by lia.
    destruct Hb as [Hb|Hb]; rewrite Hb in *;
      (split; [lia|]); split; split.
    all: try (intros H; apply Hodd in H; lia).
    all: try (intros H; apply Hodd; lia).
    all: try (intros H; apply orb_true_iff in H;
              destruct H as [H|H]; [apply Hr in H|apply Hs in H]; lia).
    all: intros [H1 H2]; apply orb_true_iff;
      destruct (Z_lt_le_dec (2 * rem) (2 ^ k)) as [Hlt|Hge];
      [right; apply Hs; lia | left; apply Hr; assumption].
Qed.

Lemma shr_inv_iter m mrs n : shr_inv m 0 mrs ->
  shr_inv m (Z.of_nat n) (Nat.iter n shr_1 mrs).
Proof.
  intros H0. induction n as [|n IH].
  - exact H0.
  - rewrite Nat2Z.inj_succ. cbn [Nat.iter]. 
    replace (Z.succ (Z.of_nat n)) with (Z.of_nat n + 1) by lia.
    apply shr_inv_step; [lia|assumption].
Qed.

(** Rounding to nearest even moves the mantissa by at most half a unit. *)
Lemma round_nearest_even_inv m k mrs : 0 <= k -> shr_inv m k mrs ->
  let q := round_nearest_even (shr_m mrs) (loc_of_shr_record mrs) in
  shr_m mrs <= q <= shr_m mrs + 1 /\ 2 * Z.abs (q * 2 ^ k - m) <= 2 ^ k.
Proof.
  intros Hk [Hm (rem & Heq & Hrem & Hr & Hs)].
  assert (Hp : 0 < 2 ^ k) by (apply Z.pow_pos_nonneg; lia).
  destruct mrs as [q r s]. cbn [shr_m shr_r shr_s] in *.
  destruct r, s; cbn [loc_of_shr_record round_nearest_even].
  - assert (2 ^ k <= 2 * rem) by (apply Hr; reflexivity).
    split; [lia|]. nia.
  - assert (2 ^ k <= 2 * rem) by (apply Hr; reflexivity).
    assert (2 * rem = 2 ^ k).
    { destruct (Z.eq_dec (2 * rem) (2 ^ k)); [assumption|].
      assert (false = true) by (apply Hs; lia). discriminate. }
    destruct (Z.even q); split; try lia; nia.
  - assert (~ 2 ^ k <= 2 * rem) by (intros H; apply Hr in H; discriminate).
    split; [lia|]. nia.
  - assert (~ 2 ^ k <= 2 * rem) by (intros H; apply Hr in H; discriminate).
    assert (rem = 0).
    { destruct (Z.eq_dec rem 0); [assumption|].
      assert (false = true) by (apply Hs; lia). discriminate. }
    split; [lia|]. nia.
Qed.




Lemma fexp_normal x : -1074 <= x - 53 -> fexp prec emax x = x - 53.
Proof. unfold fexp, emin, prec, emax. lia. Qed.

Lemma shr_m_iter mrs n : 0 <= shr_m mrs ->
  shr_m (Nat.iter n shr_1 mrs) = shr_m mrs / 2 ^ Z.of_nat n.
Proof.
  intros Hm. induction n as [|n IH].
  - cbn. rewrite Z.div_1_r. reflexivity.
  - change (Nat.iter (S n) shr_1 mrs) with (shr_1 (Nat.iter n shr_1 mrs)).
    assert (H0 : 0 <= shr_m (Nat.iter n shr_1 mrs)).
    { rewrite IH. apply Z.div_pos; [assumption|]. apply Z.pow_pos_nonneg; lia. }
    destruct (shr_1_m _ H0) as (E & _ & _). rewrite E, IH.
    rewrite Nat2Z.inj_succ, Z.pow_succ_r by lia.
    rewrite Z.div_div by (try apply Z.pow_pos_nonneg; lia).
    f_equal. lia.
Qed.

Lemma round_nearest_even_range x l :
  x <= round_nearest_even x l <= x + 1.
Proof.
  destruct l as [|[| |]]; cbn; try lia. destruct (Z.even x); lia.
Qed.

Lemma shr_m_of_loc m l : shr_m (shr_record_of_loc m l) = m.
Proof. destruct l as [|[| |]]; reflexivity. Qed.

Lemma loc_of_record_of_loc m l :
  loc_of_shr_record (shr_record_of_loc m l) = l.
Proof. destruct l as [|[| |]]; reflexivity. Qed.

Lemma shifted_m p l : 53 <= digits p ->
  shr_m (shifted p l) = Zpos p / 2 ^ (digits p - 53) /\
  2 ^ 52 <= shr_m (shifted p l) < 2 ^ 53.
Proof.
  intros Hd. unfold shifted.
  rewrite shr_m_iter by (rewrite shr_m_of_loc; lia).
  rewrite shr_m_of_loc, Z2Nat.id by lia.
  split; [reflexivity|].
  pose proof (digits_bounds p) as [Hlo Hhi].
  set (n := digits p - 53) in *.
  assert (Hn : 0 < 2 ^ n) by (apply Z.pow_pos_nonneg; lia).
  assert (E1 : 2 ^ (digits p - 1) = 2 ^ 52 * 2 ^ n).
  { rewrite <- Z.pow_add_r by lia. f_equal. lia. }
  assert (E2 : 2 ^ digits p = 2 ^ 53 * 2 ^ n).
  { rewrite <- Z.pow_add_r by lia. f_equal. lia. }
  split.
  - apply Z.div_le_lower_bound; lia.
  - apply Z.div_lt_upper_bound; lia.
Qed.

Lemma rounded_range p l : 53 <= digits p -> 2 ^ 52 <= rounded p l <= 2 ^ 53.
Proof.
  intros Hd. unfold rounded.
  pose proof (shifted_m p l Hd) as [_ H].
  pose proof (round_nearest_even_range (shr_m (shifted p l)) (loc_of_shr_record (shifted p l))).
  lia.
Qed.

(** The shape of a rounding whose mantissa has at least 53 digits and
    whose result is not subnormal. *)
Lemma binary_round_aux_normal s p e l :
  53 <= digits p -> -1074 <= digits p + e - 53 ->
  binary_round_aux prec emax s (Zpos p) e l =
    if rounded p l <? 2 ^ 53
    then fin_or_inf s (Z.to_pos (rounded p l)) (digits p + e - 53)
    else fin_or_inf s (2 ^ 52)%positive (digits p + e - 52).
Proof.
  intros Hd Hlo.
  pose proof (rounded_range p l Hd) as HQ.
  unfold binary_round_aux.
  assert (E1 : shr_fexp prec emax (Zpos p) e l = (shifted p l, digits p + e - 53)).
  { unfold shr_fexp. cbn [Zdigits2]. fold (digits p).
    rewrite fexp_normal by assumption.
    replace (digits p + e - 53 - e) with (digits p - 53) by lia.
    unfold shr, shifted.
    destruct (digits p - 53) as [|n|n] eqn:En; [| |lia].
    - f_equal; try lia; reflexivity.
    - rewrite iter_pos_nat. f_equal; try lia; reflexivity. }
  rewrite E1. fold (rounded p l).
  destruct (Z.ltb_spec (rounded p l) (2 ^ 53)) as [Hlt|Hge].
  - destruct (rounded p l) as [|q|q] eqn:EQ; [lia| |lia].
    assert (Dq : digits q = 53) by (apply digits_unique; cbn; lia).
    unfold shr_fexp. cbn [Zdigits2]. fold (digits q). rewrite Dq.
    rewrite fexp_normal by lia.
    replace (53 + (digits p + e - 53) - 53 - (digits p + e - 53)) with 0 by lia.
    reflexivity.
  - assert (EQ : rounded p l = 2 ^ 53) by lia. rewrite EQ.
    unfold shr_fexp.
    replace (Zdigits2 (2 ^ 53)) with 54 by reflexivity.
    rewrite fexp_normal by lia.
    replace (54 + (digits p + e - 53) - 53 - (digits p + e - 53)) with 1 by lia.
    cbn [shr iter_pos].
    replace (shr_m (shr_1 (shr_record_of_loc (2 ^ 53) loc_Exact)))
      with (Zpos (2 ^ 52)) by reflexivity.
    replace (digits p + e - 53 + 1) with (digits p + e - 52) by lia.
    reflexivity.
Qed.

Lemma binary_round_aux_finite s p e l :
  53 <= digits p -> -1074 <= digits p + e - 53 -> digits p + e <= 1023 ->
  normal (digits p + e) (digits p + e + 1) s (binary_round_aux prec emax s (Zpos p) e l).
Proof.
  intros Hd Hlo Hhi. rewrite binary_round_aux_normal by assumption.
  pose proof (rounded_range p l Hd) as HQ. unfold fin_or_inf.
  destruct (Z.ltb_spec (rounded p l) (2 ^ 53)) as [Hlt|Hge].
  - destruct (Z.leb_spec (digits p + e - 53) (emax - prec)) as [_|H];
      [|unfold emax, prec in H; lia].
    eexists _, _. split; [reflexivity|]. split; [|lia].
    apply digits_unique. rewrite Z2Pos.id by lia. lia.
  - destruct (Z.leb_spec (digits p + e - 52) (emax - prec)) as [_|H];
      [|unfold emax, prec in H; lia].
    eexists _, _. split; [reflexivity|]. split; [reflexivity|lia].
Qed.

Lemma shiftl_neg a t : 0 <= t -> Z.shiftl a (- t) = a / 2 ^ t.
Proof. intros Ht. rewrite Z.shiftl_opp_r. apply Z.shiftr_div_pow2. assumption. Qed.

(** Truncating a rounded product: with [t > 0] fractional bits left, the
    integer part is the rounded mantissa divided by [2^t]. *)
Lemma int_of_round s p e l t :
  53 <= digits p -> -1074 <= digits p + e - 53 ->
  t = 53 - digits p - e -> 0 < t ->
  int_of_float (binary_round_aux prec emax s (Zpos p) e l) =
    Ok (cond_Zopp s (rounded p l / 2 ^ t)).
Proof.
  intros Hd Hlo Et Ht. rewrite binary_round_aux_normal by assumption.
  pose proof (rounded_range p l Hd) as HQ. unfold fin_or_inf.
  destruct (Z.ltb_spec (rounded p l) (2 ^ 53)) as [Hlt|Hge].
  - destruct (Z.leb_spec (digits p + e - 53) (emax - prec)) as [_|H];
      [|unfold emax, prec in H; lia].
    cbn [int_of_float]. rewrite Z2Pos.id by lia.
    replace (digits p + e - 53) with (- t) by lia.
    rewrite shiftl_neg by lia. reflexivity.
  - destruct (Z.leb_spec (digits p + e - 52) (emax - prec)) as [_|H];
      [|unfold emax, prec in H; lia].
    cbn [int_of_float]. assert (EQ : rounded p l = 2 ^ 53) by lia. rewrite EQ.
    replace (digits p + e - 52) with (- (t - 1)) by lia.
    rewrite shiftl_neg by lia.
    do 2 f_equal.
    replace (2 ^ 53) with (2 ^ 52 * 2) by reflexivity.
    replace t with (t - 1 + 1) at 2 by lia.
    rewrite Z.pow_add_r by lia. change (2 ^ 1) with 2.
    rewrite Z.div_mul_cancel_r; try lia; try reflexivity;
      apply Z.pow_nonzero; lia.
Qed.

(** With an exact starting location the rounded mantissa is within half a
    unit of the exact one. *)
Lemma rounded_exact_bound p : 53 <= digits p ->
  2 * Z.abs (rounded p loc_Exact * 2 ^ (digits p - 53) - Zpos p) <= 2 ^ (digits p - 53).
Proof.
  intros Hd. unfold rounded.
  assert (Hi : shr_inv (Zpos p) (digits p - 53) (shifted p loc_Exact)).
  { unfold shifted. rewrite <- (Z2Nat.id (digits p - 53)) at 1 by lia.
    apply shr_inv_iter. apply shr_inv_init. lia. }
  apply (round_nearest_even_inv (Zpos p)); [lia|assumption].
Qed.




Lemma pos_iter_xO p k : Zpos (Pos.iter xO p k) = Zpos p * 2 ^ Zpos k.
Proof.
  induction k as [|k IH] using Pos.peano_ind.
  - cbn. lia.
  - rewrite Pos.iter_succ, Pos2Z.inj_xO, IH, Pos2Z.inj_succ, Z.pow_succ_r by lia. ring.
Qed.

Lemma digits_shift p k : 0 <= k -> digits (Z.to_pos (Zpos p * 2 ^ k)) = digits p + k.
Proof.
  intros Hk. pose proof (digits_bounds p) as [Hlo Hhi].
  pose proof (digits_pos p).
  assert (Hp : 0 < 2 ^ k) by (apply Z.pow_pos_nonneg; lia).
  apply digits_unique. rewrite Z2Pos.id by nia.
  replace (digits p + k - 1) with (digits p - 1 + k) by lia.
  rewrite !Z.pow_add_r by lia. nia.
Qed.

Lemma shl_align_int p :
  shl_align p 0 (fexp prec emax (Zpos (digits2_pos p) + 0)) =
    (aligned p, Z.min (digits p - 53) 0).
Proof.
  fold (digits p). pose proof (digits_pos p).
  rewrite fexp_normal by lia. unfold shl_align, aligned.
  destruct (Z.leb_spec (digits p) 53) as [Hle|Hgt].
  - destruct (digits p + 0 - 53 - 0) as [|n|n] eqn:En; try lia.
    + replace (53 - digits p) with 0 by lia. rewrite Z.mul_1_r. cbn [Z.to_pos].
      f_equal. lia.
    + f_equal; [|lia]. apply Pos2Z.inj. rewrite pos_iter_xO.
      assert (0 < 2 ^ (53 - digits p)) by (apply Z.pow_pos_nonneg; lia).
      rewrite Z2Pos.id by nia. f_equal. f_equal. lia.
  - destruct (digits p + 0 - 53 - 0) as [|n|n] eqn:En; try lia.
    f_equal. lia.
Qed.

Lemma aligned_digits p : 53 <= digits (aligned p) /\
  digits (aligned p) + Z.min (digits p - 53) 0 = digits p.
Proof.
  unfold aligned. pose proof (digits_pos p).
  destruct (Z.leb_spec (digits p) 53) as [Hle|Hgt].
  - rewrite digits_shift by lia. lia.
  - lia.
Qed.

Lemma rounded_53 p : digits p = 53 -> rounded p loc_Exact = Zpos p.
Proof.
  intros Hd. unfold rounded, shifted. rewrite Hd. reflexivity.
Qed.

Lemma float_of_pos s p :
  binary_round prec emax s p 0 =
    binary_round_aux prec emax s (Zpos (aligned p)) (Z.min (digits p - 53) 0) loc_Exact.
Proof. unfold binary_round. rewrite shl_align_int. reflexivity. Qed.

(** The float of an integer below [2^53] is exact. *)
Lemma float_of_pos_small s p : digits p <= 53 ->
  binary_round prec emax s p 0 = S754_finite s (aligned p) (digits p - 53).
Proof.
  intros Hd. rewrite float_of_pos.
  pose proof (aligned_digits p) as [Ha Hb]. pose proof (digits_pos p).
  assert (Da : digits (aligned p) = 53) by lia.
  rewrite binary_round_aux_normal by lia.
  rewrite rounded_53 by assumption.
  pose proof (digits_bounds (aligned p)) as Hbd. rewrite Da in Hbd.
  destruct (Z.ltb_spec (Zpos (aligned p)) (2 ^ 53)) as [_|Hge]; [|lia].
  unfold fin_or_inf.
  destruct (Z.leb_spec (digits (aligned p) + Z.min (digits p - 53) 0 - 53) (emax - prec)) as [_|Hov];
    [|unfold emax, prec in Hov; lia].
  cbn [Z.to_pos]. f_equal. lia.
Qed.

(** The float of a non-zero integer is never a zero. *)
Lemma float_of_pos_nonzero s p : fis_zero (binary_round prec emax s p 0) = false.
Proof.
  rewrite float_of_pos.
  pose proof (aligned_digits p) as [Ha Hb]. pose proof (digits_pos p).
  rewrite binary_round_aux_normal by lia. unfold fin_or_inf.
  repeat match goal with |- context [if ?c then _ else _] => destruct c end; reflexivity.
Qed.

Lemma float_of_int_nonzero n x : n <> 0 -> float_of_int n = Ok x -> fis_zero x = false.
Proof.
  unfold float_of_int. intros Hn H.
  destruct n as [|p|p]; [lia| |]; cbn [binary_normalize] in H.
  - pose proof (float_of_pos_nonzero false p) as Hz.
    destruct (binary_round prec emax false p 0); inversion H; subst; assumption.
  - pose proof (float_of_pos_nonzero true p) as Hz.
    destruct (binary_round prec emax true p 0); inversion H; subst; assumption.
Qed.

Lemma float_of_int_small n : n <> 0 -> Z.abs n < 2 ^ 53 ->
  float_of_int n =
    Ok (S754_finite (n <? 0) (aligned (Z.to_pos (Z.abs n))) (digits (Z.to_pos (Z.abs n)) - 53)).
Proof.
  intros Hn Hb. unfold float_of_int.
  assert (Hd : forall p, Zpos p < 2 ^ 53 -> digits p <= 53).
  { intros p Hp. pose proof (digits_bounds p) as [Hlo _].
    destruct (Z.le_gt_cases (digits p) 53) as [|Hgt]; [assumption|exfalso].
    assert (2 ^ 53 <= 2 ^ (digits p - 1)) by (apply Z.pow_le_mono_r; lia). lia. }
  destruct n as [|p|p]; [lia| |]; cbn [binary_normalize Z.abs Z.to_pos Z.ltb Z.compare].
  - rewrite float_of_pos_small by (apply Hd; lia). reflexivity.
  - rewrite float_of_pos_small by (apply Hd; lia). reflexivity.
Qed.




Lemma digits_le_of_lt p k : 0 <= k -> Zpos p < 2 ^ k -> digits p <= k.
Proof.
  intros Hk Hp. pose proof (digits_bounds p) as [Hlo _].
  destruct (Z.le_gt_cases (digits p) k) as [|Hgt]; [assumption|exfalso].
  assert (2 ^ k <= 2 ^ (digits p - 1)) by (apply Z.pow_le_mono_r; lia). lia.
Qed.

Lemma digits_mul_53 p q : digits p = 53 -> digits q = 53 ->
  105 <= digits (p * q) <= 106.
Proof.
  intros Hp Hq.
  pose proof (digits_bounds p) as Bp. pose proof (digits_bounds q) as Bq.
  rewrite Hp in Bp. rewrite Hq in Bq.
  pose proof (digits_bounds (p * q)) as [Blo Bhi]. rewrite Pos2Z.inj_mul in Blo, Bhi.
  assert (L : 2 ^ 104 <= Zpos p * Zpos q).
  { change (2 ^ 104) with (2 ^ 52 * 2 ^ 52). apply Z.mul_le_mono_nonneg; lia. }
  assert (U : Zpos p * Zpos q < 2 ^ 106).
  { change (2 ^ 106) with (2 ^ 53 * 2 ^ 53). apply Z.mul_lt_mono_nonneg; lia. }
  split.
  - destruct (Z.le_gt_cases 105 (digits (p * q))) as [|Hlt]; [assumption|exfalso].
    assert (2 ^ digits (p * q) <= 2 ^ 104) by (apply Z.pow_le_mono_r; lia). lia.
  - destruct (Z.le_gt_cases (digits (p * q)) 106) as [|Hgt]; [assumption|exfalso].
    assert (2 ^ 106 <= 2 ^ (digits (p * q) - 1)) by (apply Z.pow_le_mono_r; lia). lia.
Qed.

(** Multiplying an integer by a decimal literal and truncating: for
    [|b| < 2^51] the result is the exact product [num * |b| / 10]
    truncated, with the sign of [b]. *)
Lemma mul_lit_trunc (M : positive) (eM num delta b : Z) :
  digits M = 53 -> -60 <= eM <= -53 ->
  10 * Zpos M = num * 2 ^ (- eM) + delta -> - 10 < 4 * delta ->
  b <> 0 -> Z.abs b < 2 ^ 51 ->
  (delta + 10) * Z.abs b <= (10 - (num * Z.abs b) mod 10) * 2 ^ (- eM) ->
  (x <- float_of_int b ;; int_of_float (fmul x (S754_finite false M eM)))%res =
    Ok (cond_Zopp (b <? 0) (num * Z.abs b / 10)).
Proof.
  intros DM HeM HdenM Hdelta Hb0 Hb Hgap.
  rewrite float_of_int_small by lia. cbn [rbind]. unfold fmul. cbn [SFmul].
  rewrite xorb_false_r.
  set (pb := Z.to_pos (Z.abs b)).
  assert (Epb : Zpos pb = Z.abs b) by (unfold pb; rewrite Z2Pos.id; lia).
  set (d := digits pb).
  assert (Hd1 : 1 <= d) by apply digits_pos.
  assert (Hd : d <= 51) by (apply digits_le_of_lt; lia).
  assert (Da : digits (aligned pb) = 53).
  { pose proof (aligned_digits pb). fold d in H. lia. }
  pose proof (digits_mul_53 _ _ Da DM) as HD.
  set (P := (aligned pb * M)%positive) in *.
  set (D := digits P) in *.
  rewrite int_of_round with (t := 53 - D - (d - 53 + eM)) by (fold D; lia).
  do 2 f_equal.
  pose proof (rounded_exact_bound P ltac:(fold D; lia)) as HQ. fold D in HQ.
  pose proof (rounded_range P loc_Exact ltac:(fold D; lia)) as HQr.
  set (Q := rounded P loc_Exact) in *.
  set (A := 2 ^ (D - 53)) in *.
  set (T := 2 ^ (53 - D - (d - 53 + eM))).
  set (S := 2 ^ (53 - d)).
  set (K := 2 ^ (- eM)) in *.
  assert (HA : 0 < A) by (apply Z.pow_pos_nonneg; lia).
  assert (HT : 0 < T) by (apply Z.pow_pos_nonneg; lia).
  assert (HS : 0 < S) by (apply Z.pow_pos_nonneg; lia).
  assert (HK : 0 < K) by (apply Z.pow_pos_nonneg; lia).
  assert (HSK : S * K = T * A).
  { unfold S, K, T, A. rewrite <- !Z.pow_add_r by lia. f_equal. lia. }
  set (X := Zpos (aligned pb)).
  assert (HX : X = Z.abs b * S).
  { unfold X, aligned. fold d.
    destruct (Z.leb_spec d 53); [|lia].
    rewrite Z2Pos.id by (fold S; nia). rewrite Epb. reflexivity. }
  assert (HP : Zpos P = X * Zpos M) by (unfold P, X; apply Pos2Z.inj_mul).
  pose proof (digits_bounds M) as HMb. rewrite DM in HMb. change (53 - 1) with 52 in HMb.
  pose proof (digits_bounds (aligned pb)) as HXb. rewrite Da in HXb.
  change (53 - 1) with 52 in HXb. fold X in HXb.
  pose proof (digits_bounds P) as HPb. fold D in HPb.
  assert (E1 : 2 ^ (D - 1) = A * 2 ^ 52).
  { unfold A. rewrite <- Z.pow_add_r by lia. f_equal. lia. }
  assert (E2 : 2 ^ D = A * 2 ^ 53).
  { unfold A. rewrite <- Z.pow_add_r by lia. f_equal. lia. }
  rewrite E1, E2, HP in HPb. rewrite HP in HQ.
  set (XM := X * Zpos M) in *.
  assert (HXM1 : XM < X * 2 ^ 53) by (apply Z.mul_lt_mono_pos_l; lia).
  assert (HXM2 : X * 2 ^ 52 <= XM) by (apply Z.mul_le_mono_nonneg_l; lia).
  assert (HAX : A < 2 * X) by lia.
  assert (HXA : X < 2 * A) by lia.
  pose proof (Z.div_mod (num * Z.abs b) 10 ltac:(lia)) as Hdm.
  pose proof (Z.mod_pos_bound (num * Z.abs b) 10 ltac:(lia)) as Hr.
  set (N := num * Z.abs b / 10) in *.
  set (r := (num * Z.abs b) mod 10) in *.
  set (u := S * K) in *.
  assert (L2 : 10 * XM = 10 * (N * u) + r * u + delta * X).
  { unfold XM. rewrite HX.
    replace (10 * (Z.abs b * S * Zpos M)) with (Z.abs b * S * (10 * Zpos M)) by ring.
    rewrite HdenM.
    replace (Z.abs b * S * (num * K + delta))
      with (num * Z.abs b * (S * K) + delta * (Z.abs b * S)) by ring.
    rewrite Hdm. fold u. ring. }
  assert (L5 : (delta + 10) * X <= 10 * u - r * u).
  { rewrite HX. unfold u.
    replace ((delta + 10) * (Z.abs b * S)) with ((delta + 10) * Z.abs b * S) by ring.
    replace (10 * (S * K) - r * (S * K)) with ((10 - r) * K * S) by ring.
    apply Z.mul_le_mono_nonneg_r; lia. }
  assert (Hru : 0 <= r * u) by (apply Z.mul_nonneg_nonneg; lia).
  assert (HdX : 0 < (4 * delta + 10) * X) by (apply Z.mul_pos_pos; lia).
  assert (Lo : N * T <= Q).
  { destruct (Z_lt_le_dec Q (N * T)) as [Hlt|]; [exfalso|assumption].
    assert (HQA : Q * A <= (N * T - 1) * A) by (apply Z.mul_le_mono_nonneg_r; lia).
    replace ((N * T - 1) * A) with (N * u - A) in HQA by (rewrite HSK; ring).
    lia. }
  assert (Hi : Q < N * T + T).
  { destruct (Z_lt_le_dec Q (N * T + T)) as [|Hge]; [assumption|exfalso].
    assert (HQA : (N * T + T) * A <= Q * A) by (apply Z.mul_le_mono_nonneg_r; lia).
    replace ((N * T + T) * A) with (N * u + u) in HQA by (rewrite HSK; ring).
    lia. }
  symmetry. apply (Z.div_unique Q T N (Q - T * N)); lia.
Qed.




Lemma normal_weaken lo hi lo' hi' s x :
  normal lo hi s x -> lo' <= lo -> hi <= hi' -> normal lo' hi' s x.
Proof.
  intros (m & e & E & Dm & He) Hl Hh. exists m, e. repeat split; try assumption; lia.
Qed.

Lemma fmul_normal lo1 hi1 lo2 hi2 s1 s2 x y :
  normal lo1 hi1 s1 x -> normal lo2 hi2 s2 y ->
  -1000 <= lo1 + lo2 -> hi1 + hi2 <= 1000 ->
  normal (lo1 + lo2 - 1) (hi1 + hi2 + 1) (xorb s1 s2) (fmul x y).
Proof.
  intros (mx & ex & -> & Dx & Hx) (my & ey & -> & Dy & Hy) Hlo Hhi.
  unfold fmul. cbn [SFmul].
  pose proof (digits_mul_53 _ _ Dx Dy) as HD.
  eapply normal_weaken.
  - apply binary_round_aux_finite; lia.
  - lia.
  - lia.
Qed.

(** The quotient of two positive mantissas of any width. *)
Lemma fdiv_finite sx mx ex sy my ey :
  -1021 <= digits mx + ex - (digits my + ey) <= 1021 ->
  normal (digits mx + ex - (digits my + ey)) (digits mx + ex - (digits my + ey) + 2)
    (xorb sx sy) (fdiv (S754_finite sx mx ex) (S754_finite sy my ey)).
Proof.
  intros HD. unfold fdiv. cbn [SFdiv]. unfold SFdiv_core_binary.
  cbn [Zdigits2]. fold (digits mx) (digits my).
  set (D := digits mx + ex - (digits my + ey)) in *.
  rewrite fexp_normal by lia.
  set (e' := Z.min (D - 53) (ex - ey)).
  set (s := ex - ey - e').
  assert (Hs : 0 <= s) by (unfold s, e'; lia).
  set (m' := match s with Z.pos _ => Z.shiftl (Zpos mx) s | 0 => Zpos mx | Z.neg _ => 0 end).
  assert (Em' : m' = Zpos mx * 2 ^ s).
  { unfold m'. destruct s as [|p|p] eqn:Es; [cbn; lia| |lia].
    apply Z.shiftl_mul_pow2. lia. }
  pose proof (Z_div_mod m' (Zpos my) ltac:(lia)) as Hdm.
  destruct (Z.div_eucl m' (Zpos my)) as [q r] eqn:Edm.
  destruct Hdm as [Hdm Hr].
  pose proof (digits_bounds mx) as [Bx1 Bx2].
  pose proof (digits_bounds my) as [By1 By2].
  pose proof (digits_pos mx). pose proof (digits_pos my).
  set (k := digits mx + s - digits my).
  assert (Hk : 53 <= k) by (unfold k, s, e', D in *; lia).
  assert (P2s : 0 < 2 ^ s) by (apply Z.pow_pos_nonneg; lia).
  assert (Lm : 2 ^ (k - 1) * 2 ^ digits my <= m').
  { rewrite Em'. rewrite <- Z.pow_add_r by lia.
    replace (k - 1 + digits my) with (digits mx - 1 + s) by (unfold k; lia).
    rewrite Z.pow_add_r by lia. apply Z.mul_le_mono_nonneg_r; lia. }
  assert (Um : m' < 2 ^ (k + 1) * 2 ^ (digits my - 1)).
  { rewrite Em'. rewrite <- Z.pow_add_r by lia.
    replace (k + 1 + (digits my - 1)) with (digits mx + s) by (unfold k; lia).
    rewrite Z.pow_add_r by lia. apply Z.mul_lt_mono_pos_r; lia. }
  assert (Pk : 0 < 2 ^ (k - 1)) by (apply Z.pow_pos_nonneg; lia).
  assert (Pk1 : 0 < 2 ^ (k + 1)) by (apply Z.pow_pos_nonneg; lia).
  assert (Lq : 2 ^ (k - 1) <= q).
  { destruct (Z_lt_le_dec q (2 ^ (k - 1))) as [Hlt|]; [exfalso|assumption].
    assert (Zpos my * q <= Zpos my * (2 ^ (k - 1) - 1))
      by (apply Z.mul_le_mono_nonneg_l; lia).
    assert (2 ^ (k - 1) * Zpos my < 2 ^ (k - 1) * 2 ^ digits my)
      by (apply Z.mul_lt_mono_pos_l; lia).
    lia. }
  assert (Uq : q < 2 ^ (k + 1)).
  { destruct (Z_lt_le_dec q (2 ^ (k + 1))) as [|Hge]; [assumption|exfalso].
    assert (Zpos my * 2 ^ (k + 1) <= Zpos my * q)
      by (apply Z.mul_le_mono_nonneg_l; lia).
    assert (2 ^ (k + 1) * 2 ^ (digits my - 1) <= 2 ^ (k + 1) * Zpos my)
      by (apply Z.mul_le_mono_nonneg_l; lia).
    lia. }
  destruct q as [|qp|qp]; [lia| |lia].
  assert (Dq : k <= digits qp <= k + 1).
  { pose proof (digits_bounds qp) as [Bq1 Bq2]. split.
    - destruct (Z.le_gt_cases k (digits qp)) as [|Hlt]; [assumption|exfalso].
      assert (2 ^ digits qp <= 2 ^ (k - 1)) by (apply Z.pow_le_mono_r; lia). lia.
    - destruct (Z.le_gt_cases (digits qp) (k + 1)) as [|Hgt]; [assumption|exfalso].
      assert (2 ^ (k + 1) <= 2 ^ (digits qp - 1)) by (apply Z.pow_le_mono_r; lia). lia. }
  assert (Ek : k + e' = D) by (unfold k, s, D; lia).
  eapply normal_weaken.
  - apply binary_round_aux_finite; lia.
  - lia.
  - lia.
Qed.

Lemma normal_to_int lo hi s x : normal lo hi s x -> exists n, int_of_float x = Ok n.
Proof. intros (m & e & -> & _). eexists. reflexivity. Qed.

Lemma normal_not_zero lo hi s x : normal lo hi s x -> fis_zero x = false.
Proof. intros (m & e & -> & _). reflexivity. Qed.

Lemma float_of_int_normal n : n <> 0 -> Z.abs n < 2 ^ 53 ->
  exists x, float_of_int n = Ok x /\
    normal (digits (Z.to_pos (Z.abs n))) (digits (Z.to_pos (Z.abs n))) (n <? 0) x.
Proof.
  intros Hn Hb. rewrite float_of_int_small by assumption.
  eexists. split; [reflexivity|].
  eexists _, _. split; [reflexivity|].
  pose proof (aligned_digits (Z.to_pos (Z.abs n))) as [Ha Hb'].
  assert (digits (Z.to_pos (Z.abs n)) <= 53).
  { apply digits_le_of_lt; [lia|]. rewrite Z2Pos.id; lia. }
  split; lia.
Qed.

(** [n / d] for integers, with [d] positive: never an overflow while the
    binades stay in range. *)
Lemma int_quotient_normal n (d : positive) : n <> 0 ->
  digits (Z.to_pos (Z.abs n)) <= 1000 ->  digits d <= 1000 ->
  normal (digits (Z.to_pos (Z.abs n)) - digits d) (digits (Z.to_pos (Z.abs n)) - digits d + 2)
    (n <? 0) (int_quotient n (Zpos d)).
Proof.
  intros Hn H1 H2. pose proof (digits_pos d).
  destruct n as [|p|p]; [lia| |]; cbn [int_quotient Z.abs Z.to_pos Z.ltb Z.compare];
    pose proof (digits_pos p).
  - pose proof (fdiv_finite false p 0 false d 0 ltac:(cbn [Z.abs Z.to_pos] in *; lia)) as H3.
    cbn [xorb] in H3. eapply normal_weaken; [exact H3| |]; lia.
  - pose proof (fdiv_finite true p 0 false d 0 ltac:(cbn [Z.abs Z.to_pos] in *; lia)) as H3.
    cbn [xorb] in H3. eapply normal_weaken; [exact H3| |]; lia.
Qed.

End FloatFacts.

(** ** Facts about budget allocation and the forecast *)

Module BudgetFacts.
Import PyNum FloatAux FloatFacts Manager.

Lemma mul_int_lit_to_int b y :
  (x <- mul (PyInt b) (PyFloat y) ;; to_int x)%res =
  (x <- float_of_int b ;; int_of_float (fmul x y))%res.
Proof. unfold mul, to_float. destruct (float_of_int b); reflexivity. Qed.

Lemma cond_Zopp_quot b n :
  0 <= n -> cond_Zopp (b <? 0) (n * Z.abs b / 10) = Z.quot (n * b) 10.
Proof.
  intros Hn. destruct (Z.ltb_spec b 0) as [Hneg|Hpos]; cbn [cond_Zopp].
  - replace (n * b) with (- (n * Z.abs b)) by lia.
    rewrite Z.quot_opp_l by lia. rewrite Z.quot_div_nonneg by lia. reflexivity.
  - rewrite Z.abs_eq by lia. rewrite Z.quot_div_nonneg by lia. reflexivity.
Qed.

Lemma share_high b : Z.abs b < 2 ^ 51 ->
  (x <- mul (PyInt b) (PyFloat lit_0_6) ;; to_int x)%res = Ok (Z.quot (6 * b) 10).
Proof.
  intros Hb. destruct (Z.eq_dec b 0) as [->|Hb0]; [reflexivity|].
  rewrite mul_int_lit_to_int. unfold lit_0_6.
  rewrite (mul_lit_trunc _ _ 6 (-2)); try lia; try reflexivity.
  - rewrite cond_Zopp_quot by lia. reflexivity.
  - change (2 ^ (- -53)) with 9007199254740992.
    pose proof (Z.div_mod (6 * Z.abs b) 10 ltac:(lia)).
    pose proof (Z.mod_pos_bound (6 * Z.abs b) 10 ltac:(lia)).
    change (2 ^ 51) with 2251799813685248 in Hb. lia.
Qed.

Lemma share_medium b : Z.abs b < 2 ^ 51 ->
  (x <- mul (PyInt b) (PyFloat lit_0_3) ;; to_int x)%res = Ok (Z.quot (3 * b) 10).
Proof.
  intros Hb. destruct (Z.eq_dec b 0) as [->|Hb0]; [reflexivity|].
  rewrite mul_int_lit_to_int. unfold lit_0_3.
  rewrite (mul_lit_trunc _ _ 3 (-2)); try lia; try reflexivity.
  - rewrite cond_Zopp_quot by lia. reflexivity.
  - change (2 ^ (- -54)) with 18014398509481984.
    pose proof (Z.mod_pos_bound (3 * Z.abs b) 10 ltac:(lia)).
    change (2 ^ 51) with 2251799813685248 in Hb. lia.
Qed.

Lemma share_low b : Z.abs b < 2 ^ 51 ->
  (x <- mul (PyInt b) (PyFloat lit_0_1) ;; to_int x)%res = Ok (Z.quot (1 * b) 10).
Proof.
  intros Hb. destruct (Z.eq_dec b 0) as [->|Hb0]; [reflexivity|].
  rewrite mul_int_lit_to_int. unfold lit_0_1.
  rewrite (mul_lit_trunc _ _ 1 4); try lia; try reflexivity.
  - rewrite cond_Zopp_quot by lia. reflexivity.
  - change (2 ^ (- -56)) with 72057594037927936.
    pose proof (Z.mod_pos_bound (1 * Z.abs b) 10 ltac:(lia)).
    change (2 ^ 51) with 2251799813685248 in Hb. lia.
Qed.

(** The allocation block on every budget of magnitude below [2^51]. *)
Lemma allocate_spec b : Z.abs b < 2 ^ 51 ->
  allocate b =
    Ok {| daily_budget := b;
          high_priority_percent := 60;
          medium_priority_percent := 30;
          low_priority_percent := 10;
          high_priority_budget := Z.quot (6 * b) 10;
          medium_priority_budget := Z.quot (3 * b) 10;
          low_priority_budget := Z.quot b 10 |}.
Proof.
  intros Hb. unfold allocate.
  rewrite share_high, share_medium, share_low by assumption.
  cbn [rbind]. rewrite Z.mul_1_l. reflexivity.
Qed.

Lemma lit_0_08_normal : normal (-3) (-3) false lit_0_08.
Proof. eexists _, _. split; [reflexivity|]. split; [reflexivity|]. lia. Qed.

Lemma float_30_normal : exists x, float_of_int 30 = Ok x /\ normal 5 5 false x.
Proof.
  exists (S754_finite false 8444249301319680 (-48)). split; [reflexivity|].
  eexists _, _. split; [reflexivity|]. split; [reflexivity|]. lia.
Qed.

Lemma digits_abs_small b : b <> 0 -> Z.abs b < 2 ^ 51 ->
  1 <= digits (Z.to_pos (Z.abs b)) <= 51.
Proof.
  intros Hb0 Hb. split; [apply digits_pos|].
  apply digits_le_of_lt; [lia|]. rewrite Z2Pos.id; lia.
Qed.

Lemma to_int_normal lo hi s x : normal lo hi s x -> exists n, to_int (PyFloat x) = Ok n.
Proof. intros H. cbn [to_int]. eapply normal_to_int; eassumption. Qed.

Lemma truediv_int_pos b (d : positive) : b <> 0 -> Z.abs b < 2 ^ 51 -> digits d <= 10 ->
  exists q, truediv (PyInt b) (PyInt (Zpos d)) = Ok (PyFloat q) /\
    normal (- 9) 53 (b <? 0) q.
Proof.
  intros Hb0 Hb Hd. pose proof (digits_abs_small b Hb0 Hb) as Hdb.
  pose proof (digits_pos d).
  pose proof (int_quotient_normal b d Hb0 ltac:(lia) ltac:(lia)) as Hq.
  unfold truediv. cbn [Z.eqb].
  destruct Hq as (m & e & E & Dm & He). rewrite E.
  eexists. split; [reflexivity|].
  exists m, e. split; [reflexivity|]. split; [assumption|lia].
Qed.

Lemma truediv_int_float b s y : b <> 0 -> Z.abs b < 2 ^ 51 -> normal (- 20) 60 s y ->
  exists q, truediv (PyInt b) (PyFloat y) = Ok (PyFloat q) /\
    normal (- 60) 80 (xorb (b <? 0) s) q.
Proof.
  intros Hb0 Hb Hy. pose proof (digits_abs_small b Hb0 Hb) as Hdb.
  destruct (float_of_int_normal b Hb0 ltac:(change (2 ^ 51) with 2251799813685248 in Hb; change (2 ^ 53) with 9007199254740992; lia))
    as (x & Ex & Hx).
  unfold truediv, to_float. rewrite Ex. cbn [rbind].
  rewrite (normal_not_zero _ _ _ _ Hy).
  eexists. split; [reflexivity|].
  destruct Hx as (mx & ex & -> & Dx & Hex).
  destruct Hy as (my & ey & -> & Dy & Hey).
  eapply normal_weaken.
  - apply fdiv_finite. lia.
  - lia.
  - lia.
Qed.

(** The forecast block never fails on a budget of magnitude below
    [2^51]. *)
Lemma forecast_total b : Z.abs b < 2 ^ 51 -> exists p, forecast b = Ok p.
Proof.
  intros Hb. destruct (Z.eq_dec b 0) as [->|Hb0]; [eexists; reflexivity|].
  unfold forecast.
  destruct (truediv_int_pos b 45 Hb0 Hb ltac:(unfold digits; cbn; lia)) as (clicks & -> & Hc).
  cbn [rbind].
  assert (Hconv : normal (- 13) 51 (xorb (b <? 0) false) (fmul clicks lit_0_08)).
  { eapply normal_weaken.
    - eapply fmul_normal; [exact Hc|exact lit_0_08_normal| |]; lia.
    - lia.
    - lia. }
  unfold mul at 1. cbn [to_float rbind].
  set (conv := fmul clicks lit_0_08) in *.
  destruct (to_int_normal _ _ _ _ Hc) as (n1 & ->).
  destruct (to_int_normal _ _ _ _ Hconv) as (n2 & ->).
  cbn [rbind].
  assert (Hcost : exists n3,
    (q <- truediv (PyInt b) (max_with_one (PyFloat conv)) ;; to_int q)%res = Ok n3).
  { unfold max_with_one. destruct (SFltb conv float_one).
    - destruct (truediv_int_pos b 1 Hb0 Hb ltac:(unfold digits; cbn; lia)) as (q & -> & Hq).
      cbn [rbind]. eapply to_int_normal; eassumption.
    - destruct (truediv_int_float b _ conv Hb0 Hb
                  ltac:(eapply normal_weaken; [exact Hconv| |]; lia)) as (q & -> & Hq).
      cbn [rbind]. eapply to_int_normal; eassumption. }
  destruct Hcost as (n3 & ->). cbn [rbind].
  destruct float_30_normal as (x30 & E30 & H30).
  unfold mul. cbn [to_float]. rewrite E30. cbn [rbind].
  assert (Hm : normal (- 9) 57 (xorb (xorb (b <? 0) false) false) (fmul conv x30)).
  { eapply normal_weaken.
    - eapply fmul_normal; [exact Hconv|exact H30| |]; lia.
    - lia.
    - lia. }
  destruct (to_int_normal _ _ _ _ Hm) as (n4 & ->).
  cbn [rbind]. eexists. reflexivity.
Qed.

End BudgetFacts.

(** ** Facts about bid optimisation *)

Module RebidFacts.
Import PyNum FloatAux FloatFacts Rebid.
Local Open Scope res.

Lemma rbind_ok {A B} (r : result A) (k : A -> result B) b :
  rbind r k = Ok b <-> exists a, r = Ok a /\ k a = Ok b.
Proof.
  destruct r as [a|e]; cbn; split.
  - intros H. exists a. auto.
  - intros (a' & E & H). inversion E; subst. assumption.
  - discriminate.
  - intros (a' & E & _). discriminate.
Qed.

(** One turn of the loop appends exactly one entry, and that entry
    follows the rule. *)
Lemma optimize_step_ok target acc e acc' :
  optimize_step target acc e = Ok acc' <->
  exists o, acc' = acc ++ [o] /\ follows_rule target e o.
Proof.
  unfold optimize_step, follows_rule, percent_change, rebid_rule.
  fold (bid_of e) (keyword_of e).
  split.
  - intros H.
    apply rbind_ok in H. destruct H as (nb & Hnb & H).
    apply rbind_ok in H. destruct H as (d & Hd & H).
    apply rbind_ok in H. destruct H as (q & Hq & H).
    apply rbind_ok in H. destruct H as (pct & Hpct & H).
    inversion H; subst acc'. eexists. split; [reflexivity|].
    cbn [ob_keyword old_bid new_bid change_percent].
    repeat split; try assumption.
    rewrite Hd. cbn [rbind]. rewrite Hq. cbn [rbind]. assumption.
  - intros (o & -> & Hk & Ho & Hn & Hp).
    rewrite Hn. cbn [rbind].
    apply rbind_ok in Hp. destruct Hp as (d & Hd & Hp).
    apply rbind_ok in Hp. destruct Hp as (q & Hq & Hp).
    rewrite Hd. cbn [rbind]. rewrite Hq. cbn [rbind]. rewrite Hp. cbn [rbind].
    destruct o; cbn in *; subst. reflexivity.
Qed.

Lemma optimize_loop_ok target kbs : forall acc out,
  optimize_loop target kbs acc = Ok out <->
  exists out', out = acc ++ out' /\ Forall2 (follows_rule target) kbs out'.
Proof.
  induction kbs as [|e rest IH]; intros acc out; cbn [optimize_loop].
  - split.
    + intros H. inversion H; subst. exists []. rewrite app_nil_r. split; constructor.
    + intros (out' & -> & HF). inversion HF; subst. rewrite app_nil_r. reflexivity.
  - rewrite rbind_ok. split.
    + intros (acc' & Hs & Hl).
      apply optimize_step_ok in Hs. destruct Hs as (o & -> & Ho).
      apply IH in Hl. destruct Hl as (out' & -> & HF).
      exists (o :: out'). rewrite <- app_assoc. split; [reflexivity|].
      constructor; assumption.
    + intros (out' & -> & HF). inversion HF as [|? o ? tl Ho HF']; subst.
      exists (acc ++ [o]). split.
      * apply optimize_step_ok. exists o. split; [reflexivity|assumption].
      * apply IH. exists tl. rewrite <- app_assoc. split; [reflexivity|assumption].
Qed.

Lemma float_100 : float_of_int 100 = Ok (S754_finite false 7036874417766400 (-46)).
Proof. reflexivity. Qed.

Lemma to_float_fits bid : fits_float bid = true -> exists x, to_float bid = Ok x.
Proof.
  unfold fits_float. destruct (to_float bid) as [x|]; [eauto|discriminate].
Qed.

Lemma to_float_zero bid x : to_float bid = Ok x -> fis_zero x = is_zero_bid bid.
Proof.
  destruct bid as [n|y]; cbn [to_float is_zero_bid].
  - intros H. destruct (Z.eqb_spec n 0) as [->|Hn].
    + cbn in H. inversion H. reflexivity.
    + eapply float_of_int_nonzero; eassumption.
  - intros H. inversion H. reflexivity.
Qed.

Lemma mul_float_r a y x : to_float a = Ok x -> mul a (PyFloat y) = Ok (PyFloat (fmul x y)).
Proof. destruct a; cbn; intros H; [rewrite H|inversion H]; reflexivity. Qed.

Lemma sub_float_l y a x : to_float a = Ok x -> sub (PyFloat y) a = Ok (PyFloat (fsub y x)).
Proof. destruct a; cbn; intros H; [rewrite H|inversion H]; reflexivity. Qed.

Lemma truediv_float_l y a x : to_float a = Ok x ->
  truediv (PyFloat y) a =
    if fis_zero x then Raise ZeroDivisionError else Ok (PyFloat (fdiv y x)).
Proof. destruct a; cbn; intros H; [rewrite H|inversion H]; reflexivity. Qed.

Lemma mul_float_100 q : exists r, mul (PyFloat q) (PyInt 100) = Ok r.
Proof. unfold mul. cbn [to_float]. rewrite float_100. cbn. eauto. Qed.

(** The percent change of a new bid that is a float. *)
Lemma percent_change_float y bid : fits_float bid = true ->
  (is_zero_bid bid = true /\ percent_change (PyFloat y) bid = Raise ZeroDivisionError) \/
  (is_zero_bid bid = false /\ exists r, percent_change (PyFloat y) bid = Ok r).
Proof.
  intros Hf. destruct (to_float_fits _ Hf) as (x & Ex).
  unfold percent_change. rewrite (sub_float_l _ _ _ Ex). cbn [rbind].
  rewrite (truediv_float_l _ _ _ Ex). rewrite (to_float_zero _ _ Ex).
  destruct (is_zero_bid bid); [left; auto|right]. split; [reflexivity|].
  cbn [rbind]. apply mul_float_100.
Qed.

(** The percent change of an unchanged bid. *)
Lemma percent_change_same bid :
  (is_zero_bid bid = true /\ percent_change bid bid = Raise ZeroDivisionError) \/
  (is_zero_bid bid = false /\ exists r, percent_change bid bid = Ok r).
Proof.
  destruct bid as [n|x].
  - unfold percent_change. cbn [sub rbind truediv is_zero_bid]. rewrite Z.sub_diag.
    destruct (Z.eqb_spec n 0) as [->|Hn]; [left; auto|right]. split; [reflexivity|].
    cbn [int_quotient rbind]. apply mul_float_100.
  - apply percent_change_float. reflexivity.
Qed.

(** A convertible bid makes one turn of the loop either divide by zero
    (zero bid) or append one entry for the same keyword. *)
Lemma optimize_step_cases target acc e : fits_float (bid_of e) = true ->
  (is_zero_bid (bid_of e) = true /\
   optimize_step target acc e = Raise ZeroDivisionError) \/
  (is_zero_bid (bid_of e) = false /\
   exists o, optimize_step target acc e = Ok (acc ++ [o]) /\
             ob_keyword o = keyword_of e).
Proof.
  intros Hf. destruct (to_float_fits _ Hf) as (x & Ex).
  unfold optimize_step. fold (bid_of e) (keyword_of e).
  assert (Hpc : forall nb,
    (is_zero_bid (bid_of e) = true /\ percent_change nb (bid_of e) = Raise ZeroDivisionError) \/
    (is_zero_bid (bid_of e) = false /\ exists r, percent_change nb (bid_of e) = Ok r) ->
    (is_zero_bid (bid_of e) = true /\
     (diff <- sub nb (bid_of e) ;; ratio <- truediv diff (bid_of e) ;;
      pct <- mul ratio (PyInt 100) ;;
      Ok (acc ++ [{| ob_keyword := keyword_of e; old_bid := bid_of e;
                     new_bid := nb; change_percent := pct |}])) = Raise ZeroDivisionError) \/
    (is_zero_bid (bid_of e) = false /\
     exists o, (diff <- sub nb (bid_of e) ;; ratio <- truediv diff (bid_of e) ;;
      pct <- mul ratio (PyInt 100) ;;
      Ok (acc ++ [{| ob_keyword := keyword_of e; old_bid := bid_of e;
                     new_bid := nb; change_percent := pct |}])) = Ok (acc ++ [o]) /\
      ob_keyword o = keyword_of e)).
  { intros nb [[Hz Hp]|[Hz (r & Hp)]]; [left|right]; (split; [assumption|]);
      unfold percent_change in Hp.
    - destruct (sub nb (bid_of e)) as [d|]; cbn [rbind] in *;
        [|inversion Hp; reflexivity].
      destruct (truediv d (bid_of e)) as [q|]; cbn [rbind] in *;
        [|inversion Hp; reflexivity].
      destruct (mul q (PyInt 100)); cbn [rbind] in *;
        [discriminate|inversion Hp; reflexivity].
    - destruct (sub nb (bid_of e)) as [d|]; cbn [rbind] in *; [|discriminate].
      destruct (truediv d (bid_of e)) as [q|]; cbn [rbind] in *; [|discriminate].
      rewrite Hp. cbn [rbind]. eexists. split; reflexivity. }
  destruct (target <=? 3).
  - rewrite (mul_float_r _ _ _ Ex). cbn [rbind].
    apply Hpc. apply percent_change_float. assumption.
  - destruct (target <=? 6).
    + cbn [rbind]. apply Hpc. apply percent_change_same.
    + rewrite (mul_float_r _ _ _ Ex). cbn [rbind].
      apply Hpc. apply percent_change_float. assumption.
Qed.

Lemma optimize_loop_zero target kbs : forall acc,
  Forall (fun e => fits_float (bid_of e) = true) kbs ->
  Exists (fun e => is_zero_bid (bid_of e) = true) kbs ->
  optimize_loop target kbs acc = Raise ZeroDivisionError.
Proof.
  induction kbs as [|e rest IH]; intros acc Hfit Hz.
  - inversion Hz.
  - inversion Hfit as [|? ? He Hrest]; subst. cbn [optimize_loop].
    destruct (optimize_step_cases target acc e He) as [[_ ->]|[Hnz (o & -> & _)]].
    + reflexivity.
    + cbn [rbind]. apply IH; [assumption|].
      inversion Hz as [? ? Hz0|? ? Hz']; subst; [congruence|assumption].
Qed.

Lemma optimize_loop_total target kbs : forall acc,
  Forall (fun e => fits_float (bid_of e) = true) kbs ->
  Forall (fun e => is_zero_bid (bid_of e) = false) kbs ->
  exists out, optimize_loop target kbs acc = Ok (acc ++ out) /\
              map ob_keyword out = map keyword_of kbs.
Proof.
  induction kbs as [|e rest IH]; intros acc Hfit Hnz.
  - exists []. rewrite app_nil_r. split; reflexivity.
  - inversion Hfit as [|? ? He Hrest]; subst.
    inversion Hnz as [|? ? Hne Hnrest]; subst. cbn [optimize_loop].
    destruct (optimize_step_cases target acc e He) as [[Hz _]|[_ (o & -> & Hk)]];
      [congruence|].
    cbn [rbind]. destruct (IH (acc ++ [o]) Hrest Hnrest) as (out & -> & Hm).
    exists (o :: out). rewrite <- app_assoc. split; [reflexivity|].
    cbn [map]. congruence.
Qed.

End RebidFacts.

(** ** Facts about the client and provisioning *)

Module DirectFacts.
Import Direct.

Section Facts.
Variable api : list request -> request -> wire.
Variable raises_for_status : Z -> bool.
Variable today now_iso : string.

Lemma logged_id {A} (c : io A) tr : logged c tr = c tr.
Proof.
  unfold logged, try_except, throw. destruct (c tr) as [[a|e] tr']; reflexivity.
Qed.

Lemma bind_ok {A B} (c : io A) (k : A -> io B) tr a tr' :
  c tr = (Ok a, tr') -> bind c k tr = k a tr'.
Proof. unfold bind. intros ->. reflexivity. Qed.

Lemma bind_raise {A B} (c : io A) (k : A -> io B) tr e tr' :
  c tr = (Raise e, tr') -> bind c k tr = (Raise e, tr').
Proof. unfold bind. intros ->. reflexivity. Qed.

(** Every request leaves exactly one entry in the trace. *)
Lemma _make_request_trace service method p tr :
  snd (_make_request api raises_for_status service method p tr) =
    tr ++ [{| service := service; method := method; req_params := p |}].
Proof.
  unfold _make_request. rewrite logged_id.
  destruct (api tr _) as [|status decoded]; [reflexivity|].
  destruct (status =? 200).
  - destruct decoded as [b|]; [|reflexivity].
    destruct (body_error b); reflexivity.
  - destruct (raises_for_status status); reflexivity.
Qed.

Lemma create_campaign_trace cfg tr :
  snd (create_campaign api raises_for_status today cfg tr) =
    tr ++ [campaign_request today cfg].
Proof.
  unfold create_campaign. rewrite logged_id. unfold bind.
  pose proof (_make_request_trace "campaigns" "add"
                (req_params (campaign_request today cfg)) tr) as Ht.
  cbn [campaign_request req_params] in Ht.
  destruct (_make_request _ _ _ _ _ tr) as [[result|e] tr1]; cbn [snd] in Ht; subst tr1;
    [|reflexivity].
  destruct result as [r|]; [|reflexivity].
  destruct (AddResults r) as [add_results|]; [|reflexivity].
  destruct (collect_add_results add_results [] []) as [ids errors].
  destruct (nonempty errors); reflexivity.
Qed.

End Facts.

End DirectFacts.

(** ** Facts about semantic-core assembly *)

Module ManagerFacts.
Import Direct Manager DirectFacts.

Section Facts.
Variable api : list request -> request -> wire.
Variable raises_for_status : Z -> bool.
Variable openai_create : string -> string -> result string.
Variable json_loads : string -> result Json.dict.
Variable keywords_prompt : LandingAnalysis -> Z -> string.

(** The client swallows every failure of the suggestion request. *)
Lemma get_keyword_suggestions_returns base_keywords tr :
  exists l tr', get_keyword_suggestions api raises_for_status base_keywords tr = (Ok l, tr').
Proof.
  unfold get_keyword_suggestions, try_except.
  match goal with |- context [match ?c tr with _ => _ end] => destruct (c tr) as [[l|e] tr'] end.
  - eauto.
  - unfold ret. eauto.
Qed.

Lemma get_keyword_suggestions_remote_failure base_keywords tr e tr' :
  _make_request api raises_for_status "keywordsresearch" "get"
    (KeywordsByKeyword (firstn 10 base_keywords) [225]) tr = (Raise e, tr') ->
  get_keyword_suggestions api raises_for_status base_keywords tr = (Ok [], tr').
Proof.
  intros H. unfold get_keyword_suggestions, try_except.
  rewrite (bind_raise _ _ _ _ _ H). reflexivity.
Qed.

Lemma yandex_suggestions_returns base_keywords tr :
  exists l tr',
    _get_yandex_keyword_suggestions api raises_for_status base_keywords tr = (Ok l, tr').
Proof.
  unfold _get_yandex_keyword_suggestions, try_except.
  match goal with |- context [match ?c tr with _ => _ end] => destruct (c tr) as [[l|e] tr'] end.
  - eauto.
  - unfold ret. eauto.
Qed.

Lemma yandex_suggestions_remote_failure base_keywords tr e tr' :
  _make_request api raises_for_status "keywordsresearch" "get"
    (KeywordsByKeyword (firstn 10 base_keywords) [225]) tr = (Raise e, tr') ->
  _get_yandex_keyword_suggestions api raises_for_status base_keywords tr = (Ok [], tr').
Proof.
  intros H. unfold _get_yandex_keyword_suggestions, try_except.
  rewrite (bind_ok _ _ _ _ _ (get_keyword_suggestions_remote_failure _ _ _ _ H)).
  reflexivity.
Qed.

(** What the assembly returns when the four keys are present and the
    high tier has a length. *)
Lemma semantic_core_copy analysis budget tr h m l n :
  let ai := _generate_ai_keywords openai_create json_loads keywords_prompt analysis budget in
  Json.getitem ai "high_priority" = Ok h ->
  Json.getitem ai "medium_priority" = Ok m ->
  Json.getitem ai "low_priority" = Ok l ->
  Json.getitem ai "negative_keywords" = Ok n ->
  is_ok (Json.len h) = true ->
  exists suggestions tr',
    _create_semantic_core_with_yandex api raises_for_status openai_create json_loads
      keywords_prompt analysis budget tr =
    (Ok {| high_priority := h; medium_priority := m; low_priority := l;
           negative_keywords := n; yandex_suggestions := suggestions |}, tr').
Proof.
  intros ai Hh Hm Hl Hn Hlen. unfold _create_semantic_core_with_yandex. fold ai.
  destruct (yandex_suggestions_returns (keywords analysis) tr) as (sg & tr' & Hs).
  rewrite (bind_ok _ _ _ _ _ Hs).
  rewrite Hh, Hm, Hl, Hn. unfold bind, lift. cbn [high_priority].
  destruct (Json.len h); [|discriminate]. exists sg, tr'. reflexivity.
Qed.

(** A missing key makes the assembly raise [KeyError]. *)
Lemma semantic_core_missing_key analysis budget tr :
  _generate_ai_keywords openai_create json_loads keywords_prompt analysis budget = [] ->
  fst (_create_semantic_core_with_yandex api raises_for_status openai_create json_loads
         keywords_prompt analysis budget tr) = Raise (KeyError "high_priority").
Proof.
  intros Hai. unfold _create_semantic_core_with_yandex. rewrite Hai.
  destruct (yandex_suggestions_returns (keywords analysis) tr) as (sg & tr' & Hs).
  rewrite (bind_ok _ _ _ _ _ Hs). reflexivity.
Qed.

End Facts.

End ManagerFacts.

(** ** More about provisioning *)

Module RolloutFacts.
Import Direct Rollout DirectFacts.

Lemma collect_add_results_spec items : forall ids errors,
  collect_add_results items ids errors =
    (ids ++ flat_map item_ids items, errors ++ flat_map item_errors items).
Proof.
  induction items as [|item rest IH]; intros ids errors; cbn [collect_add_results flat_map].
  - rewrite !app_nil_r. reflexivity.
  - unfold item_ids at 1, item_errors at 1.
    destruct (item_Id item) as [id|]; [|destruct (item_Errors item) as [errs|]];
      rewrite IH; cbn [app]; rewrite <- ?app_assoc; reflexivity.
Qed.

Section Facts.
Variable api : list request -> request -> wire.
Variable raises_for_status : Z -> bool.
Variable today now_iso : string.

Lemma create_keywords_trace group_id keywords_config tr :
  snd (create_keywords api raises_for_status group_id keywords_config tr) =
    tr ++ [keywords_request group_id keywords_config].
Proof.
  unfold create_keywords. rewrite logged_id. unfold bind.
  pose proof (_make_request_trace api raises_for_status "keywords" "add"
                (req_params (keywords_request group_id keywords_config)) tr) as Ht.
  cbn [keywords_request req_params] in Ht.
  destruct (_make_request _ _ _ _ _ tr) as [[result|e] tr1]; cbn [snd] in Ht; subst tr1;
    [|reflexivity].
  destruct result as [r|]; [|reflexivity].
  destruct (collect_add_results _ [] []) as [ids errors].
  destruct (nonempty errors); reflexivity.
Qed.

Lemma create_ads_trace group_id ads_config tr :
  snd (create_ads api raises_for_status group_id ads_config tr) =
    tr ++ [ads_request group_id ads_config].
Proof.
  unfold create_ads. rewrite logged_id. unfold bind.
  pose proof (_make_request_trace api raises_for_status "ads" "add"
                (req_params (ads_request group_id ads_config)) tr) as Ht.
  cbn [ads_request req_params] in Ht.
  destruct (_make_request _ _ _ _ _ tr) as [[result|e] tr1]; cbn [snd] in Ht; subst tr1;
    [|reflexivity].
  destruct result as [r|]; [|reflexivity].
  destruct (collect_add_results _ [] []) as [ids errors].
  destruct (nonempty errors); reflexivity.
Qed.

Lemma create_ad_groups_trace campaign_id groups_config tr :
  snd (create_ad_groups api raises_for_status campaign_id groups_config tr) =
    tr ++ [groups_request campaign_id groups_config].
Proof.
  unfold create_ad_groups. rewrite logged_id. unfold bind.
  pose proof (_make_request_trace api raises_for_status "adgroups" "add"
                (req_params (groups_request campaign_id groups_config)) tr) as Ht.
  cbn [groups_request req_params] in Ht.
  destruct (_make_request _ _ _ _ _ tr) as [[result|e] tr1]; cbn [snd] in Ht; subst tr1;
    [|reflexivity].
  destruct result as [r|]; [|reflexivity].
  destruct (collect_add_results _ [] []) as [ids errors].
  destruct (nonempty errors); reflexivity.
Qed.

Lemma skipn_nth {A} (l : list A) i :
  skipn i l = match nth_error l i with
              | Some x => x :: skipn (S i) l
              | None => []
              end.
Proof.
  revert l. induction i as [|i IHi]; intros [|g gs]; try reflexivity.
  cbn [skipn nth_error]. rewrite IHi. destruct (nth_error gs i); reflexivity.
Qed.

Lemma planned_keywords_nil ids : planned_keywords ids [] = [].
Proof. destruct ids; reflexivity. Qed.

Lemma planned_ads_nil ids : planned_ads ids [] = [].
Proof. destruct ids; reflexivity. Qed.

(** The keyword stage sends an initial part of its plan, and all of it
    when it returns. *)
Lemma keywords_stage_trace group_ids : forall i groups_config tr,
  exists sent,
    snd (keywords_stage api raises_for_status i group_ids groups_config tr) = tr ++ sent /\
    initial_part sent (planned_keywords group_ids (skipn i groups_config)) /\
    (is_ok (fst (keywords_stage api raises_for_status i group_ids groups_config tr)) = true ->
     sent = planned_keywords group_ids (skipn i groups_config)).
Proof.
  induction group_ids as [|group_id rest IH]; intros i groups_config tr.
  - exists []. cbn. rewrite app_nil_r. repeat split. exists []. reflexivity.
  - cbn [keywords_stage]. rewrite (skipn_nth groups_config i).
    destruct (nth_error groups_config i) as [gc|] eqn:Hnth.
    + change (planned_keywords (group_id :: rest) (gc :: skipn (S i) groups_config))
        with (keywords_of_pair (group_id, gc)
                ++ planned_keywords rest (skipn (S i) groups_config)).
      unfold keywords_of_pair. cbn [fst snd].
      destruct (nonempty (dict_get (gc_keywords gc) [])) eqn:Hne.
      * pose proof (create_keywords_trace group_id (dict_get (gc_keywords gc) []) tr) as Ht.
        destruct (create_keywords api raises_for_status group_id
                    (dict_get (gc_keywords gc) []) tr) as [[c|e] tr1] eqn:Hck;
          cbn [snd] in Ht; subst tr1.
        -- rewrite (bind_ok _ _ tr tt
                      (tr ++ [keywords_request group_id (dict_get (gc_keywords gc) [])]))
             by (rewrite (bind_ok _ _ _ _ _ Hck); reflexivity).
           destruct (IH (S i) groups_config
                       (tr ++ [keywords_request group_id (dict_get (gc_keywords gc) [])]))
             as (sent & Hs & (more & Hp) & Hok).
           exists (keywords_request group_id (dict_get (gc_keywords gc) []) :: sent).
           rewrite Hs, <- app_assoc. split; [reflexivity|]. split.
           ++ exists more. cbn [app]. rewrite Hp. reflexivity.
           ++ intros H. cbn [app]. rewrite (Hok H). reflexivity.
        -- rewrite (bind_raise _ _ tr e
                      (tr ++ [keywords_request group_id (dict_get (gc_keywords gc) [])]))
             by (rewrite (bind_raise _ _ _ _ _ Hck); reflexivity).
           exists [keywords_request group_id (dict_get (gc_keywords gc) [])].
           split; [reflexivity|]. split; [|discriminate].
           eexists. reflexivity.
      * rewrite (bind_ok _ _ tr tt tr) by reflexivity. cbn [app].
        apply (IH (S i) groups_config tr).
    + rewrite (bind_ok _ _ tr tt tr) by reflexivity.
      destruct (IH (S i) groups_config tr) as (sent & Hs & Hp & Hok).
      assert (Hnil : skipn (S i) groups_config = []).
      { apply skipn_all2. apply nth_error_None in Hnth. lia. }
      rewrite Hnil, planned_keywords_nil in Hp, Hok. rewrite planned_keywords_nil.
      exists sent. split; [exact Hs|]. split; [exact Hp|exact Hok].
Qed.

(** The ad stage sends an initial part of its plan, and all of it when it
    returns. *)
Lemma ads_stage_trace group_ids : forall i groups_config tr,
  exists sent,
    snd (ads_stage api raises_for_status i group_ids groups_config tr) = tr ++ sent /\
    initial_part sent (planned_ads group_ids (skipn i groups_config)) /\
    (is_ok (fst (ads_stage api raises_for_status i group_ids groups_config tr)) = true ->
     sent = planned_ads group_ids (skipn i groups_config)).
Proof.
  induction group_ids as [|group_id rest IH]; intros i groups_config tr.
  - exists []. cbn. rewrite app_nil_r. repeat split. exists []. reflexivity.
  - cbn [ads_stage]. rewrite (skipn_nth groups_config i).
    destruct (nth_error groups_config i) as [gc|] eqn:Hnth.
    + change (planned_ads (group_id :: rest) (gc :: skipn (S i) groups_config))
        with (ads_of_pair (group_id, gc) ++ planned_ads rest (skipn (S i) groups_config)).
      unfold ads_of_pair. cbn [fst snd].
      destruct (nonempty (dict_get (gc_ads gc) [])) eqn:Hne.
      * pose proof (create_ads_trace group_id (dict_get (gc_ads gc) []) tr) as Ht.
        destruct (create_ads api raises_for_status group_id
                    (dict_get (gc_ads gc) []) tr) as [[c|e] tr1] eqn:Hck;
          cbn [snd] in Ht; subst tr1.
        -- rewrite (bind_ok _ _ tr tt (tr ++ [ads_request group_id (dict_get (gc_ads gc) [])]))
             by (rewrite (bind_ok _ _ _ _ _ Hck); reflexivity).
           destruct (IH (S i) groups_config
                       (tr ++ [ads_request group_id (dict_get (gc_ads gc) [])]))
             as (sent & Hs & (more & Hp) & Hok).
           exists (ads_request group_id (dict_get (gc_ads gc) []) :: sent).
           rewrite Hs, <- app_assoc. split; [reflexivity|]. split.
           ++ exists more. cbn [app]. rewrite Hp. reflexivity.
           ++ intros H. cbn [app]. rewrite (Hok H). reflexivity.
        -- rewrite (bind_raise _ _ tr e
                      (tr ++ [ads_request group_id (dict_get (gc_ads gc) [])]))
             by (rewrite (bind_raise _ _ _ _ _ Hck); reflexivity).
           exists [ads_request group_id (dict_get (gc_ads gc) [])].
           split; [reflexivity|]. split; [|discriminate].
           eexists. reflexivity.
      * rewrite (bind_ok _ _ tr tt tr) by reflexivity. cbn [app].
        apply (IH (S i) groups_config tr).
    + rewrite (bind_ok _ _ tr tt tr) by reflexivity.
      destruct (IH (S i) groups_config tr) as (sent & Hs & Hp & Hok).
      assert (Hnil : skipn (S i) groups_config = []).
      { apply skipn_all2. apply nth_error_None in Hnth. lia. }
      rewrite Hnil, planned_ads_nil in Hp, Hok. rewrite planned_ads_nil.
      exists sent. split; [exact Hs|]. split; [exact Hp|exact Hok].
Qed.

Lemma combine_length_le {A B} (l : list A) (l' : list B) :
  (List.length (combine l l') <= List.length l')%nat.
Proof. rewrite length_combine. lia. Qed.

Lemma flat_map_short {A B} (f : A -> list B) (l : list A) :
  (forall a, List.length (f a) <= 1)%nat ->
  (List.length (flat_map f l) <= List.length l)%nat.
Proof.
  intros Hf. induction l as [|a rest IH]; cbn [flat_map List.length]; [lia|].
  rewrite length_app. specialize (Hf a). lia.
Qed.

Lemma planned_keywords_length ids groups_config :
  (List.length (planned_keywords ids groups_config) <= List.length groups_config)%nat.
Proof.
  unfold planned_keywords.
  pose proof (combine_length_le ids groups_config) as H.
  pose proof (flat_map_short keywords_of_pair (combine ids groups_config)) as H1.
  assert (forall a, (List.length (keywords_of_pair a) <= 1)%nat).
  { intros a. unfold keywords_of_pair. destruct (nonempty _); cbn; lia. }
  specialize (H1 H0). lia.
Qed.

Lemma planned_ads_length ids groups_config :
  (List.length (planned_ads ids groups_config) <= List.length groups_config)%nat.
Proof.
  unfold planned_ads.
  pose proof (combine_length_le ids groups_config) as H.
  pose proof (flat_map_short ads_of_pair (combine ids groups_config)) as H1.
  assert (forall a, (List.length (ads_of_pair a) <= 1)%nat).
  { intros a. unfold ads_of_pair. destruct (nonempty _); cbn; lia. }
  specialize (H1 H0). lia.
Qed.

(** Every run sends an initial part of its plan, in the plan's order, and
    the whole plan when it returns a summary. *)
Lemma run_trace plan tr :
  exists sent campaign_id group_ids,
    snd (create_full_campaign_from_strategy api raises_for_status today now_iso plan tr) =
      tr ++ sent /\
    initial_part sent (planned_requests today plan campaign_id group_ids) /\
    (forall summary,
       fst (create_full_campaign_from_strategy api raises_for_status today now_iso plan tr) =
         Ok summary ->
       sent = planned_requests today plan campaign_id group_ids /\
       Direct.campaign_id summary = campaign_id /\
       groups_count summary = Z.of_nat (List.length group_ids)).
Proof.
  unfold create_full_campaign_from_strategy. rewrite logged_id.
  set (ccfg := dict_get (sc_campaign plan) empty_campaign_config).
  set (gcfg := dict_get (sc_ad_groups plan) []).
  pose proof (create_campaign_trace api raises_for_status today ccfg tr) as Ht1.
  destruct (create_campaign api raises_for_status today ccfg tr) as [[c|e] tr1] eqn:Hc;
    cbn [snd] in Ht1; subst tr1.
  2: { rewrite (bind_raise _ _ _ _ _ Hc).
       exists [campaign_request today ccfg], 0, []. split; [reflexivity|]. split.
       - eexists. unfold planned_requests. fold ccfg. cbn [app]. reflexivity.
       - cbn [fst]. discriminate. }
  rewrite (bind_ok _ _ _ _ _ Hc). cbv beta.
  destruct (created_ids c) as [|cid other].
  { exists [campaign_request today ccfg], 0, []. split; [reflexivity|]. split.
    - eexists. unfold planned_requests. fold ccfg. cbn [app]. reflexivity.
    - cbn. discriminate. }
  rewrite (bind_ok _ _ _ cid (tr ++ [campaign_request today ccfg])) by reflexivity.
  cbv beta zeta.
  pose proof (create_ad_groups_trace cid gcfg (tr ++ [campaign_request today ccfg])) as Ht2.
  destruct (create_ad_groups api raises_for_status cid gcfg
              (tr ++ [campaign_request today ccfg])) as [[g|e] tr2] eqn:Hg;
    cbn [snd] in Ht2; subst tr2.
  2: { rewrite (bind_raise _ _ _ _ _ Hg).
       exists [campaign_request today ccfg; groups_request cid gcfg], cid, [].
       split; [rewrite <- app_assoc; reflexivity|]. split.
       - eexists. unfold planned_requests. fold ccfg gcfg. cbn [app]. reflexivity.
       - cbn [fst]. discriminate. }
  rewrite (bind_ok _ _ _ _ _ Hg). cbv beta.
  set (tr2 := (tr ++ [campaign_request today ccfg]) ++ [groups_request cid gcfg]).
  assert (Etr2 : tr2 = tr ++ [campaign_request today ccfg; groups_request cid gcfg])
    by (unfold tr2; rewrite <- app_assoc; reflexivity).
  destruct (keywords_stage_trace (created_ids g) 0 gcfg tr2) as (sentK & HsK & HpK & HokK).
  cbn [skipn] in HpK, HokK.
  destruct (keywords_stage api raises_for_status 0 (created_ids g) gcfg tr2)
    as [[u|e] tr3] eqn:Hk; cbn [fst snd] in HsK, HokK; subst tr3.
  2: { rewrite (bind_raise _ _ _ _ _ Hk).
       exists (campaign_request today ccfg :: groups_request cid gcfg :: sentK),
         cid, (created_ids g).
       split; [rewrite Etr2, <- app_assoc; reflexivity|]. split.
       - destruct HpK as (more & Hmore). exists (more ++ planned_ads (created_ids g) gcfg).
         unfold planned_requests. fold ccfg gcfg. rewrite Hmore.
         cbn [app]. rewrite <- app_assoc. reflexivity.
       - cbn [fst]. discriminate. }
  rewrite (bind_ok _ _ _ _ _ Hk). cbv beta.
  specialize (HokK eq_refl). subst sentK.
  destruct (ads_stage_trace (created_ids g) 0 gcfg
              (tr2 ++ planned_keywords (created_ids g) gcfg)) as (sentA & HsA & HpA & HokA).
  cbn [skipn] in HpA, HokA.
  destruct (ads_stage api raises_for_status 0 (created_ids g) gcfg
              (tr2 ++ planned_keywords (created_ids g) gcfg))
    as [[u'|e] tr4] eqn:Ha; cbn [fst snd] in HsA, HokA; subst tr4.
  2: { rewrite (bind_raise _ _ _ _ _ Ha).
       exists (campaign_request today ccfg :: groups_request cid gcfg
                 :: planned_keywords (created_ids g) gcfg ++ sentA),
         cid, (created_ids g).
       split; [rewrite Etr2, <- !app_assoc; reflexivity|]. split.
       - destruct HpA as (more & Hmore). exists more.
         unfold planned_requests. fold ccfg gcfg. rewrite Hmore.
         cbn [app]. rewrite <- app_assoc. reflexivity.
       - cbn [fst]. discriminate. }
  rewrite (bind_ok _ _ _ _ _ Ha). cbv beta.
  specialize (HokA eq_refl). subst sentA.
  exists (planned_requests today plan cid (created_ids g)), cid, (created_ids g).
  unfold ret. cbn [fst snd]. split.
  - rewrite Etr2. unfold planned_requests. fold ccfg gcfg. rewrite <- !app_assoc. reflexivity.
  - split; [exists []; rewrite app_nil_r; reflexivity|].
    intros summary H. inversion H; subst summary. cbn. repeat split.
Qed.

(** What the two creation methods make of a reply. *)
Lemma create_ad_groups_reply campaign_id groups_config tr r tr' :
  _make_request api raises_for_status "adgroups" "add"
    (AdGroupsParams (map (build_ad_group campaign_id) groups_config)) tr =
    (Ok (Some r), tr') ->
  create_ad_groups api raises_for_status campaign_id groups_config tr =
    (match flat_map item_errors (dict_get (AddResults r) []) with
     | [] => Ok {| created_ids := flat_map item_ids (dict_get (AddResults r) []);
                   raw_result := r |}
     | errs => Raise (PyException "ad group creation errors" errs)
     end, tr').
Proof.
  intros H. unfold create_ad_groups. rewrite logged_id.
  rewrite (bind_ok _ _ _ _ _ H).
  rewrite collect_add_results_spec. cbn [app].
  destruct (flat_map item_errors (dict_get (AddResults r) [])); reflexivity.
Qed.

Lemma create_campaign_reply campaign_config tr r tr' :
  _make_request api raises_for_status "campaigns" "add"
    (CampaignsParams [build_campaign_data today campaign_config]) tr =
    (Ok (Some r), tr') ->
  create_campaign api raises_for_status today campaign_config tr =
    (match AddResults r with
     | None => Raise (PyException "unexpected API response structure" [])
     | Some add_results =>
         match flat_map item_errors add_results with
         | [] => Ok {| created_ids := flat_map item_ids add_results; raw_result := r |}
         | errs => Raise (PyException "campaign creation errors" errs)
         end
     end, tr').
Proof.
  intros H. unfold create_campaign. rewrite logged_id.
  rewrite (bind_ok _ _ _ _ _ H).
  destruct (AddResults r) as [add_results|]; [|reflexivity].
  rewrite collect_add_results_spec. cbn [app].
  destruct (flat_map item_errors add_results); reflexivity.
Qed.

(** Every planned request adds something. *)
Lemma planned_requests_add plan campaign_id group_ids :
  Forall (fun r => method r = "add") (planned_requests today plan campaign_id group_ids).
Proof.
  unfold planned_requests. repeat constructor.
  apply Forall_app. split; apply Forall_flat_map; apply Forall_forall; intros p _.
  - unfold keywords_of_pair. destruct (nonempty _); repeat constructor.
  - unfold ads_of_pair. destruct (nonempty _); repeat constructor.
Qed.

(** *** The batch methods through their common shape *)

Lemma create_ad_groups_send campaign_id groups_config tr :
  create_ad_groups api raises_for_status campaign_id groups_config tr =
    send_batch api raises_for_status "ad group creation errors"
      (groups_request campaign_id groups_config) tr.
Proof. reflexivity. Qed.

Lemma create_keywords_send group_id keywords_config tr :
  create_keywords api raises_for_status group_id keywords_config tr =
    send_batch api raises_for_status "keyword creation errors"
      (keywords_request group_id keywords_config) tr.
Proof. reflexivity. Qed.

Lemma create_ads_send group_id ads_config tr :
  create_ads api raises_for_status group_id ads_config tr =
    send_batch api raises_for_status "ad creation errors"
      (ads_request group_id ads_config) tr.
Proof. reflexivity. Qed.

(** What a batch method makes of the platform's answer. *)
Lemma send_batch_outcome label batch tr :
  send_batch api raises_for_status label batch tr =
    (match fst (_make_request api raises_for_status (service batch) (method batch)
                  (req_params batch) tr) with
     | Raise e => Raise e
     | Ok None => Raise AttributeError
     | Ok (Some r) =>
         match flat_map item_errors (dict_get (AddResults r) []) with
         | [] => Ok {| created_ids := flat_map item_ids (dict_get (AddResults r) []);
                       raw_result := r |}
         | errs => Raise (PyException label errs)
         end
     end, tr ++ [batch]).
Proof.
  unfold send_batch. rewrite logged_id. unfold bind.
  pose proof (_make_request_trace api raises_for_status (service batch) (method batch)
                (req_params batch) tr) as Ht.
  destruct batch as [sv me pa]. cbn [service method req_params] in *.
  destruct (_make_request api raises_for_status sv me pa tr) as [[result|e] tr1];
    cbn [fst snd] in *; subst tr1; [|reflexivity].
  destruct result as [r|]; [|reflexivity].
  rewrite collect_add_results_spec. cbn [app].
  destruct (flat_map item_errors (dict_get (AddResults r) [])); reflexivity.
Qed.

Lemma send_batch_accepted label batch tr ids :
  batch_ids api raises_for_status batch tr = Some ids ->
  exists r,
    send_batch api raises_for_status label batch tr =
      (Ok {| created_ids := ids; raw_result := r |}, tr ++ [batch]).
Proof.
  rewrite send_batch_outcome. unfold batch_ids.
  destruct (fst (_make_request _ _ _ _ _ tr)) as [[r|]|e]; try discriminate.
  destruct (flat_map item_errors (dict_get (AddResults r) [])); [|discriminate].
  intros H. inversion H; subst ids. exists r. reflexivity.
Qed.

Lemma send_batch_refused label batch tr :
  batch_ids api raises_for_status batch tr = None ->
  exists e, send_batch api raises_for_status label batch tr = (Raise e, tr ++ [batch]).
Proof.
  rewrite send_batch_outcome. unfold batch_ids.
  destruct (fst (_make_request _ _ _ _ _ tr)) as [[r|]|e]; try (eexists; reflexivity).
  destruct (flat_map item_errors (dict_get (AddResults r) []));
    [discriminate|eexists; reflexivity].
Qed.

Lemma send_batch_errors label batch tr e es :
  batch_errors api raises_for_status batch tr = e :: es ->
  send_batch api raises_for_status label batch tr =
    (Raise (PyException label (e :: es)), tr ++ [batch]).
Proof.
  rewrite send_batch_outcome. unfold batch_errors.
  destruct (fst (_make_request _ _ _ _ _ tr)) as [[r|]|e0]; try discriminate.
  intros ->. reflexivity.
Qed.

Lemma batch_errors_refused batch tr e es :
  batch_errors api raises_for_status batch tr = e :: es ->
  batch_ids api raises_for_status batch tr = None.
Proof.
  unfold batch_errors, batch_ids.
  destruct (fst (_make_request _ _ _ _ _ tr)) as [[r|]|e0]; try reflexivity.
  intros ->. reflexivity.
Qed.

(** *** A list of batches sent in order *)

Lemma send_all_accepted label batches : forall tr,
  accepted api raises_for_status batches tr = true ->
  send_all api raises_for_status label batches tr = (Ok tt, tr ++ batches).
Proof.
  induction batches as [|batch rest IH]; intros tr H.
  - cbn. rewrite app_nil_r. reflexivity.
  - cbn [accepted] in H. cbn [send_all].
    destruct (batch_ids api raises_for_status batch tr) as [ids|] eqn:Eb; [|discriminate].
    destruct (send_batch_accepted label batch tr ids Eb) as (r & Hs).
    rewrite (bind_ok _ _ _ _ _ Hs). rewrite (IH _ H), <- app_assoc. reflexivity.
Qed.

Lemma send_all_refused label batches : forall tr,
  accepted api raises_for_status batches tr = false ->
  exists e sent,
    send_all api raises_for_status label batches tr = (Raise e, tr ++ sent) /\
    initial_part sent batches /\ sent <> [].
Proof.
  induction batches as [|batch rest IH]; intros tr H.
  - discriminate.
  - cbn [accepted] in H. cbn [send_all].
    destruct (batch_ids api raises_for_status batch tr) as [ids|] eqn:Eb.
    + destruct (send_batch_accepted label batch tr ids Eb) as (r & Hs).
      rewrite (bind_ok _ _ _ _ _ Hs).
      destruct (IH _ H) as (e & sent & -> & (more & ->) & _).
      exists e, (batch :: sent). rewrite <- app_assoc. split; [reflexivity|].
      split; [exists more; reflexivity|discriminate].
    + destruct (send_batch_refused label batch tr Eb) as (e & Hs).
      rewrite (bind_raise _ _ _ _ _ Hs). exists e, [batch].
      split; [reflexivity|]. split; [exists rest; reflexivity|discriminate].
Qed.

Lemma send_all_rejected label failing after e es before : forall tr,
  accepted api raises_for_status before tr = true ->
  batch_errors api raises_for_status failing (tr ++ before) = e :: es ->
  send_all api raises_for_status label (before ++ failing :: after) tr =
    (Raise (PyException label (e :: es)), tr ++ before ++ [failing]).
Proof.
  induction before as [|batch rest IH]; intros tr Hacc Herr.
  - rewrite app_nil_r in Herr. cbn [app send_all].
    rewrite (bind_raise _ _ _ _ _ (send_batch_errors label failing tr e es Herr)).
    reflexivity.
  - cbn [accepted] in Hacc. cbn [app send_all].
    destruct (batch_ids api raises_for_status batch tr) as [ids|] eqn:Eb; [|discriminate].
    destruct (send_batch_accepted label batch tr ids Eb) as (r & Hs).
    rewrite (bind_ok _ _ _ _ _ Hs).
    rewrite (IH (tr ++ [batch]) Hacc) by (rewrite <- app_assoc; exact Herr).
    rewrite <- app_assoc. reflexivity.
Qed.

Lemma accepted_app before : forall after tr,
  accepted api raises_for_status (before ++ after) tr =
    accepted api raises_for_status before tr &&
    accepted api raises_for_status after (tr ++ before).
Proof.
  induction before as [|batch rest IH]; intros after tr.
  - cbn. rewrite app_nil_r. reflexivity.
  - cbn [app accepted]. destruct (batch_ids api raises_for_status batch tr);
      [|reflexivity].
    rewrite IH, <- app_assoc. reflexivity.
Qed.

(** *** The two stages and the run *)

Lemma keywords_stage_send group_ids : forall i groups_config tr,
  keywords_stage api raises_for_status i group_ids groups_config tr =
    send_all api raises_for_status "keyword creation errors"
      (planned_keywords group_ids (skipn i groups_config)) tr.
Proof.
  induction group_ids as [|group_id rest IH]; intros i groups_config tr.
  - reflexivity.
  - cbn [keywords_stage]. rewrite (skipn_nth groups_config i).
    destruct (nth_error groups_config i) as [gc|] eqn:Hnth.
    + change (planned_keywords (group_id :: rest) (gc :: skipn (S i) groups_config))
        with (keywords_of_pair (group_id, gc)
                ++ planned_keywords rest (skipn (S i) groups_config)).
      unfold keywords_of_pair. cbn [fst snd].
      destruct (nonempty (dict_get (gc_keywords gc) [])).
      * cbn [app send_all]. unfold bind. rewrite create_keywords_send.
        destruct (send_batch _ _ _ _ tr) as [[c|e] tr1]; [|reflexivity].
        unfold ret. apply IH.
      * cbn [app]. unfold bind, ret. apply IH.
    + unfold bind, ret. rewrite IH.
      assert (Hnil : skipn (S i) groups_config = []).
      { apply skipn_all2. apply nth_error_None in Hnth. lia. }
      rewrite Hnil, !planned_keywords_nil. reflexivity.
Qed.

Lemma ads_stage_send group_ids : forall i groups_config tr,
  ads_stage api raises_for_status i group_ids groups_config tr =
    send_all api raises_for_status "ad creation errors"
      (planned_ads group_ids (skipn i groups_config)) tr.
Proof.
  induction group_ids as [|group_id rest IH]; intros i groups_config tr.
  - reflexivity.
  - cbn [ads_stage]. rewrite (skipn_nth groups_config i).
    destruct (nth_error groups_config i) as [gc|] eqn:Hnth.
    + change (planned_ads (group_id :: rest) (gc :: skipn (S i) groups_config))
        with (ads_of_pair (group_id, gc) ++ planned_ads rest (skipn (S i) groups_config)).
      unfold ads_of_pair. cbn [fst snd].
      destruct (nonempty (dict_get (gc_ads gc) [])).
      * cbn [app send_all]. unfold bind. rewrite create_ads_send.
        destruct (send_batch _ _ _ _ tr) as [[c|e] tr1]; [|reflexivity].
        unfold ret. apply IH.
      * cbn [app]. unfold bind, ret. apply IH.
    + unfold bind, ret. rewrite IH.
      assert (Hnil : skipn (S i) groups_config = []).
      { apply skipn_all2. apply nth_error_None in Hnth. lia. }
      rewrite Hnil, !planned_ads_nil. reflexivity.
Qed.

(** The run when the campaign request gives no campaign id. *)
Lemma run_without_campaign_id plan tr :
  campaign_id_answered api raises_for_status today
    (dict_get (sc_campaign plan) empty_campaign_config) tr = None ->
  create_full_campaign_from_strategy api raises_for_status today now_iso plan tr =
    (Raise (campaign_failure api raises_for_status today
              (dict_get (sc_campaign plan) empty_campaign_config) tr),
     tr ++ [campaign_request today (dict_get (sc_campaign plan) empty_campaign_config)]).
Proof.
  set (ccfg := dict_get (sc_campaign plan) empty_campaign_config).
  unfold campaign_id_answered, campaign_failure.
  unfold create_full_campaign_from_strategy. rewrite logged_id. fold ccfg.
  pose proof (_make_request_trace api raises_for_status "campaigns" "add"
                (CampaignsParams [build_campaign_data today ccfg]) tr) as Ht.
  change (tr ++ [{| service := "campaigns"; method := "add";
                    req_params := CampaignsParams [build_campaign_data today ccfg] |}])
    with (tr ++ [campaign_request today ccfg]) in Ht.
  destruct (_make_request api raises_for_status "campaigns" "add"
              (CampaignsParams [build_campaign_data today ccfg]) tr)
    as [[result|e] tr1] eqn:Hreq; cbn [fst snd] in *; subst tr1.
  - destruct result as [r|].
    + pose proof (create_campaign_reply ccfg tr r _ Hreq) as Hc.
      destruct (AddResults r) as [add_results|].
      * destruct (flat_map item_errors add_results) as [|e es].
        -- destruct (flat_map item_ids add_results) as [|cid others]; [|discriminate].
           intros _. rewrite (bind_ok _ _ _ _ _ Hc). reflexivity.
        -- intros _. rewrite (bind_raise _ _ _ _ _ Hc). reflexivity.
      * intros _. rewrite (bind_raise _ _ _ _ _ Hc). reflexivity.
    + intros _. unfold bind at 1. unfold create_campaign. rewrite logged_id.
      rewrite (bind_ok _ _ _ _ _ Hreq). reflexivity.
  - intros _. unfold bind at 1. unfold create_campaign. rewrite logged_id.
    rewrite (bind_raise _ _ _ _ _ Hreq). reflexivity.
Qed.

(** The run once the campaign request has given a campaign id. *)
Lemma run_with_campaign_id plan tr campaign_id :
  campaign_id_answered api raises_for_status today
    (dict_get (sc_campaign plan) empty_campaign_config) tr = Some campaign_id ->
  create_full_campaign_from_strategy api raises_for_status today now_iso plan tr =
    bind (send_batch api raises_for_status "ad group creation errors"
            (groups_request campaign_id (dict_get (sc_ad_groups plan) [])))
      (fun groups_result =>
         bind (send_all api raises_for_status "keyword creation errors"
                 (planned_keywords (created_ids groups_result)
                    (dict_get (sc_ad_groups plan) [])))
           (fun _ =>
              bind (send_all api raises_for_status "ad creation errors"
                      (planned_ads (created_ids groups_result)
                         (dict_get (sc_ad_groups plan) [])))
                (fun _ => ret (summary_of now_iso campaign_id
                                 (created_ids groups_result)))))
      (tr ++ [campaign_request today (dict_get (sc_campaign plan) empty_campaign_config)]).
Proof.
  set (ccfg := dict_get (sc_campaign plan) empty_campaign_config).
  set (gcfg := dict_get (sc_ad_groups plan) []).
  unfold campaign_id_answered.
  unfold create_full_campaign_from_strategy. rewrite logged_id. fold ccfg gcfg.
  pose proof (_make_request_trace api raises_for_status "campaigns" "add"
                (CampaignsParams [build_campaign_data today ccfg]) tr) as Ht.
  change (tr ++ [{| service := "campaigns"; method := "add";
                    req_params := CampaignsParams [build_campaign_data today ccfg] |}])
    with (tr ++ [campaign_request today ccfg]) in Ht.
  destruct (_make_request api raises_for_status "campaigns" "add"
              (CampaignsParams [build_campaign_data today ccfg]) tr)
    as [[result|e] tr1] eqn:Hreq; cbn [fst snd] in *; subst tr1; [|discriminate].
  destruct result as [r|]; [|discriminate].
  pose proof (create_campaign_reply ccfg tr r _ Hreq) as Hc.
  destruct (AddResults r) as [add_results|]; [|discriminate].
  destruct (flat_map item_errors add_results) as [|e es]; [|discriminate].
  destruct (flat_map item_ids add_results) as [|cid others]; [discriminate|].
  intros H. inversion H; subst cid.
  rewrite (bind_ok _ _ _ _ _ Hc). cbv beta. cbn [created_ids].
  rewrite (bind_ok _ _ _ campaign_id (tr ++ [campaign_request today ccfg])) by reflexivity.
  cbv beta zeta. unfold bind.
  rewrite create_ad_groups_send.
  destruct (send_batch _ _ _ _ (tr ++ [campaign_request today ccfg])) as [[g|e] tr2];
    [|reflexivity].
  rewrite keywords_stage_send. cbn [skipn].
  destruct (send_all _ _ "keyword creation errors" _ tr2) as [[u|e] tr3]; [|reflexivity].
  rewrite ads_stage_send. cbn [skipn].
  destruct (send_all _ _ "ad creation errors" _ tr3) as [[u'|e] tr4]; reflexivity.
Qed.

(** The run once the ad groups are created as well. *)
Lemma run_with_groups plan tr campaign_id group_ids :
  campaign_id_answered api raises_for_status today
    (dict_get (sc_campaign plan) empty_campaign_config) tr = Some campaign_id ->
  batch_ids api raises_for_status
    (groups_request campaign_id (dict_get (sc_ad_groups plan) []))
    (tr ++ [campaign_request today (dict_get (sc_campaign plan) empty_campaign_config)]) =
    Some group_ids ->
  create_full_campaign_from_strategy api raises_for_status today now_iso plan tr =
    bind (send_all api raises_for_status "keyword creation errors"
            (planned_keywords group_ids (dict_get (sc_ad_groups plan) [])))
      (fun _ =>
         bind (send_all api raises_for_status "ad creation errors"
                 (planned_ads group_ids (dict_get (sc_ad_groups plan) [])))
           (fun _ => ret (summary_of now_iso campaign_id group_ids)))
      (tr ++ [campaign_request today (dict_get (sc_campaign plan) empty_campaign_config);
              groups_request campaign_id (dict_get (sc_ad_groups plan) [])]).
Proof.
  intros Hc Hg. rewrite (run_with_campaign_id plan tr campaign_id Hc).
  destruct (send_batch_accepted "ad group creation errors" _ _ _ Hg) as (r & Hs).
  rewrite (bind_ok _ _ _ _ _ Hs). cbn [created_ids]. rewrite <- app_assoc. reflexivity.
Qed.

Lemma send_all_trace label batches tr :
  exists sent,
    snd (send_all api raises_for_status label batches tr) = tr ++ sent /\
    initial_part sent batches.
Proof.
  destruct (accepted api raises_for_status batches tr) eqn:E.
  - rewrite (send_all_accepted label _ _ E). exists batches.
    split; [reflexivity|exists []; rewrite app_nil_r; reflexivity].
  - destruct (send_all_refused label _ _ E) as (e & sent & -> & Hp & _).
    exists sent. split; [reflexivity|exact Hp].
Qed.


Lemma initial_part_in sent planned r :
  initial_part sent planned -> In r sent -> In r planned.
Proof. intros (more & ->) H. apply in_or_app. left. exact H. Qed.

(** Requests for keywords do not go to the ads service. *)
Lemma planned_keywords_service group_ids groups_config r :
  In r (planned_keywords group_ids groups_config) -> service r = "keywords".
Proof.
  unfold planned_keywords. intros H. apply in_flat_map in H. destruct H as (p & _ & Hp).
  unfold keywords_of_pair in Hp. destruct (nonempty _); [|inversion Hp].
  destruct Hp as [<-|[]]. reflexivity.
Qed.

(** The run once the platform has given a campaign id and group ids: it
    sends an initial part of the keyword and ad batches planned for those
    ids, and returns exactly when all of them are accepted. *)
Lemma run_plan plan tr campaign_id group_ids :
  campaign_id_answered api raises_for_status today
    (dict_get (sc_campaign plan) empty_campaign_config) tr = Some campaign_id ->
  batch_ids api raises_for_status
    (groups_request campaign_id (dict_get (sc_ad_groups plan) []))
    (tr ++ [campaign_request today (dict_get (sc_campaign plan) empty_campaign_config)]) =
    Some group_ids ->
  let tr2 := tr ++ [campaign_request today (dict_get (sc_campaign plan) empty_campaign_config);
                    groups_request campaign_id (dict_get (sc_ad_groups plan) [])] in
  let batches := planned_keywords group_ids (dict_get (sc_ad_groups plan) [])
                   ++ planned_ads group_ids (dict_get (sc_ad_groups plan) []) in
  (exists sent,
     snd (create_full_campaign_from_strategy api raises_for_status today now_iso plan tr) =
       tr2 ++ sent /\
     initial_part sent batches) /\
  (accepted api raises_for_status batches tr2 = true ->
   create_full_campaign_from_strategy api raises_for_status today now_iso plan tr =
     (Ok (summary_of now_iso campaign_id group_ids), tr2 ++ batches)) /\
  (accepted api raises_for_status batches tr2 = false ->
   exists e,
     fst (create_full_campaign_from_strategy api raises_for_status today now_iso plan tr) =
       Raise e).
Proof.
  intros Hc Hg tr2 batches.
  rewrite (run_with_groups plan tr campaign_id group_ids Hc Hg). fold tr2.
  unfold batches. rewrite accepted_app.
  set (K := planned_keywords group_ids (dict_get (sc_ad_groups plan) [])).
  set (A := planned_ads group_ids (dict_get (sc_ad_groups plan) [])).
  destruct (accepted api raises_for_status K tr2) eqn:EK.
  - rewrite (bind_ok _ _ _ _ _ (send_all_accepted "keyword creation errors" K tr2 EK)).
    destruct (accepted api raises_for_status A (tr2 ++ K)) eqn:EA.
    + rewrite (bind_ok _ _ _ _ _ (send_all_accepted "ad creation errors" A _ EA)).
      unfold ret. cbn [fst snd andb]. rewrite <- app_assoc. split; [|split].
      * exists (K ++ A). split; [reflexivity|]. exists []. rewrite app_nil_r. reflexivity.
      * reflexivity.
      * discriminate.
    + destruct (send_all_refused "ad creation errors" A _ EA)
        as (e & sent & Hs & (more & Hp) & _).
      rewrite (bind_raise _ _ _ _ _ Hs). cbn [fst snd andb]. split; [|split].
      * exists (K ++ sent). rewrite <- app_assoc. split; [reflexivity|].
        exists more. rewrite Hp, <- app_assoc. reflexivity.
      * discriminate.
      * intros _. exists e. reflexivity.
  - destruct (send_all_refused "keyword creation errors" K _ EK)
      as (e & sent & Hs & (more & Hp) & _).
    rewrite (bind_raise _ _ _ _ _ Hs). cbn [fst snd andb]. split; [|split].
    + exists sent. split; [reflexivity|].
      exists (more ++ A). rewrite Hp, <- app_assoc. reflexivity.
    + discriminate.
    + intros _. exists e. reflexivity.
Qed.

(** A request to the ads service is sent only after the campaign, the
    groups and all planned keyword batches have been accepted. *)
Lemma run_ads_last plan tr :
  exists sent,
    snd (create_full_campaign_from_strategy api raises_for_status today now_iso plan tr) =
      tr ++ sent /\
    forall r, In r sent -> service r = "ads" ->
      exists campaign_id group_ids ads_sent,
        campaign_id_answered api raises_for_status today
          (dict_get (sc_campaign plan) empty_campaign_config) tr = Some campaign_id /\
        batch_ids api raises_for_status
          (groups_request campaign_id (dict_get (sc_ad_groups plan) []))
          (tr ++ [campaign_request today
                    (dict_get (sc_campaign plan) empty_campaign_config)]) =
          Some group_ids /\
        accepted api raises_for_status
          (planned_keywords group_ids (dict_get (sc_ad_groups plan) []))
          (tr ++ [campaign_request today
                    (dict_get (sc_campaign plan) empty_campaign_config);
                  groups_request campaign_id (dict_get (sc_ad_groups plan) [])]) = true /\
        sent =
          campaign_request today (dict_get (sc_campaign plan) empty_campaign_config)
            :: groups_request campaign_id (dict_get (sc_ad_groups plan) [])
            :: planned_keywords group_ids (dict_get (sc_ad_groups plan) []) ++ ads_sent /\
        initial_part ads_sent (planned_ads group_ids (dict_get (sc_ad_groups plan) [])).
Proof.
  set (ccfg := dict_get (sc_campaign plan) empty_campaign_config).
  set (gcfg := dict_get (sc_ad_groups plan) []).
  destruct (campaign_id_answered api raises_for_status today ccfg tr) as [cid|] eqn:Hc.
  2: { rewrite (run_without_campaign_id plan tr Hc). fold ccfg.
       exists [campaign_request today ccfg]. split; [reflexivity|].
       intros r [<-|[]] Hads. discriminate. }
  destruct (batch_ids api raises_for_status (groups_request cid gcfg)
              (tr ++ [campaign_request today ccfg])) as [ids|] eqn:Hg.
  2: { rewrite (run_with_campaign_id plan tr cid Hc). fold ccfg gcfg.
       destruct (send_batch_refused "ad group creation errors" _ _ Hg) as (e & Hs).
       rewrite (bind_raise _ _ _ _ _ Hs).
       exists [campaign_request today ccfg; groups_request cid gcfg].
       split; [cbn [snd]; rewrite <- app_assoc; reflexivity|].
       intros r [<-|[<-|[]]] Hads; discriminate. }
  rewrite (run_with_groups plan tr cid ids Hc Hg). fold ccfg gcfg.
  set (tr2 := tr ++ [campaign_request today ccfg; groups_request cid gcfg]).
  set (K := planned_keywords ids gcfg). set (A := planned_ads ids gcfg).
  destruct (accepted api raises_for_status K tr2) eqn:EK.
  - rewrite (bind_ok _ _ _ _ _ (send_all_accepted "keyword creation errors" K tr2 EK)).
    destruct (send_all_trace "ad creation errors" A (tr2 ++ K)) as (sentA & HA & HpA).
    exists (campaign_request today ccfg :: groups_request cid gcfg :: K ++ sentA).
    split.
    + unfold bind, ret.
      destruct (send_all api raises_for_status "ad creation errors" A (tr2 ++ K))
        as [[u|e] tr4]; cbn [snd] in *; subst tr4; unfold tr2;
        rewrite <- !app_assoc; reflexivity.
    + intros r _ _. exists cid, ids, sentA. repeat split; assumption.
  - destruct (send_all_refused "keyword creation errors" K _ EK)
      as (e & sent & Hs & Hp & _).
    rewrite (bind_raise _ _ _ _ _ Hs).
    exists (campaign_request today ccfg :: groups_request cid gcfg :: sent).
    split; [cbn [snd]; unfold tr2; rewrite <- app_assoc; reflexivity|].
    intros r [<-|[<-|Hin]] Hads; try discriminate.
    pose proof (planned_keywords_service ids gcfg r (initial_part_in _ _ _ Hp Hin)) as Hk.
    rewrite Hk in Hads. discriminate.
Qed.

End Facts.

End RolloutFacts.

Module DivFacts.
Import PyNum FloatAux FloatFacts.

(** Dividing two integer mantissas and truncating: when the dividend has
    at most 52 digits the result is the integer quotient. *)
Lemma fdiv_trunc sx mx sy my :
  digits mx <= 52 -> digits my <= 1000 ->
  int_of_float (fdiv (S754_finite sx mx 0) (S754_finite sy my 0)) =
    Ok (cond_Zopp (xorb sx sy) (Zpos mx / Zpos my)).
Proof.
  intros Hmx Hmy. unfold fdiv. cbn [SFdiv]. unfold SFdiv_core_binary.
  cbn [Zdigits2]. fold (digits mx) (digits my).
  pose proof (digits_pos mx). pose proof (digits_pos my).
  replace (digits mx + 0 - (digits my + 0)) with (digits mx - digits my) by lia.
  set (D := digits mx - digits my) in *.
  rewrite fexp_normal by lia.
  replace (Z.min (D - 53) (0 - 0)) with (D - 53) by lia.
  replace (0 - 0 - (D - 53)) with (53 - D) by lia.
  set (s := 53 - D).
  assert (Hs : 0 < s) by (unfold s, D; lia).
  set (m' := match s with Z.pos _ => Z.shiftl (Zpos mx) s | 0 => Zpos mx | Z.neg _ => 0 end).
  assert (Em' : m' = Zpos mx * 2 ^ s).
  { unfold m'. destruct s as [|p|p] eqn:Es; [lia| |lia].
    apply Z.shiftl_mul_pow2. lia. }
  pose proof (Z_div_mod m' (Zpos my) ltac:(lia)) as Hdm.
  destruct (Z.div_eucl m' (Zpos my)) as [q r] eqn:Edm.
  destruct Hdm as [Hdm Hr].
  pose proof (digits_bounds mx) as [Bx1 Bx2].
  pose proof (digits_bounds my) as [By1 By2].
  set (k := digits mx + s - digits my).
  assert (Hk : k = 53) by (unfold k, s, D; lia).
  assert (P2s : 0 < 2 ^ s) by (apply Z.pow_pos_nonneg; lia).
  assert (Lm : 2 ^ (k - 1) * 2 ^ digits my <= m').
  { rewrite Em'. rewrite <- Z.pow_add_r by lia.
    replace (k - 1 + digits my) with (digits mx - 1 + s) by (unfold k; lia).
    rewrite Z.pow_add_r by lia. apply Z.mul_le_mono_nonneg_r; lia. }
  assert (Um : m' < 2 ^ (k + 1) * 2 ^ (digits my - 1)).
  { rewrite Em'. rewrite <- Z.pow_add_r by lia.
    replace (k + 1 + (digits my - 1)) with (digits mx + s) by (unfold k; lia).
    rewrite Z.pow_add_r by lia. apply Z.mul_lt_mono_pos_r; lia. }
  assert (Pk : 0 < 2 ^ (k - 1)) by (apply Z.pow_pos_nonneg; lia).
  assert (Pk1 : 0 < 2 ^ (k + 1)) by (apply Z.pow_pos_nonneg; lia).
  assert (Lq : 2 ^ (k - 1) <= q).
  { destruct (Z_lt_le_dec q (2 ^ (k - 1))) as [Hlt|]; [exfalso|assumption].
    assert (Zpos my * q <= Zpos my * (2 ^ (k - 1) - 1))
      by (apply Z.mul_le_mono_nonneg_l; lia).
    assert (2 ^ (k - 1) * Zpos my < 2 ^ (k - 1) * 2 ^ digits my)
      by (apply Z.mul_lt_mono_pos_l; lia).
    lia. }
  assert (Uq : q < 2 ^ (k + 1)).
  { destruct (Z_lt_le_dec q (2 ^ (k + 1))) as [|Hge]; [assumption|exfalso].
    assert (Zpos my * 2 ^ (k + 1) <= Zpos my * q)
      by (apply Z.mul_le_mono_nonneg_l; lia).
    assert (2 ^ (k + 1) * 2 ^ (digits my - 1) <= 2 ^ (k + 1) * Zpos my)
      by (apply Z.mul_le_mono_nonneg_l; lia).
    lia. }
  destruct q as [|qp|qp]; [lia| |lia].
  assert (Dq : k <= digits qp <= k + 1).
  { pose proof (digits_bounds qp) as [Bq1 Bq2]. split.
    - destruct (Z.le_gt_cases k (digits qp)) as [|Hlt]; [assumption|exfalso].
      assert (2 ^ digits qp <= 2 ^ (k - 1)) by (apply Z.pow_le_mono_r; lia). lia.
    - destruct (Z.le_gt_cases (digits qp) (k + 1)) as [|Hgt]; [assumption|exfalso].
      assert (2 ^ (k + 1) <= 2 ^ (digits qp - 1)) by (apply Z.pow_le_mono_r; lia). lia. }
  match goal with |- context [binary_round_aux _ _ _ _ _ ?loc] => set (l := loc) end.
  set (n := digits qp - 53).
  set (t := 53 - digits qp - (D - 53)).
  assert (Hn : 0 <= n) by (unfold n; lia).
  assert (Ht : digits my <= t) by (unfold t, D; lia).
  assert (Hnt : n + t = s) by (unfold n, t, s; lia).
  rewrite int_of_round with (t := t) by (fold t; lia).
  do 2 f_equal.
  pose proof (shifted_m qp l ltac:(lia)) as [EF _]. fold n in EF.
  pose proof (round_nearest_even_range (shr_m (shifted qp l))
                (loc_of_shr_record (shifted qp l))) as HQ.
  fold (rounded qp l) in HQ. rewrite EF in HQ.
  set (Q := rounded qp l) in *.
  set (N := Zpos mx / Zpos my).
  pose proof (Z.div_mod (Zpos mx) (Zpos my) ltac:(lia)) as Hbd.
  pose proof (Z.mod_pos_bound (Zpos mx) (Zpos my) ltac:(lia)) as Hbr.
  fold N in Hbd. set (rb := Zpos mx mod Zpos my) in *.
  assert (Pn : 0 < 2 ^ n) by (apply Z.pow_pos_nonneg; lia).
  assert (Pt : 0 < 2 ^ t) by (apply Z.pow_pos_nonneg; lia).
  assert (Est : 2 ^ s = 2 ^ n * 2 ^ t) by (rewrite <- Z.pow_add_r by lia; f_equal; lia).
  assert (Hdt : Zpos my < 2 ^ t).
  { assert (2 ^ digits my <= 2 ^ t) by (apply Z.pow_le_mono_r; lia). lia. }
  pose proof (Z.div_mod (Zpos qp) (2 ^ n) ltac:(lia)) as HF.
  pose proof (Z.mod_pos_bound (Zpos qp) (2 ^ n) ltac:(lia)) as HFr.
  set (F := Zpos qp / 2 ^ n) in *. set (rf := Zpos qp mod 2 ^ n) in *.
  (* q = floor (mx * 2^s / my) lies between N * 2^s and (N + 1) * 2^s - 2^s / my *)
  assert (Hq1 : N * 2 ^ s <= Zpos qp).
  { assert (Zpos my * (N * 2 ^ s) <= Zpos my * Zpos qp + r); [|nia].
    rewrite <- Hdm, Em', Hbd.
    assert (0 <= rb * 2 ^ s) by (apply Z.mul_nonneg_nonneg; lia). lia. }
  assert (Hq2 : Zpos my * Zpos qp <= (Zpos my * N + Zpos my - 1) * 2 ^ s).
  { assert (Zpos my * Zpos qp <= Zpos mx * 2 ^ s) by lia.
    assert (Zpos mx * 2 ^ s <= (Zpos my * N + Zpos my - 1) * 2 ^ s)
      by (apply Z.mul_le_mono_nonneg_r; lia).
    lia. }
  symmetry. apply (Z.div_unique Q (2 ^ t) N (Q - 2 ^ t * N)); [|lia].
  left. split.
  - assert (N * 2 ^ t <= F); [|lia].
    apply Z.div_le_lower_bound; [lia|]. rewrite Est in Hq1. lia.
  - assert (F + 1 < (N + 1) * 2 ^ t); [|lia].
    destruct (Z_lt_le_dec (F + 1) ((N + 1) * 2 ^ t)) as [|Hge]; [assumption|exfalso].
    assert (HFq : ((N + 1) * 2 ^ t - 1) * 2 ^ n <= Zpos qp) by nia.
    assert (Zpos my * (((N + 1) * 2 ^ t - 1) * 2 ^ n) <= Zpos my * Zpos qp)
      by (apply Z.mul_le_mono_nonneg_l; lia).
    replace (Zpos my * (((N + 1) * 2 ^ t - 1) * 2 ^ n))
      with ((Zpos my * N + Zpos my) * 2 ^ s - Zpos my * 2 ^ n) in H1
      by (rewrite Est; ring).
    assert (2 ^ s <= Zpos my * 2 ^ n) by lia.
    rewrite Est in H2.
    assert (2 ^ n * 2 ^ t <= 2 ^ n * Zpos my) by lia.
    apply Z.mul_le_mono_pos_l in H3; lia.
Qed.

(** [int(n / d)] for integers with [d > 0] and [|n| < 2^52] is the
    quotient truncated toward zero. *)
Lemma int_quotient_trunc n (d : positive) :
  Z.abs n < 2 ^ 52 -> digits d <= 1000 ->
  int_of_float (int_quotient n (Zpos d)) = Ok (Z.quot n (Zpos d)).
Proof.
  intros Hn Hd.
  destruct n as [|p|p]; cbn [int_quotient].
  - reflexivity.
  - rewrite fdiv_trunc; [|apply digits_le_of_lt; [lia|cbn [Z.abs] in Hn; lia]|assumption].
    cbn [xorb cond_Zopp]. rewrite Z.quot_div_nonneg by lia. reflexivity.
  - rewrite fdiv_trunc; [|apply digits_le_of_lt; [lia|cbn [Z.abs] in Hn; lia]|assumption].
    cbn [xorb cond_Zopp].
    change (Z.neg p) with (- Zpos p). rewrite Z.quot_opp_l by lia.
    rewrite Z.quot_div_nonneg by lia. reflexivity.
Qed.

(** The same through [truediv] and [to_int]. *)
Lemma truediv_to_int n (d : positive) :
  Z.abs n < 2 ^ 52 -> digits d <= 1000 ->
  exists q, truediv (PyInt n) (PyInt (Zpos d)) = Ok (PyFloat q) /\
            to_int (PyFloat q) = Ok (Z.quot n (Zpos d)).
Proof.
  intros Hn Hd. unfold truediv. cbn [Z.eqb].
  pose proof (int_quotient_trunc n d Hn Hd) as Hq. cbn [to_int].
  destruct (int_quotient n (Zpos d)) as [s|s| |s m e] eqn:E.
  - eexists. split; [reflexivity|exact Hq].
  - discriminate Hq.
  - eexists. split; [reflexivity|exact Hq].
  - eexists. split; [reflexivity|exact Hq].
Qed.

End DivFacts.

(** ** Facts about keyword suggestions *)

Module SuggestFacts.
Import PyNum Direct Manager DirectFacts Suggest.

Lemma float_million :
  float_of_int 1000000 = Ok (S754_finite false 8589934592000000 (-33)).
Proof. reflexivity. Qed.

(** The division by 1000000 and the later [int(...)] on one bid. *)
Lemma bid_in_roubles keyword_data n :
  micro_bid keyword_data = Some n ->
  exists q,
    truediv (dict_get (kd_AverageBid keyword_data) (PyInt 0)) (PyInt 1000000) =
      Ok (PyFloat q) /\
    to_int (PyFloat q) = Ok (Z.quot n 1000000).
Proof.
  unfold micro_bid. intros H.
  destruct (kd_AverageBid keyword_data) as [[m|x]|]; cbn [dict_get].
  - destruct (Z.ltb_spec (Z.abs m) (2 ^ 52)) as [Hm|]; [|discriminate].
    inversion H; subst n.
    apply (DivFacts.truediv_to_int m 1000000 Hm). vm_compute. discriminate.
  - discriminate.
  - inversion H; subst n. eexists. split; reflexivity.
Qed.

Lemma suggestions_of_keywords_app keywords : forall acc,
  Forall (fun k => has_micro_bid k = true) keywords ->
  exists new,
    suggestions_of_keywords keywords acc = Ok (acc ++ new) /\
    forall formatted,
      format_suggestions (acc ++ new) formatted =
        (done <- format_suggestions acc formatted ;;
         Ok (done ++ map in_roubles keywords))%res.
Proof.
  induction keywords as [|k rest IH]; intros acc Hall.
  - exists []. split; [cbn; rewrite app_nil_r; reflexivity|].
    intros formatted. rewrite app_nil_r. cbn [map].
    destruct (format_suggestions acc formatted); cbn [rbind]; [rewrite app_nil_r|]; reflexivity.
  - inversion Hall as [|? ? Hk Hrest]; subst.
    unfold has_micro_bid in Hk.
    destruct (micro_bid k) as [n|] eqn:En; [|discriminate].
    destruct (bid_in_roubles k n En) as (q & Hq & Hi).
    cbn [suggestions_of_keywords]. rewrite Hq. cbn [rbind].
    destruct (IH (acc ++ [{| sg_keyword := dict_get (kd_Keyword k) EmptyString;
                             sg_search_volume := dict_get (kd_SearchVolume k) 0;
                             sg_competition := dict_get (kd_Competition k) "UNKNOWN";
                             sg_average_bid := PyFloat q;
                             sg_source := "yandex_direct_api" |}]) Hrest)
      as (new & Hnew & Hfmt).
    eexists (_ :: new). split.
    + rewrite Hnew, <- app_assoc. reflexivity.
    + intros formatted.
      replace (acc ++ _ :: new) with ((acc ++ [{| sg_keyword := dict_get (kd_Keyword k) EmptyString;
                             sg_search_volume := dict_get (kd_SearchVolume k) 0;
                             sg_competition := dict_get (kd_Competition k) "UNKNOWN";
                             sg_average_bid := PyFloat q;
                             sg_source := "yandex_direct_api" |}]) ++ new)
        by (rewrite <- app_assoc; reflexivity).
      rewrite Hfmt.
      assert (Hone : forall l f s,
                format_suggestions (l ++ [s]) f =
                  (done <- format_suggestions l f ;;
                   bid <- to_int (sg_average_bid s) ;;
                   Ok (done ++ [{| cs_keyword := sg_keyword s; cs_bid := bid;
                                   cs_search_volume := sg_search_volume s;
                                   cs_competition := sg_competition s;
                                   cs_source := "yandex_api" |}]))%res).
      { induction l as [|a l IHl]; intros f s; cbn [app format_suggestions].
        - destruct (to_int (sg_average_bid s)); reflexivity.
        - destruct (to_int (sg_average_bid a)); cbn [rbind]; [apply IHl|reflexivity]. }
      rewrite Hone. cbn [sg_average_bid sg_keyword sg_search_volume sg_competition].
      destruct (format_suggestions acc formatted) as [done|e]; cbn [rbind]; [|reflexivity].
      rewrite Hi. cbn [rbind map]. rewrite <- app_assoc.
      unfold in_roubles at 2. rewrite En. reflexivity.
Qed.

Lemma suggestions_of_results_app results : forall acc,
  Forall (fun k => has_micro_bid k = true) (reply_keywords results) ->
  exists new,
    suggestions_of_results results acc = Ok (acc ++ new) /\
    forall formatted,
      format_suggestions (acc ++ new) formatted =
        (done <- format_suggestions acc formatted ;;
         Ok (done ++ map in_roubles (reply_keywords results)))%res.
Proof.
  induction results as [|r rest IH]; intros acc Hall.
  - exists []. split; [cbn; rewrite app_nil_r; reflexivity|].
    intros formatted. rewrite app_nil_r. cbn [reply_keywords flat_map map].
    destruct (format_suggestions acc formatted); cbn [rbind]; [rewrite app_nil_r|]; reflexivity.
  - unfold reply_keywords in Hall. cbn [flat_map] in Hall.
    apply Forall_app in Hall. destruct Hall as [Hr Hrest].
    fold (reply_keywords rest) in Hrest.
    cbn [suggestions_of_results].
    unfold reply_keywords. cbn [flat_map]. fold (reply_keywords rest).
    destruct (kr_Keywords r) as [keywords|]; cbn [dict_get] in *.
    + destruct (suggestions_of_keywords_app keywords acc Hr) as (new1 & H1 & F1).
      rewrite H1. cbn [rbind].
      destruct (IH (acc ++ new1) Hrest) as (new2 & H2 & F2).
      exists (new1 ++ new2). split; [rewrite H2, <- app_assoc; reflexivity|].
      intros formatted. rewrite app_assoc, F2, F1.
      destruct (format_suggestions acc formatted); cbn [rbind]; [|reflexivity].
      rewrite map_app, app_assoc. reflexivity.
    + destruct (IH acc Hrest) as (new2 & H2 & F2).
      exists new2. split; [exact H2|]. exact F2.
Qed.

(** Formatting keeps the order and marks every entry. *)
Lemma format_suggestions_shape suggestions : forall formatted out,
  format_suggestions suggestions formatted = Ok out ->
  exists new,
    out = formatted ++ new /\
    map cs_keyword new = map sg_keyword suggestions /\
    forallb from_platform new = true.
Proof.
  induction suggestions as [|s rest IH]; intros formatted out H.
  - cbn in H. inversion H; subst. exists []. rewrite app_nil_r. repeat split.
  - cbn [format_suggestions] in H.
    destruct (to_int (sg_average_bid s)) as [bid|e]; [|discriminate].
    cbn [rbind] in H. destruct (IH _ _ H) as (new & -> & Hk & Hs).
    eexists (_ :: new). split; [rewrite <- app_assoc; reflexivity|].
    cbn [map forallb cs_keyword]. rewrite Hk, Hs. repeat split.
Qed.

Lemma to_int_integer_part bid :
  has_integer_part bid = true -> to_int bid = Ok (integer_part bid).
Proof.
  unfold integer_part. destruct bid as [n|[s|s| |s m e]]; cbn; try discriminate; reflexivity.
Qed.

Lemma to_int_raises bid :
  has_integer_part bid = false -> exists e, to_int bid = Raise e.
Proof.
  destruct bid as [n|[s|s| |s m e]]; cbn; try discriminate; eexists; reflexivity.
Qed.

Lemma format_suggestions_all suggestions : forall formatted_suggestions,
  forallb convertible suggestions = true ->
  format_suggestions suggestions formatted_suggestions =
    Ok (formatted_suggestions ++ map formatted suggestions).
Proof.
  induction suggestions as [|s rest IH]; intros acc H.
  - cbn. rewrite app_nil_r. reflexivity.
  - cbn [forallb] in H. apply andb_prop in H. destruct H as [Hs Hrest].
    cbn [format_suggestions]. rewrite (to_int_integer_part _ Hs). cbn [rbind].
    rewrite (IH _ Hrest), <- app_assoc. reflexivity.
Qed.

Lemma format_suggestions_none suggestions : forall formatted_suggestions,
  forallb convertible suggestions = false ->
  exists e, format_suggestions suggestions formatted_suggestions = Raise e.
Proof.
  induction suggestions as [|s rest IH]; intros acc H.
  - discriminate.
  - cbn [forallb] in H. cbn [format_suggestions].
    destruct (convertible s) eqn:Es.
    + rewrite (to_int_integer_part _ Es). cbn [rbind]. apply IH. exact H.
    + destruct (to_int_raises _ Es) as (e & ->). exists e. reflexivity.
Qed.

Section Facts.
Variable api : list request -> request -> wire.
Variable raises_for_status : Z -> bool.

Lemma get_keyword_suggestions_trace base_keywords tr :
  exists l,
    get_keyword_suggestions api raises_for_status base_keywords tr =
      (Ok l, tr ++ [suggestion_request base_keywords]).
Proof.
  unfold get_keyword_suggestions, try_except, bind.
  pose proof (_make_request_trace api raises_for_status "keywordsresearch" "get"
                (KeywordsByKeyword (firstn 10 base_keywords) [225]) tr) as Ht.
  fold (suggestion_request base_keywords) in Ht.
  destruct (_make_request _ _ _ _ _ tr) as [[result|e] tr1]; cbn [snd] in Ht; subst tr1.
  - destruct result as [r|]; [|eexists; reflexivity].
    destruct (KeywordsByKeywordSearchResults r) as [results|]; [|eexists; reflexivity].
    unfold lift. destruct (suggestions_of_results results []); eexists; reflexivity.
  - eexists; reflexivity.
Qed.

Lemma yandex_suggestions_shape base_keywords tr :
  exists found l,
    get_keyword_suggestions api raises_for_status base_keywords tr =
      (Ok found, tr ++ [suggestion_request base_keywords]) /\
    _get_yandex_keyword_suggestions api raises_for_status base_keywords tr =
      (Ok l, tr ++ [suggestion_request base_keywords]) /\
    ((map cs_keyword l = map sg_keyword found /\ forallb from_platform l = true) \/
     l = fallback_suggestions base_keywords).
Proof.
  destruct (get_keyword_suggestions_trace base_keywords tr) as (found & Hf).
  unfold _get_yandex_keyword_suggestions, try_except.
  rewrite (bind_ok _ _ _ _ _ Hf). unfold lift.
  destruct (format_suggestions found []) as [out|e] eqn:E.
  - exists found, out. split; [exact Hf|]. split; [reflexivity|]. left.
    destruct (format_suggestions_shape _ _ _ E) as (new & -> & Hk & Hs).
    split; assumption.
  - exists found, (fallback_suggestions base_keywords).
    split; [exact Hf|]. split; [reflexivity|]. right. reflexivity.
Qed.

(** The manager's result in terms of what the client found. *)
Lemma yandex_suggestions_cases base_keywords tr :
  exists found,
    get_keyword_suggestions api raises_for_status base_keywords tr =
      (Ok found, tr ++ [suggestion_request base_keywords]) /\
    _get_yandex_keyword_suggestions api raises_for_status base_keywords tr =
      (Ok (if forallb convertible found
           then map formatted found
           else fallback_suggestions base_keywords),
       tr ++ [suggestion_request base_keywords]).
Proof.
  destruct (get_keyword_suggestions_trace base_keywords tr) as (found & Hf).
  exists found. split; [exact Hf|].
  unfold _get_yandex_keyword_suggestions, try_except.
  rewrite (bind_ok _ _ _ _ _ Hf). unfold lift.
  destruct (forallb convertible found) eqn:E.
  - rewrite (format_suggestions_all found [] E). reflexivity.
  - destruct (format_suggestions_none found [] E) as (e & ->). reflexivity.
Qed.

Lemma yandex_suggestions_in_roubles base_keywords tr r tr' results :
  _make_request api raises_for_status "keywordsresearch" "get"
    (KeywordsByKeyword (firstn 10 base_keywords) [225]) tr = (Ok (Some r), tr') ->
  KeywordsByKeywordSearchResults r = Some results ->
  forallb has_micro_bid (reply_keywords results) = true ->
  _get_yandex_keyword_suggestions api raises_for_status base_keywords tr =
    (Ok (map in_roubles (reply_keywords results)), tr').
Proof.
  intros Hreq Hres Hall.
  rewrite forallb_forall in Hall. rewrite <- Forall_forall in Hall.
  destruct (suggestions_of_results_app results [] Hall) as (new & Hnew & Hfmt).
  cbn [app] in Hnew, Hfmt.
  unfold _get_yandex_keyword_suggestions, try_except, get_keyword_suggestions.
  unfold bind at 1. unfold try_except.
  rewrite (bind_ok _ _ _ _ _ Hreq). rewrite Hres. unfold lift. rewrite Hnew.
  rewrite Hfmt. reflexivity.
Qed.

End Facts.

End SuggestFacts.

(** ** Facts about the search for a JSON object in generated text *)

Module TextFacts.
Import Json Text.

Lemma from_first_open_app pre s :
  occurs "{" pre = false ->
  from_first_open (pre ++ String "{" s)%string = Some (String "{" s).
Proof.
  induction pre as [|c pre IH]; intros H; cbn [String.append from_first_open].
  - reflexivity.
  - cbn [occurs] in H. apply orb_false_iff in H. destruct H as [Hc Hp].
    rewrite Hc. apply IH. assumption.
Qed.

Lemma from_first_open_inv s t :
  from_first_open s = Some t ->
  exists pre rest, s = (pre ++ String "{" rest)%string /\ t = String "{" rest /\
                   occurs "{" pre = false.
Proof.
  induction s as [|c s IH]; intros H; cbn [from_first_open] in H; [discriminate|].
  destruct (Ascii.eqb c "{") eqn:Ec.
  - inversion H; subst t. apply Ascii.eqb_eq in Ec. subst c.
    exists EmptyString, s. repeat split.
  - destruct (IH H) as (pre & rest & -> & -> & Hp).
    exists (String c pre), rest. cbn [String.append occurs]. rewrite Ec, Hp. repeat split.
Qed.

Lemma upto_last_close_none post :
  occurs "}" post = false -> upto_last_close post = None.
Proof.
  induction post as [|c post IH]; intros H; cbn [upto_last_close]; [reflexivity|].
  cbn [occurs] in H. apply orb_false_iff in H. destruct H as [Hc Hp].
  rewrite (IH Hp), Hc. reflexivity.
Qed.

Lemma upto_last_close_app s post :
  occurs "}" post = false ->
  upto_last_close (s ++ String "}" post)%string = Some (s ++ String "}" EmptyString)%string.
Proof.
  intros Hp. induction s as [|c s IH]; cbn [String.append upto_last_close].
  - rewrite (upto_last_close_none post Hp). reflexivity.
  - rewrite IH. reflexivity.
Qed.

Lemma upto_last_close_inv s m :
  upto_last_close s = Some m ->
  exists body post, s = (body ++ String "}" post)%string /\
                    m = (body ++ String "}" EmptyString)%string /\
                    occurs "}" post = false.
Proof.
  revert m. induction s as [|c s IH]; intros m H; cbn [upto_last_close] in H;
    [discriminate|].
  destruct (upto_last_close s) as [r|] eqn:Er.
  - inversion H; subst m. destruct (IH r eq_refl) as (body & post & -> & -> & Hp).
    exists (String c body), post. repeat split. assumption.
  - destruct (Ascii.eqb c "}") eqn:Ec; [|discriminate].
    inversion H; subst m. apply Ascii.eqb_eq in Ec. subst c.
    exists EmptyString, s. repeat split.
    clear -Er. induction s as [|c s IH]; [reflexivity|].
    cbn [upto_last_close] in Er. destruct (upto_last_close s); [discriminate|].
    destruct (Ascii.eqb c "}") eqn:Ec; [discriminate|].
    cbn [occurs]. rewrite Ec. apply IH. reflexivity.
Qed.

(** The search finds the stretch from the first opening brace to the last
    closing brace. *)
Lemma search_braces_around pre mid post :
  occurs "{" pre = false -> occurs "}" post = false ->
  search_braces (around pre mid post) = Some (braced mid).
Proof.
  intros Hpre Hpost. unfold search_braces, around, braced.
  rewrite from_first_open_app by assumption.
  change (String "{" (mid ++ String "}" post))%string
    with ((String "{" mid) ++ String "}" post)%string.
  rewrite upto_last_close_app by assumption. reflexivity.
Qed.

Lemma search_braces_inv s m :
  search_braces s = Some m ->
  exists pre mid post,
    s = around pre mid post /\ m = braced mid /\
    occurs "{" pre = false /\ occurs "}" post = false.
Proof.
  unfold search_braces. intros H.
  destruct (from_first_open s) as [t|] eqn:Et; [|discriminate].
  destruct (from_first_open_inv s t Et) as (pre & rest & -> & -> & Hpre).
  destruct (upto_last_close_inv _ _ H) as (body & post & Hb & -> & Hpost).
  destruct body as [|c body].
  - cbn [String.append] in Hb. discriminate Hb.
  - cbn [String.append] in Hb. inversion Hb; subst c rest.
    exists pre, body, post. repeat split; assumption.
Qed.

End TextFacts.

(** ** Facts about the planning stages *)

Module PlanFacts.
Import PyNum Manager Console Generated.

(** *** The budget loop *)

Lemma read_budget_skips pre : forall rest,
  forallb turned_away pre = true -> read_budget (pre ++ rest) = read_budget rest.
Proof.
  induction pre as [|line pre IH]; intros rest H; [reflexivity|].
  cbn [forallb] in H. apply andb_prop in H. destruct H as [Hl Hp].
  cbn [app read_budget]. destruct line as [n|]; cbn [turned_away] in Hl.
  - destruct (Z.gtb_spec n 0); [lia|]. apply IH. assumption.
  - apply IH. assumption.
Qed.

Lemma read_budget_ok lines : forall b,
  read_budget lines = Ok b ->
  exists pre post,
    lines = pre ++ Some b :: post /\ 0 < b /\ forallb turned_away pre = true.
Proof.
  induction lines as [|line rest IH]; intros b H; cbn [read_budget] in H; [discriminate|].
  destruct line as [n|].
  - destruct (Z.gtb_spec n 0) as [Hn|Hn].
    + inversion H; subst. exists [], rest. repeat split. lia.
    + destruct (IH b H) as (pre & post & -> & Hb & Hp).
      exists (Some n :: pre), post. cbn [forallb turned_away app].
      destruct (Z.leb_spec n 0); [|lia]. repeat split; assumption.
  - destruct (IH b H) as (pre & post & -> & Hb & Hp).
    exists (None :: pre), post. repeat split; assumption.
Qed.

Lemma read_budget_eof lines :
  forallb turned_away lines = true <-> read_budget lines = Raise EOFError.
Proof.
  split.
  - intros H. rewrite <- (app_nil_r lines). rewrite read_budget_skips by assumption.
    reflexivity.
  - induction lines as [|line rest IH]; intros H; [reflexivity|].
    cbn [read_budget] in H. cbn [forallb]. destruct line as [n|]; cbn [turned_away].
    + destruct (Z.gtb_spec n 0) as [Hn|Hn]; [discriminate|].
      destruct (Z.leb_spec n 0); [|lia]. apply IH. assumption.
    + apply IH. assumption.
Qed.

(** *** The website read by the intake *)

Lemma prefix_https s : String.prefix "https://" ("https://" ++ s)%string = true.
Proof. destruct s; reflexivity. Qed.

Section Intake.
Variable strip : string -> string.
Variable int_of_line : string -> option Z.

Lemma ask_business_website lines w d rest :
  ask_business strip lines = Ok (Some w, d, rest) ->
  starts_with_scheme w = true /\ w <> "https://" /\ w <> "http://" /\ d = EmptyString.
Proof.
  unfold ask_business. destruct (input lines) as [[c l1]|e]; cbn [rbind fst snd]; [|discriminate].
  destruct (String.eqb (strip c) "1").
  - destruct (input l1) as [[u l2]|e]; cbn [rbind fst snd]; [|discriminate].
    set (typed := strip u).
    set (site := if negb (is_empty typed) && negb (starts_with_scheme typed)
                 then ("https://" ++ typed)%string else typed).
    destruct (is_empty site || String.eqb site "https://" || String.eqb site "http://")
      eqn:Hbad.
    + destruct (input l2) as [[x l3]|e]; cbn [rbind]; discriminate.
    + intros H. inversion H; subst w d rest.
      apply orb_false_iff in Hbad. destruct Hbad as [Hbad Hhttp].
      apply orb_false_iff in Hbad. destruct Hbad as [Hempty Hhttps].
      apply String.eqb_neq in Hhttp, Hhttps.
      repeat split; try assumption.
      unfold site in *. destruct (is_empty typed) eqn:Et; cbn [negb andb] in *.
      * congruence.
      * destruct (starts_with_scheme typed) eqn:Es; cbn [negb] in *; [assumption|].
        unfold starts_with_scheme. rewrite prefix_https. apply orb_true_r.
  - destruct (input l1) as [[x l2]|e]; cbn [rbind]; discriminate.
Qed.

Lemma collected_info lines info :
  _collect_business_info strip int_of_line lines = Ok info ->
  0 < budget_daily info /\ budget_currency info = "RUB" /\
  match website info with
  | Some w =>
      starts_with_scheme w = true /\ w <> "https://" /\ w <> "http://" /\
      Manager.description info = EmptyString
  | None => True
  end.
Proof.
  unfold _collect_business_info.
  destruct (ask_business strip lines) as [[[w d] rest]|e] eqn:Ea; cbn [rbind]; [|discriminate].
  destruct (read_budget (map int_of_line rest)) as [b|e] eqn:Eb; cbn [rbind]; [|discriminate].
  intros H. inversion H; subst info. cbn [budget_daily budget_currency website Manager.description].
  destruct (read_budget_ok _ _ Eb) as (_ & _ & _ & Hb & _).
  repeat split; try assumption.
  destruct w as [w|]; [|exact I].
  apply (ask_business_website _ _ _ _ Ea).
Qed.

End Intake.

(** *** The forecast *)

Lemma forecast_clicks b : Z.abs b < 2 ^ 51 ->
  exists p, forecast b = Ok p /\
    expected_clicks_per_day p = Z.quot b 45 /\
    expected_cpc p = 45 /\
    monthly_budget p = b * 30.
Proof.
  intros Hb. destruct (BudgetFacts.forecast_total b Hb) as (p & Hp).
  exists p. split; [exact Hp|].
  unfold forecast in Hp.
  destruct (DivFacts.truediv_to_int b 45
              ltac:(change (2 ^ 51) with 2251799813685248 in Hb;
                    change (2 ^ 52) with 4503599627370496; lia)
              ltac:(vm_compute; discriminate)) as (q & Hq & Hi).
  rewrite Hq in Hp. cbn [rbind] in Hp.
  destruct (mul (PyFloat q) (PyFloat lit_0_08)) as [conv|]; cbn [rbind] in Hp; [|discriminate].
  rewrite Hi in Hp. cbn [rbind] in Hp.
  destruct (to_int conv); cbn [rbind] in Hp; [|discriminate].
  destruct (truediv (PyInt b) (max_with_one conv)) as [c|]; cbn [rbind] in Hp; [|discriminate].
  destruct (to_int c); cbn [rbind] in Hp; [|discriminate].
  destruct (mul conv (PyInt 30)) as [mc|]; cbn [rbind] in Hp; [|discriminate].
  destruct (to_int mc); cbn [rbind] in Hp; [|discriminate].
  inversion Hp; subst p. repeat split.
Qed.

(** *** Tiers that cannot be counted *)

Lemma len_raises v : is_ok (Json.len v) = false -> Json.len v = Raise TypeError.
Proof. destruct v; cbn; intros H; try discriminate; reflexivity. Qed.

Lemma len_cases v : (exists n, Json.len v = Ok n) \/ Json.len v = Raise TypeError.
Proof. destruct v; cbn; eauto. Qed.

(** A tier without a length makes the budget stage raise, whatever the
    budget. *)
Lemma calculate_uncountable business_info semantic_core analysis :
  is_ok (Json.len (high_priority semantic_core)) = false \/
  is_ok (Json.len (medium_priority semantic_core)) = false \/
  is_ok (Json.len (low_priority semantic_core)) = false ->
  _calculate_budget_and_forecast business_info semantic_core analysis = Raise TypeError.
Proof.
  unfold _calculate_budget_and_forecast. intros H.
  destruct (len_cases (high_priority semantic_core)) as [(n1 & E1)|E1];
    rewrite E1 in *; [|reflexivity].
  destruct (len_cases (medium_priority semantic_core)) as [(n2 & E2)|E2];
    rewrite E2 in *; [|reflexivity].
  destruct (len_cases (low_priority semantic_core)) as [(n3 & E3)|E3];
    rewrite E3 in *; [|reflexivity].
  cbn [is_ok] in H. destruct H as [H|[H|H]]; discriminate.
Qed.

(** *** Analyses that hold what the dataclass declares *)

Lemma text_of_inv v s : text_of v = Some s -> v = Json.JStr s.
Proof.
  destruct v; cbn; congruence.
Qed.

Lemma texts_of_items_inv items : forall l,
  texts_of_items items = Some l -> items = map Json.JStr l.
Proof.
  induction items as [|v items IH]; intros l H; cbn in H.
  - inversion H. reflexivity.
  - destruct v; try discriminate.
    destruct (texts_of_items items) as [l'|]; cbn in H; [|discriminate].
    inversion H; subst l. cbn. f_equal. apply IH. reflexivity.
Qed.

Lemma texts_of_inv v l : texts_of v = Some l -> v = Json.JArr (map Json.JStr l).
Proof.
  destruct v; cbn; try discriminate.
  intros H. f_equal. apply texts_of_items_inv. assumption.
Qed.

Lemma as_declared_inv answer analysis :
  as_declared answer = Some analysis -> declared analysis = answer.
Proof.
  unfold as_declared. destruct answer as [s t d k p u ta i c cta]. cbn.
  destruct (text_of t) eqn:Et; [|discriminate].
  destruct (text_of d) eqn:Ed; [|discriminate].
  destruct (texts_of k) eqn:Ek; [|discriminate].
  destruct (texts_of p) eqn:Ep; [|discriminate].
  destruct (texts_of u) eqn:Eu; [|discriminate].
  destruct (text_of ta) eqn:Eta; [|discriminate].
  destruct (text_of i) eqn:Ei; [|discriminate].
  destruct (texts_of c) eqn:Ec; [|discriminate].
  destruct (text_of cta) eqn:Ecta; [|discriminate].
  intros H. inversion H; subst analysis. unfold declared. cbn.
  rewrite (text_of_inv _ _ Et), (text_of_inv _ _ Ed), (texts_of_inv _ _ Ek),
    (texts_of_inv _ _ Ep), (texts_of_inv _ _ Eu), (text_of_inv _ _ Eta),
    (text_of_inv _ _ Ei), (texts_of_inv _ _ Ec), (text_of_inv _ _ Ecta).
  reflexivity.
Qed.

Lemma joinable_texts l : joinable (Json.JArr (map Json.JStr l)) = true.
Proof.
  cbn. induction l as [|s l IH]; [reflexivity|]. cbn. assumption.
Qed.

(** On such an analysis the prompt is built, and the generator is the one
    over the typed record. *)
Lemma generate_ai_keywords_declared openai_create json_loads keywords_prompt
    answer analysis budget :
  as_declared answer = Some analysis ->
  Generated._generate_ai_keywords openai_create json_loads keywords_prompt answer budget =
    Ok (Manager._generate_ai_keywords openai_create json_loads
          (fun analysis budget => keywords_prompt (declared analysis) budget)
          analysis budget).
Proof.
  intros H. apply as_declared_inv in H. subst answer.
  unfold Generated._generate_ai_keywords, Manager._generate_ai_keywords.
  cbn [declared Generated.keywords Generated.pain_points
       Generated.unique_value_propositions].
  rewrite !joinable_texts. reflexivity.
Qed.

End PlanFacts.

(** ** Facts about target positions 4 to 6 *)

Module MiddleRankFacts.
Import PyNum Rebid RebidFacts Bids.

Lemma optimize_step_middle target acc e : 3 < target <= 6 ->
  optimize_step target acc e =
    (pct <- percent_change (bid_of e) (bid_of e) ;;
     Ok (acc ++ [{| ob_keyword := keyword_of e; old_bid := bid_of e;
                    new_bid := bid_of e; change_percent := pct |}]))%res.
Proof.
  intros Ht. unfold optimize_step, percent_change. fold (bid_of e) (keyword_of e).
  destruct (Z.leb_spec target 3); [lia|]. destruct (Z.leb_spec target 6); [|lia].
  cbn [rbind].
  destruct (sub (bid_of e) (bid_of e)) as [d|]; cbn [rbind]; [|reflexivity].
  destruct (truediv d (bid_of e)) as [q|]; cbn [rbind]; reflexivity.
Qed.

Lemma fsub_same s m e : fsub (S754_finite s m e) (S754_finite s m e) = S754_zero false.
Proof.
  unfold fsub. cbn [SFsub]. rewrite Z.sub_diag. reflexivity.
Qed.

(** The percent change of an unchanged bid that is not zero: always
    defined, and a zero when the bid is an integer or a finite float. *)
Lemma percent_change_unchanged bid : is_zero_bid bid = false ->
  exists r, percent_change bid bid = Ok r /\
            (is_finite_bid bid = true -> is_zero_bid r = true).
Proof.
  intros Hz. destruct bid as [n|x]; cbn [is_zero_bid] in Hz.
  - unfold percent_change. cbn [sub rbind truediv]. rewrite Z.sub_diag, Hz.
    cbn [int_quotient rbind]. unfold mul. cbn [to_float]. rewrite float_100. cbn [rbind].
    eexists. split; [reflexivity|]. intros _. reflexivity.
  - unfold percent_change. cbn [sub to_float rbind truediv]. rewrite Hz. cbn [rbind].
    unfold mul. cbn [to_float]. rewrite float_100. cbn [rbind].
    eexists. split; [reflexivity|].
    destruct x as [s|s| |s m e]; cbn [is_finite_bid]; try discriminate.
    intros _. rewrite fsub_same. reflexivity.
Qed.

Lemma optimize_loop_middle target kbs : 3 < target <= 6 -> forall acc,
  Forall (fun e => is_zero_bid (bid_of e) = false) kbs ->
  exists out,
    optimize_loop target kbs acc = Ok (acc ++ out) /\
    map ob_keyword out = map keyword_of kbs /\
    map old_bid out = map bid_of kbs /\
    map new_bid out = map bid_of kbs /\
    Forall2 (fun e o => is_finite_bid (bid_of e) = true ->
                        is_zero_bid (change_percent o) = true) kbs out.
Proof.
  intros Ht. induction kbs as [|e rest IH]; intros acc Hnz.
  - exists []. rewrite app_nil_r. repeat split. constructor.
  - inversion Hnz as [|? ? He Hrest]; subst. cbn [optimize_loop].
    rewrite optimize_step_middle by assumption.
    destruct (percent_change_unchanged _ He) as (r & -> & Hr). cbn [rbind].
    destruct (IH (acc ++ [{| ob_keyword := keyword_of e; old_bid := bid_of e;
                             new_bid := bid_of e; change_percent := r |}]) Hrest)
      as (out & -> & Hk & Ho & Hn & Hc).
    eexists (_ :: out). rewrite <- app_assoc. split; [reflexivity|].
    cbn [map ob_keyword old_bid new_bid]. rewrite Hk, Ho, Hn.
    repeat split. constructor; assumption.
Qed.

Lemma optimize_loop_middle_zero target kbs : 3 < target <= 6 -> forall acc,
  Exists (fun e => is_zero_bid (bid_of e) = true) kbs ->
  optimize_loop target kbs acc = Raise ZeroDivisionError.
Proof.
  intros Ht. induction kbs as [|e rest IH]; intros acc Hz.
  - inversion Hz.
  - cbn [optimize_loop]. rewrite optimize_step_middle by assumption.
    destruct (percent_change_same (bid_of e)) as [[Hzero ->]|[Hnz (r & ->)]].
    + reflexivity.
    + cbn [rbind]. apply IH.
      inversion Hz as [? ? Hz0|? ? Hz']; subst; [congruence|assumption].
Qed.

End MiddleRankFacts.

(** ** Facts about the other endpoints *)

Module EndpointFacts.
Import PyNum Endpoints.

Lemma bid_updates_integers keyword_ids : forall bids keywords,
  bid_updates keyword_ids (map PyInt bids) keywords =
    Ok (keywords ++ in_micro_roubles keyword_ids bids).
Proof.
  induction keyword_ids as [|id ids IH]; intros bids keywords.
  - cbn. rewrite app_nil_r. reflexivity.
  - destruct bids as [|b bids]; cbn [map bid_updates].
    + unfold in_micro_roubles. cbn. rewrite app_nil_r. reflexivity.
    + cbn [mul to_int rbind]. rewrite IH. unfold in_micro_roubles.
      cbn [combine map fst snd]. rewrite <- app_assoc. reflexivity.
Qed.

Lemma unbounded_bid_raises bid : is_unbounded bid = true ->
  exists e, (x <- mul bid (PyInt 1000000) ;; to_int x)%res = Raise e.
Proof.
  destruct bid as [n|[s|s| |s m e]]; cbn [is_unbounded]; try discriminate; intros _.
  - eexists. reflexivity.
  - eexists. reflexivity.
Qed.

Lemma bid_updates_unbounded keyword_ids : forall new_bids keywords,
  existsb is_unbounded (firstn (List.length keyword_ids) new_bids) = true ->
  exists e, bid_updates keyword_ids new_bids keywords = Raise e.
Proof.
  induction keyword_ids as [|id ids IH]; intros new_bids keywords H.
  - cbn in H. discriminate.
  - destruct new_bids as [|bid bids]; [cbn in H; discriminate|].
    cbn [List.length firstn existsb] in H. cbn [bid_updates].
    destruct (is_unbounded bid) eqn:Eb.
    + destruct (unbounded_bid_raises bid Eb) as (e & ->). exists e. reflexivity.
    + cbn [orb] in H.
      destruct (x <- mul bid (PyInt 1000000) ;; to_int x)%res as [micro|e];
        cbn [rbind]; [apply IH; assumption|eauto].
Qed.

Section Facts.
Variable api : list request -> request -> wire.
Variable raises_for_status : Z -> bool.
Variable today week_ago now_iso : string.

Lemma logged_same {A} (c : io A) tr : logged c tr = c tr.
Proof.
  unfold logged, try_except, throw. destruct (c tr) as [[a|e] tr']; reflexivity.
Qed.

Lemma request_trace service method p tr :
  snd (_make_request api raises_for_status service method p tr) =
    tr ++ [{| service := service; method := method; req_params := p |}].
Proof.
  unfold _make_request. rewrite logged_same.
  destruct (api tr _) as [|status decoded]; [reflexivity|].
  destruct (status =? 200).
  - destruct decoded as [b|]; [|reflexivity].
    destruct (body_error b); reflexivity.
  - destruct (raises_for_status status); reflexivity.
Qed.

Lemma statistics_empty keywords date_from date_to tr :
  get_keyword_statistics api raises_for_status keywords date_from date_to tr =
    (Ok [], tr ++ [{| service := "reports"; method := "get";
                      req_params := SearchQueryReport date_from date_to |}]).
Proof.
  unfold get_keyword_statistics, try_except, bind.
  pose proof (request_trace "reports" "get" (SearchQueryReport date_from date_to) tr) as Ht.
  destruct (_make_request _ _ _ _ _ tr) as [[result|e] tr1]; cbn [snd] in Ht; subst tr1.
  - destruct result; reflexivity.
  - reflexivity.
Qed.

Lemma forecast_outcome keywords tr :
  let create := {| service := "keywordsresearch"; method := "CreateNewForecast";
                   req_params := CreateNewForecast [225] (firstn 50 keywords) |} in
  let fetch forecast_id := {| service := "keywordsresearch"; method := "GetForecast";
                              req_params := GetForecast forecast_id |} in
  let first := fst (_make_request api raises_for_status "keywordsresearch"
                      "CreateNewForecast"
                      (CreateNewForecast [225] (firstn 50 keywords)) tr) in
  let run := get_keyword_forecast api raises_for_status keywords tr in
  (forall e, first = Raise e -> run = (Ok (Some []), tr ++ [create])) /\
  (first = Ok None -> run = (Ok (Some []), tr ++ [create])) /\
  (forall r, first = Ok (Some r) -> ForecastId r = None ->
     run = (Ok None, tr ++ [create])) /\
  (forall r forecast_id, first = Ok (Some r) -> ForecastId r = Some forecast_id ->
     let second := fst (_make_request api raises_for_status "keywordsresearch"
                          "GetForecast" (GetForecast forecast_id) (tr ++ [create])) in
     run =
       (Ok (Some match second with
                 | Ok (Some forecast_result) =>
                     match KeywordForecasts forecast_result with
                     | Some items =>
                         match forecasts_of items [] with
                         | Ok forecasts => forecasts
                         | Raise _ => []
                         end
                     | None => []
                     end
                 | _ => []
                 end),
        tr ++ [create; fetch forecast_id])).
Proof.
  intros create fetch first run. subst first run.
  unfold get_keyword_forecast, try_except, bind, lift, ret, throw.
  pose proof (request_trace "keywordsresearch" "CreateNewForecast"
                (CreateNewForecast [225] (firstn 50 keywords)) tr) as Ht.
  fold create in Ht.
  destruct (_make_request _ _ _ _ _ tr) as [[result|e] tr1]; cbn [fst snd] in *; subst tr1.
  2: { split; [reflexivity|]. repeat split; discriminate. }
  destruct result as [r|].
  2: { split; [discriminate|]. split; [reflexivity|]. split; discriminate. }
  split; [discriminate|]. split; [discriminate|]. split.
  - intros r0 Hr Hnone. inversion Hr; subst r0. rewrite Hnone. reflexivity.
  - intros r0 forecast_id Hr Hid. inversion Hr; subst r0. rewrite Hid.
    pose proof (request_trace "keywordsresearch" "GetForecast" (GetForecast forecast_id)
                  (tr ++ [create])) as Ht2.
    fold (fetch forecast_id) in Ht2. rewrite <- app_assoc in Ht2. cbn [app] in Ht2.
    destruct (_make_request _ _ _ _ _ (tr ++ [create])) as [[fr|e] tr2];
      cbn [fst snd] in *; subst tr2; [|reflexivity].
    destruct fr as [fr0|]; [|reflexivity].
    destruct (KeywordForecasts fr0) as [items|]; [|reflexivity].
    destruct (forecasts_of items []); reflexivity.
Qed.

Lemma update_bids_integers keyword_ids bids tr :
  update_bids api raises_for_status keyword_ids (map PyInt bids) tr =
    _make_request api raises_for_status "keywords" "update"
      (KeywordsUpdate (in_micro_roubles keyword_ids bids)) tr.
Proof.
  unfold update_bids. rewrite logged_same. unfold bind, lift.
  rewrite bid_updates_integers. reflexivity.
Qed.

Lemma update_bids_unbounded keyword_ids new_bids tr :
  existsb is_unbounded (firstn (List.length keyword_ids) new_bids) = true ->
  exists e, update_bids api raises_for_status keyword_ids new_bids tr = (Raise e, tr).
Proof.
  intros H. destruct (bid_updates_unbounded keyword_ids new_bids [] H) as (e & He).
  exists e. unfold update_bids. rewrite logged_same. unfold bind, lift. rewrite He.
  reflexivity.
Qed.

Lemma optimize_campaign_bids_outcome campaign_id tr :
  snd (optimize_campaign_bids api raises_for_status today week_ago now_iso campaign_id tr) =
    tr ++ [{| service := "reports"; method := "get";
              req_params := CampaignReport week_ago today [campaign_id] today |}] /\
  (forall e,
     fst (optimize_campaign_bids api raises_for_status today week_ago now_iso campaign_id tr)
       = Raise e <->
     fst (_make_request api raises_for_status "reports" "get"
            (CampaignReport week_ago today [campaign_id] today) tr) = Raise e) /\
  (forall outcome,
     fst (optimize_campaign_bids api raises_for_status today week_ago now_iso campaign_id tr)
       = Ok outcome ->
     or_campaign_id outcome = campaign_id /\ changes_made outcome = 0).
Proof.
  unfold optimize_campaign_bids, get_campaign_stats. rewrite !logged_same.
  unfold bind. rewrite logged_same.
  pose proof (request_trace "reports" "get"
                (CampaignReport week_ago today [campaign_id] today) tr) as Ht.
  destruct (_make_request _ _ _ _ _ tr) as [[stats|e] tr1]; cbn [fst snd] in *; subst tr1.
  - split; [reflexivity|]. split.
    + intros e. split; discriminate.
    + intros outcome H. inversion H; subst outcome. split; reflexivity.
  - split; [reflexivity|]. split.
    + intros e0. split; intros H; inversion H; reflexivity.
    + discriminate.
Qed.

End Facts.

End EndpointFacts.

(** * The claims *)

(** ** Bid optimisation *)

(** C7. For every input list and every target rank, [optimize_keyword_bids]
    returns a list exactly when the specification's rule is defined on
    every entry, and then the outputs are the rule's: the new bid is
    [bid * 1.2] for a rank of at most 3, the bid itself for a rank of at
    most 6 and [bid * 0.9] otherwise, and the percent change is
    [(newBid - oldBid) / oldBid * 100].  With rank 1 and bid 50 the new bid
    is 60.0 and the change 20.0; with rank 8 and bid 50 they are 45.0 and
    -10.0. *)
Theorem C7_rebid_rule :
  (forall keyword_bids targetRank out,
     Rebid.optimize_keyword_bids keyword_bids targetRank = Ok out <->
     Forall2 (Rebid.follows_rule targetRank) keyword_bids out) /\
  Rebid.optimize_keyword_bids [Scenarios.entry_50] 1 =
    Ok [{| Rebid.ob_keyword := "shoes";
           Rebid.old_bid := PyNum.PyInt 50;
           Rebid.new_bid := PyNum.PyFloat (PyNum.literal 60 1);
           Rebid.change_percent := PyNum.PyFloat (PyNum.literal 20 1) |}] /\
  Rebid.optimize_keyword_bids [Scenarios.entry_50] 8 =
    Ok [{| Rebid.ob_keyword := "shoes";
           Rebid.old_bid := PyNum.PyInt 50;
           Rebid.new_bid := PyNum.PyFloat (PyNum.literal 45 1);
           Rebid.change_percent := PyNum.PyFloat (PyNum.literal (-10) 1) |}].
Proof.
  split; [|split; reflexivity].
  intros keyword_bids targetRank out. unfold Rebid.optimize_keyword_bids.
  rewrite RebidFacts.optimize_loop_ok. split.
  - intros (out' & -> & H). exact H.
  - intros H. exists out. split; [reflexivity|exact H].
Qed.

(** The rule at the run with rank 1 and bid 50. *)
Lemma C7_rebid_rule_witness :
  Forall2 (Rebid.follows_rule 1) [Scenarios.entry_50]
    [{| Rebid.ob_keyword := "shoes";
        Rebid.old_bid := PyNum.PyInt 50;
        Rebid.new_bid := PyNum.PyFloat (PyNum.literal 60 1);
        Rebid.change_percent := PyNum.PyFloat (PyNum.literal 20 1) |}].
Proof.
  apply (proj1 (proj1 C7_rebid_rule _ _ _)). reflexivity.
Defined.

(** C10, as stated, fails: an integer bid too large for a float is not
    zero, yet the operation raises [OverflowError]; and with such an entry
    ahead of an entry without a bid, the error raised is [OverflowError],
    not [ZeroDivisionError]. *)
Lemma C10_counterexample_huge_integer_bid :
  Rebid.is_zero_bid (Rebid.bid_of Scenarios.entry_huge) = false /\
  Rebid.optimize_keyword_bids [Scenarios.entry_huge] 1 = Raise OverflowError /\
  Rebid.is_zero_bid (Rebid.bid_of Scenarios.entry_no_bid) = true /\
  Rebid.optimize_keyword_bids [Scenarios.entry_huge; Scenarios.entry_no_bid] 1 =
    Raise OverflowError.
Proof. repeat split; vm_compute; reflexivity. Qed.

(** C10, amended.  When every bid is one that [float] accepts (any float,
    and any integer that does not overflow a float): an input with an
    entry whose bid is zero or absent raises [ZeroDivisionError]; an input
    whose bids are all non-zero returns one output entry per input entry,
    with the same keywords in the same order. *)
Theorem C10_zero_bid_raises_otherwise_total :
  forall keyword_bids target_position,
    Forall (fun e => Rebid.fits_float (Rebid.bid_of e) = true) keyword_bids ->
    (Exists (fun e => Rebid.is_zero_bid (Rebid.bid_of e) = true) keyword_bids ->
     Rebid.optimize_keyword_bids keyword_bids target_position = Raise ZeroDivisionError) /\
    (Forall (fun e => Rebid.is_zero_bid (Rebid.bid_of e) = false) keyword_bids ->
     exists out,
       Rebid.optimize_keyword_bids keyword_bids target_position = Ok out /\
       List.length out = List.length keyword_bids /\
       map Rebid.ob_keyword out = map Rebid.keyword_of keyword_bids).
Proof.
  intros keyword_bids target_position Hfit. unfold Rebid.optimize_keyword_bids. split.
  - intros Hz. apply RebidFacts.optimize_loop_zero; assumption.
  - intros Hnz.
    destruct (RebidFacts.optimize_loop_total target_position keyword_bids [] Hfit Hnz)
      as (out & E & Hm).
    exists out. split; [exact E|]. split; [|exact Hm].
    rewrite <- (length_map Rebid.ob_keyword), Hm. apply length_map.
Qed.

(** A bid of 50 followed by an entry without a bid divides by zero; the
    bid of 50 alone gives one output entry. *)
Lemma C10_zero_bid_raises_otherwise_total_witness :
  Rebid.optimize_keyword_bids [Scenarios.entry_50; Scenarios.entry_no_bid] 1 =
    Raise ZeroDivisionError /\
  exists out,
    Rebid.optimize_keyword_bids [Scenarios.entry_50] 1 = Ok out /\
    List.length out = List.length [Scenarios.entry_50] /\
    map Rebid.ob_keyword out = map Rebid.keyword_of [Scenarios.entry_50].
Proof.
  split.
  - apply (C10_zero_bid_raises_otherwise_total
             [Scenarios.entry_50; Scenarios.entry_no_bid] 1).
    + repeat constructor.
    + apply Exists_cons_tl. apply Exists_cons_hd. reflexivity.
  - apply (C10_zero_bid_raises_otherwise_total [Scenarios.entry_50] 1).
    + repeat constructor.
    + repeat constructor.
Defined.

(** ** Budget allocation *)

(** On a semantic core whose tiers are lists and a budget of magnitude
    below [2^51], [_calculate_budget_and_forecast] returns, and its
    allocation holds the three products truncated toward zero. *)
Lemma calculate_budget_spec business_info semantic_core analysis :
  Manager.tiers_are_lists semantic_core = true ->
  Z.abs (Manager.budget_daily business_info) < 2 ^ 51 ->
  exists performance,
    Manager._calculate_budget_and_forecast business_info semantic_core analysis =
      Ok ({| Manager.daily_budget := Manager.budget_daily business_info;
             Manager.high_priority_percent := 60;
             Manager.medium_priority_percent := 30;
             Manager.low_priority_percent := 10;
             Manager.high_priority_budget :=
               Z.quot (6 * Manager.budget_daily business_info) 10;
             Manager.medium_priority_budget :=
               Z.quot (3 * Manager.budget_daily business_info) 10;
             Manager.low_priority_budget :=
               Z.quot (Manager.budget_daily business_info) 10 |},
          performance).
Proof.
  intros Hl Hb. unfold Manager._calculate_budget_and_forecast.
  unfold Manager.tiers_are_lists in Hl.
  apply andb_prop in Hl. destruct Hl as [Hl Hlow].
  apply andb_prop in Hl. destruct Hl as [Hhigh Hmed].
  destruct (Manager.high_priority semantic_core); try discriminate.
  destruct (Manager.medium_priority semantic_core); try discriminate.
  destruct (Manager.low_priority semantic_core); try discriminate.
  cbn [Json.len rbind].
  rewrite BudgetFacts.allocate_spec by assumption. cbn [rbind].
  destruct (BudgetFacts.forecast_total _ Hb) as (p & ->). cbn [rbind].
  exists p. reflexivity.
Qed.

(** C3, as stated, fails for budgets too large for exact float
    arithmetic: with a daily budget of 9007199254740999 the high tier gets
    5404319552844600 although [floor(budget * 0.60)] is 5404319552844599,
    and the three amounts total 9007199254741000, more than the budget. *)
Lemma C3_counterexample_huge_budget :
  exists allocation performance,
    Manager._calculate_budget_and_forecast
      (Scenarios.business 9007199254740999) Scenarios.core_5_3_2 Scenarios.analysis =
      Ok (allocation, performance) /\
    Manager.high_priority_budget allocation = 5404319552844600 /\
    60 * 9007199254740999 / 100 = 5404319552844599 /\
    Manager.high_priority_budget allocation + Manager.medium_priority_budget allocation
      + Manager.low_priority_budget allocation = 9007199254741000 /\
    9007199254740999 < 9007199254741000.
Proof.
  eexists _, _. split; [vm_compute; reflexivity|].
  cbn [Manager.high_priority_budget Manager.medium_priority_budget
       Manager.low_priority_budget].
  repeat split.
Qed.

(** C3, amended.  For every daily budget from 1 to [2^51 - 1] (and a
    semantic core whose tiers are lists), the allocation uses the shares
    60, 30 and 10 percent, each tier amount is [floor(budget * share)],
    every amount is non-negative and the three amounts total at most the
    budget.  A budget of 3500 with tiers of sizes 5, 3 and 2 yields 2100,
    1050 and 350, which total 3500. *)
Theorem C3_budget_allocation_bounded :
  (forall business_info semantic_core analysis,
     Manager.tiers_are_lists semantic_core = true ->
     0 < Manager.budget_daily business_info < 2 ^ 51 ->
     exists allocation performance,
       Manager._calculate_budget_and_forecast business_info semantic_core analysis =
         Ok (allocation, performance) /\
       Manager.daily_budget allocation = Manager.budget_daily business_info /\
       Manager.high_priority_percent allocation = 60 /\
       Manager.medium_priority_percent allocation = 30 /\
       Manager.low_priority_percent allocation = 10 /\
       Manager.high_priority_budget allocation =
         60 * Manager.budget_daily business_info / 100 /\
       Manager.medium_priority_budget allocation =
         30 * Manager.budget_daily business_info / 100 /\
       Manager.low_priority_budget allocation =
         10 * Manager.budget_daily business_info / 100 /\
       0 <= Manager.high_priority_budget allocation /\
       0 <= Manager.medium_priority_budget allocation /\
       0 <= Manager.low_priority_budget allocation /\
       Manager.high_priority_budget allocation + Manager.medium_priority_budget allocation
         + Manager.low_priority_budget allocation <= Manager.budget_daily business_info) /\
  (exists performance,
     Manager._calculate_budget_and_forecast
       (Scenarios.business 3500) Scenarios.core_5_3_2 Scenarios.analysis =
       Ok ({| Manager.daily_budget := 3500;
              Manager.high_priority_percent := 60;
              Manager.medium_priority_percent := 30;
              Manager.low_priority_percent := 10;
              Manager.high_priority_budget := 2100;
              Manager.medium_priority_budget := 1050;
              Manager.low_priority_budget := 350 |}, performance)) /\
  2100 + 1050 + 350 = 3500.
Proof.
  split; [|split; [eexists; vm_compute; reflexivity|reflexivity]].
  intros business_info semantic_core analysis Hl Hb.
  destruct (calculate_budget_spec business_info semantic_core analysis Hl
              ltac:(lia)) as (p & E).
  eexists _, p. split; [exact E|].
  cbn [Manager.daily_budget Manager.high_priority_percent
       Manager.medium_priority_percent Manager.low_priority_percent
       Manager.high_priority_budget Manager.medium_priority_budget
       Manager.low_priority_budget].
  set (b := Manager.budget_daily business_info) in *.
  rewrite !Z.quot_div_nonneg by lia.
  replace (60 * b) with (6 * b * 10) by ring.
  replace (30 * b) with (3 * b * 10) by ring.
  replace (10 * b) with (b * 10) by ring.
  change 100 with (10 * 10).
  rewrite !Z.div_mul_cancel_r by lia.
  pose proof (Z.div_mod (6 * b) 10 ltac:(lia)).
  pose proof (Z.mod_pos_bound (6 * b) 10 ltac:(lia)).
  pose proof (Z.div_mod (3 * b) 10 ltac:(lia)).
  pose proof (Z.mod_pos_bound (3 * b) 10 ltac:(lia)).
  pose proof (Z.div_mod b 10 ltac:(lia)).
  pose proof (Z.mod_pos_bound b 10 ltac:(lia)).
  repeat split; try reflexivity; lia.
Qed.

(** The allocation of a budget of 3500 over tiers of sizes 5, 3 and 2. *)
Lemma C3_budget_allocation_bounded_witness :
  Manager.tiers_are_lists Scenarios.core_5_3_2 = true /\
  0 < 3500 < 2 ^ 51 /\
  exists allocation performance,
    Manager._calculate_budget_and_forecast
      (Scenarios.business 3500) Scenarios.core_5_3_2 Scenarios.analysis =
      Ok (allocation, performance) /\
    Manager.high_priority_budget allocation = 60 * 3500 / 100 /\
    Manager.medium_priority_budget allocation = 30 * 3500 / 100 /\
    Manager.low_priority_budget allocation = 10 * 3500 / 100.
Proof.
  split; [reflexivity|]. split; [split; reflexivity|].
  destruct (proj1 C3_budget_allocation_bounded
              (Scenarios.business 3500) Scenarios.core_5_3_2 Scenarios.analysis
              eq_refl (conj eq_refl eq_refl))
    as (allocation & performance & E & _ & _ & _ & _ & Hh & Hm & Hw & _).
  exists allocation, performance. repeat split; assumption.
Defined.

(** C4, as stated, fails: with a daily budget of -10 (and likewise 0) the
    operation raises nothing and returns an allocation. *)
Lemma C4_counterexample_nonpositive_budget :
  (exists performance,
     Manager._calculate_budget_and_forecast
       (Scenarios.business (-10)) Scenarios.core_5_3_2 Scenarios.analysis =
       Ok ({| Manager.daily_budget := -10;
              Manager.high_priority_percent := 60;
              Manager.medium_priority_percent := 30;
              Manager.low_priority_percent := 10;
              Manager.high_priority_budget := -6;
              Manager.medium_priority_budget := -3;
              Manager.low_priority_budget := -1 |}, performance)) /\
  (exists performance,
     Manager._calculate_budget_and_forecast
       (Scenarios.business 0) Scenarios.core_5_3_2 Scenarios.analysis =
       Ok ({| Manager.daily_budget := 0;
              Manager.high_priority_percent := 60;
              Manager.medium_priority_percent := 30;
              Manager.low_priority_percent := 10;
              Manager.high_priority_budget := 0;
              Manager.medium_priority_budget := 0;
              Manager.low_priority_budget := 0 |}, performance)).
Proof. split; eexists; vm_compute; reflexivity. Qed.

(** C4, amended.  The allocation step validates nothing: for every daily
    budget from [-(2^51 - 1)] to 0 (and a semantic core whose tiers are
    lists) it raises no error and returns an allocation whose tier amounts
    are the shares of the budget truncated toward zero, hence at most 0.
    A non-positive budget is turned away only where the budget is read:
    the input loop returns positive integers only. *)
Theorem C4_nonpositive_budget_allocates :
  (forall business_info semantic_core analysis,
     Manager.tiers_are_lists semantic_core = true ->
     - 2 ^ 51 < Manager.budget_daily business_info <= 0 ->
     exists allocation performance,
       Manager._calculate_budget_and_forecast business_info semantic_core analysis =
         Ok (allocation, performance) /\
       Manager.daily_budget allocation = Manager.budget_daily business_info /\
       Manager.high_priority_budget allocation =
         Z.quot (60 * Manager.budget_daily business_info) 100 /\
       Manager.medium_priority_budget allocation =
         Z.quot (30 * Manager.budget_daily business_info) 100 /\
       Manager.low_priority_budget allocation =
         Z.quot (10 * Manager.budget_daily business_info) 100 /\
       Manager.high_priority_budget allocation <= 0 /\
       Manager.medium_priority_budget allocation <= 0 /\
       Manager.low_priority_budget allocation <= 0) /\
  (forall lines budget, Manager.read_budget lines = Ok budget -> 0 < budget).
Proof.
  split.
  - intros business_info semantic_core analysis Hl Hb.
    destruct (calculate_budget_spec business_info semantic_core analysis Hl
                ltac:(lia)) as (p & E).
    eexists _, p. split; [exact E|].
    cbn [Manager.daily_budget Manager.high_priority_budget
         Manager.medium_priority_budget Manager.low_priority_budget].
    set (b := Manager.budget_daily business_info) in *.
    assert (Hc : forall n, Z.quot (10 * n) 100 = Z.quot n 10).
    { intros n. change 100 with (10 * 10). apply Z.quot_mul_cancel_l; lia. }
    replace (60 * b) with (10 * (6 * b)) by ring.
    replace (30 * b) with (10 * (3 * b)) by ring.
    rewrite !Hc.
    assert (Hq : forall n, 0 <= n -> Z.quot (n * b) 10 <= 0).
    { intros n Hn. replace (n * b) with (- (n * - b)) by ring.
      rewrite Z.quot_opp_l by lia.
      pose proof (Z.quot_pos (n * - b) 10 ltac:(nia) ltac:(lia)). lia. }
    pose proof (Hq 6 ltac:(lia)). pose proof (Hq 3 ltac:(lia)).
    pose proof (Hq 1 ltac:(lia)) as H1. rewrite Z.mul_1_l in H1.
    repeat split; try reflexivity; assumption.
  - induction lines as [|line rest IH]; intros budget H; cbn [Manager.read_budget] in H.
    + discriminate.
    + destruct line as [n|]; [|apply IH; assumption].
      destruct (Z.gtb_spec n 0) as [Hpos|_]; [|apply IH; assumption].
      inversion H; subst. assumption.
Qed.

(** A budget of -10 is allocated; the input loop skips an unreadable
    line, -10 and 0, and returns 3500. *)
Lemma C4_nonpositive_budget_allocates_witness :
  Manager.tiers_are_lists Scenarios.core_5_3_2 = true /\
  - 2 ^ 51 < -10 <= 0 /\
  (exists allocation performance,
     Manager._calculate_budget_and_forecast
       (Scenarios.business (-10)) Scenarios.core_5_3_2 Scenarios.analysis =
       Ok (allocation, performance) /\
     Manager.high_priority_budget allocation <= 0) /\
  Manager.read_budget [None; Some (-10); Some 0; Some 3500] = Ok 3500 /\
  0 < 3500.
Proof.
  split; [reflexivity|]. split; [split; [reflexivity|discriminate]|]. split.
  - assert (Hb : - 2 ^ 51 < Manager.budget_daily (Scenarios.business (-10)) <= 0)
      by (split; [reflexivity|discriminate]).
    destruct (proj1 C4_nonpositive_budget_allocates
                (Scenarios.business (-10)) Scenarios.core_5_3_2 Scenarios.analysis
                eq_refl Hb)
      as (allocation & performance & E & _ & _ & _ & _ & Hh & _).
    exists allocation, performance. split; assumption.
  - split; [reflexivity|].
    apply (proj2 C4_nonpositive_budget_allocates
             [None; Some (-10); Some 0; Some 3500] 3500).
    reflexivity.
Defined.

(** ** Provisioning *)

(** C1, as stated, fails.  The campaign is created; of the two ad groups
    submitted, A is rejected and B is created.  The run raises, after the
    campaign request and the ad-group request only: nothing is created
    under B and no state is returned. *)
Lemma C1_counterexample_partial_failure_raises :
  (exists c tr,
     Direct.create_campaign Scenarios.api_group_A_rejected Scenarios.always_raises
       Scenarios.today Direct.empty_campaign_config [] = (Ok c, tr) /\
     Direct.created_ids c = [100]) /\
  Scenarios.api_group_A_rejected
    [Direct.campaign_request Scenarios.today Direct.empty_campaign_config]
    (Direct.groups_request 100 [Scenarios.group_named "A"; Scenarios.group_named "B"]) =
    Scenarios.reply_ok
      (Scenarios.add_results
         [Scenarios.item_rejected 5005 "invalid group name"; Scenarios.item_ok 7]) /\
  Direct.create_full_campaign_from_strategy Scenarios.api_group_A_rejected
    Scenarios.always_raises Scenarios.today Scenarios.now_iso Scenarios.plan_AB [] =
    (Raise (PyException "ad group creation errors"
              [{| err_code := 5005; err_message := "invalid group name" |}]),
     [Direct.campaign_request Scenarios.today Direct.empty_campaign_config;
      Direct.groups_request 100 [Scenarios.group_named "A"; Scenarios.group_named "B"]]).
Proof.
  split; [eexists _, _; split; reflexivity|]. split; reflexivity.
Qed.

(** C1, amended.  When the campaign is created and the platform's answer
    to a batch holds an item with errors and no id, the run raises an
    exception carrying exactly the errors of all such items of that batch,
    in the order of the answer, whatever the sibling items hold, and that
    batch is the last request sent.  This holds of the ad-group batch
    (no keyword or ad is then created under any group), of the keyword
    batch of a group (later groups get no keywords and no group gets ads)
    and of the ad batch of a group (later groups get no ads).  The batches
    before the failing one were accepted and what they created stays. *)
Theorem C1_batch_error_aborts_run :
  forall api raises_for_status today now_iso plan tr campaign_id,
    let campaign_config := dict_get (Direct.sc_campaign plan) Direct.empty_campaign_config in
    let groups_config := dict_get (Direct.sc_ad_groups plan) [] in
    let tr1 := tr ++ [Direct.campaign_request today campaign_config] in
    let tr2 := tr ++ [Direct.campaign_request today campaign_config;
                      Direct.groups_request campaign_id groups_config] in
    Rollout.campaign_id_answered api raises_for_status today campaign_config tr =
      Some campaign_id ->
    (forall e es,
       Rollout.batch_errors api raises_for_status
         (Direct.groups_request campaign_id groups_config) tr1 = e :: es ->
       Direct.create_full_campaign_from_strategy api raises_for_status today now_iso plan tr =
         (Raise (PyException "ad group creation errors" (e :: es)), tr2)) /\
    (forall group_ids before failing after e es,
       Rollout.batch_ids api raises_for_status
         (Direct.groups_request campaign_id groups_config) tr1 = Some group_ids ->
       Rollout.planned_keywords group_ids groups_config = before ++ failing :: after ->
       Rollout.accepted api raises_for_status before tr2 = true ->
       Rollout.batch_errors api raises_for_status failing (tr2 ++ before) = e :: es ->
       Direct.create_full_campaign_from_strategy api raises_for_status today now_iso plan tr =
         (Raise (PyException "keyword creation errors" (e :: es)),
          tr2 ++ before ++ [failing])) /\
    (forall group_ids before failing after e es,
       Rollout.batch_ids api raises_for_status
         (Direct.groups_request campaign_id groups_config) tr1 = Some group_ids ->
       Rollout.accepted api raises_for_status
         (Rollout.planned_keywords group_ids groups_config) tr2 = true ->
       Rollout.planned_ads group_ids groups_config = before ++ failing :: after ->
       Rollout.accepted api raises_for_status before
         (tr2 ++ Rollout.planned_keywords group_ids groups_config) = true ->
       Rollout.batch_errors api raises_for_status failing
         (tr2 ++ Rollout.planned_keywords group_ids groups_config ++ before) = e :: es ->
       Direct.create_full_campaign_from_strategy api raises_for_status today now_iso plan tr =
         (Raise (PyException "ad creation errors" (e :: es)),
          tr2 ++ Rollout.planned_keywords group_ids groups_config ++ before ++ [failing])).
Proof.
  intros api raises_for_status today now_iso plan tr campaign_id
    campaign_config groups_config tr1 tr2 Hc.
  split; [|split].
  - intros e es Herr.
    rewrite (RolloutFacts.run_with_campaign_id api raises_for_status today now_iso
               plan tr campaign_id Hc).
    fold campaign_config groups_config tr1.
    rewrite (DirectFacts.bind_raise _ _ _ _ _
               (RolloutFacts.send_batch_errors api raises_for_status
                  "ad group creation errors" _ tr1 e es Herr)).
    unfold tr1, tr2. rewrite <- app_assoc. reflexivity.
  - intros group_ids before failing after e es Hg Hplan Hacc Herr.
    rewrite (RolloutFacts.run_with_groups api raises_for_status today now_iso
               plan tr campaign_id group_ids Hc Hg).
    fold campaign_config groups_config tr2. rewrite Hplan.
    rewrite (DirectFacts.bind_raise _ _ _ _ _
               (RolloutFacts.send_all_rejected api raises_for_status
                  "keyword creation errors" failing after e es before tr2 Hacc Herr)).
    reflexivity.
  - intros group_ids before failing after e es Hg Hkw Hplan Hacc Herr.
    rewrite (RolloutFacts.run_with_groups api raises_for_status today now_iso
               plan tr campaign_id group_ids Hc Hg).
    fold campaign_config groups_config tr2.
    rewrite (DirectFacts.bind_ok _ _ _ _ _
               (RolloutFacts.send_all_accepted api raises_for_status
                  "keyword creation errors" _ tr2 Hkw)).
    rewrite Hplan.
    rewrite (DirectFacts.bind_raise _ _ _ _ _
               (RolloutFacts.send_all_rejected api raises_for_status
                  "ad creation errors" failing after e es before _ Hacc
                  ltac:(rewrite <- app_assoc; exact Herr))).
    rewrite <- !app_assoc. reflexivity.
Qed.

(** Three runs of the two-group plan.  Ad group A is rejected: the run
    ends after the ad-group request.  The keywords of the second group
    are rejected by two items: the run carries the three errors of both,
    in order, and ends there, without any ad.  The ads of the first group
    are rejected: the run ends there, the second group without ads. *)
Lemma C1_batch_error_aborts_run_witness :
  Direct.create_full_campaign_from_strategy Scenarios.api_group_A_rejected
    Scenarios.always_raises Scenarios.today Scenarios.now_iso Scenarios.plan_AB [] =
    (Raise (PyException "ad group creation errors"
              [{| err_code := 5005; err_message := "invalid group name" |}]),
     [Direct.campaign_request Scenarios.today Direct.empty_campaign_config;
      Direct.groups_request 100 [Scenarios.group_named "A"; Scenarios.group_named "B"]]) /\
  Direct.create_full_campaign_from_strategy Examples.api_second_keywords_rejected
    Scenarios.always_raises Scenarios.today Scenarios.now_iso Scenarios.plan_AB [] =
    (Raise (PyException "keyword creation errors"
              [{| err_code := 5161; err_message := "invalid keyword" |};
               {| err_code := 5162; err_message := "too long" |};
               {| err_code := 5163; err_message := "duplicate" |}]),
     [Direct.campaign_request Scenarios.today Direct.empty_campaign_config;
      Direct.groups_request 100 [Scenarios.group_named "A"; Scenarios.group_named "B"];
      Rollout.keywords_request 1 [Scenarios.keyword_buy];
      Rollout.keywords_request 2 [Scenarios.keyword_buy]]) /\
  Direct.create_full_campaign_from_strategy Examples.api_ads_rejected
    Scenarios.always_raises Scenarios.today Scenarios.now_iso Scenarios.plan_AB [] =
    (Raise (PyException "ad creation errors"
              [{| err_code := 5201; err_message := "invalid ad" |}]),
     [Direct.campaign_request Scenarios.today Direct.empty_campaign_config;
      Direct.groups_request 100 [Scenarios.group_named "A"; Scenarios.group_named "B"];
      Rollout.keywords_request 1 [Scenarios.keyword_buy];
      Rollout.keywords_request 2 [Scenarios.keyword_buy];
      Rollout.ads_request 1 [Scenarios.ad_shoes]]).
Proof.
  split; [|split].
  - apply (proj1 (C1_batch_error_aborts_run Scenarios.api_group_A_rejected
                    Scenarios.always_raises Scenarios.today Scenarios.now_iso
                    Scenarios.plan_AB [] 100 eq_refl)).
    reflexivity.
  - apply (proj1 (proj2 (C1_batch_error_aborts_run Examples.api_second_keywords_rejected
                           Scenarios.always_raises Scenarios.today Scenarios.now_iso
                           Scenarios.plan_AB [] 100 eq_refl))
             [1; 2] [Rollout.keywords_request 1 [Scenarios.keyword_buy]]
             (Rollout.keywords_request 2 [Scenarios.keyword_buy]) []).
    + reflexivity.
    + reflexivity.
    + reflexivity.
    + reflexivity.
  - apply (proj2 (proj2 (C1_batch_error_aborts_run Examples.api_ads_rejected
                           Scenarios.always_raises Scenarios.today Scenarios.now_iso
                           Scenarios.plan_AB [] 100 eq_refl))
             [1; 2] [] (Rollout.ads_request 1 [Scenarios.ad_shoes])
             [Rollout.ads_request 2 [Scenarios.ad_shoes]]).
    + reflexivity.
    + reflexivity.
    + reflexivity.
    + reflexivity.
    + reflexivity.
Defined.




(** ** Semantic-core assembly *)

(** C5, as stated, fails: when the generated text lists "cheap shoes" both
    as a high-priority candidate and as a negative keyword, the semantic
    core produced holds it in the high tier and in the negative list. *)
Lemma C5_counterexample_negative_keyword_kept :
  exists core tr,
    Manager._create_semantic_core_with_yandex Scenarios.api_down Scenarios.always_raises
      Scenarios.generate_conflict Scenarios.loads_conflict Scenarios.prompt_stub
      Scenarios.analysis 3500 [] = (Ok core, tr) /\
    In "cheap shoes" (Manager.tier_texts (Manager.high_priority core)) /\
    In "cheap shoes" (Manager.negative_texts (Manager.negative_keywords core)).
Proof.
  eexists _, _. split; [vm_compute; reflexivity|].
  split; left; reflexivity.
Qed.

(** C5, amended.  The semantic core produced holds, unchanged, the values
    found under the four keys of the parsed generated text: the three
    tiers and the negative-keyword list are copied, nothing is normalised,
    deduplicated or dropped (the high tier only has to have a length). *)
Theorem C5_semantic_core_copies_parsed_tiers :
  forall api raises_for_status openai_create json_loads keywords_prompt
         analysis budget tr h m l n,
    Json.getitem
      (Manager._generate_ai_keywords openai_create json_loads keywords_prompt analysis budget)
      "high_priority" = Ok h ->
    Json.getitem
      (Manager._generate_ai_keywords openai_create json_loads keywords_prompt analysis budget)
      "medium_priority" = Ok m ->
    Json.getitem
      (Manager._generate_ai_keywords openai_create json_loads keywords_prompt analysis budget)
      "low_priority" = Ok l ->
    Json.getitem
      (Manager._generate_ai_keywords openai_create json_loads keywords_prompt analysis budget)
      "negative_keywords" = Ok n ->
    is_ok (Json.len h) = true ->
    exists suggestions tr',
      Manager._create_semantic_core_with_yandex api raises_for_status openai_create
        json_loads keywords_prompt analysis budget tr =
      (Ok {| Manager.high_priority := h; Manager.medium_priority := m;
             Manager.low_priority := l; Manager.negative_keywords := n;
             Manager.yandex_suggestions := suggestions |}, tr').
Proof.
  intros. eapply ManagerFacts.semantic_core_copy; eassumption.
Qed.

(** The assembly from generated text that lists one keyword twice. *)
Lemma C5_semantic_core_copies_parsed_tiers_witness :
  exists suggestions tr',
    Manager._create_semantic_core_with_yandex Scenarios.api_down Scenarios.always_raises
      Scenarios.generate_conflict Scenarios.loads_conflict Scenarios.prompt_stub
      Scenarios.analysis 3500 [] =
    (Ok {| Manager.high_priority := Json.JArr [Scenarios.candidate "cheap shoes" 100];
           Manager.medium_priority := Json.JArr [];
           Manager.low_priority := Json.JArr [];
           Manager.negative_keywords := Json.JArr [Json.JStr "cheap shoes"];
           Manager.yandex_suggestions := suggestions |}, tr').
Proof.
  apply (C5_semantic_core_copies_parsed_tiers Scenarios.api_down Scenarios.always_raises
           Scenarios.generate_conflict Scenarios.loads_conflict Scenarios.prompt_stub
           Scenarios.analysis 3500 []); vm_compute; reflexivity.
Defined.

(** C6, as stated, fails: when the content-generation service is down the
    three tiers are empty after assembly, and assembly returns that empty
    semantic core instead of failing. *)
Lemma C6_counterexample_empty_core_returned :
  exists core tr,
    Manager._create_semantic_core_with_yandex Scenarios.api_down Scenarios.always_raises
      Scenarios.generate_down Scenarios.loads_nothing Scenarios.prompt_stub
      Scenarios.analysis 3500 [] = (Ok core, tr) /\
    Manager.all_tiers_empty core = true.
Proof.
  eexists _, _. split; vm_compute; reflexivity.
Qed.

(** C6, amended.  Empty tiers are not an error: when the parsed generated
    text holds the four keys with three empty tiers, assembly returns a
    semantic core with three empty tiers; in particular, when the
    content-generation call raises, assembly returns the semantic core
    whose tiers and negative list are all empty. *)
Theorem C6_empty_tiers_are_returned :
  (forall api raises_for_status openai_create json_loads keywords_prompt
          analysis budget tr n,
     Json.getitem
       (Manager._generate_ai_keywords openai_create json_loads keywords_prompt analysis budget)
       "high_priority" = Ok (Json.JArr []) ->
     Json.getitem
       (Manager._generate_ai_keywords openai_create json_loads keywords_prompt analysis budget)
       "medium_priority" = Ok (Json.JArr []) ->
     Json.getitem
       (Manager._generate_ai_keywords openai_create json_loads keywords_prompt analysis budget)
       "low_priority" = Ok (Json.JArr []) ->
     Json.getitem
       (Manager._generate_ai_keywords openai_create json_loads keywords_prompt analysis budget)
       "negative_keywords" = Ok n ->
     exists core tr',
       Manager._create_semantic_core_with_yandex api raises_for_status openai_create
         json_loads keywords_prompt analysis budget tr = (Ok core, tr') /\
       Manager.all_tiers_empty core = true) /\
  (forall api raises_for_status openai_create json_loads keywords_prompt
          analysis budget tr e,
     openai_create "high" (keywords_prompt analysis budget) = Raise e ->
     exists suggestions tr',
       Manager._create_semantic_core_with_yandex api raises_for_status openai_create
         json_loads keywords_prompt analysis budget tr =
       (Ok {| Manager.high_priority := Json.JArr [];
              Manager.medium_priority := Json.JArr [];
              Manager.low_priority := Json.JArr [];
              Manager.negative_keywords := Json.JArr [];
              Manager.yandex_suggestions := suggestions |}, tr')).
Proof.
  split.
  - intros api raises_for_status openai_create json_loads keywords_prompt
      analysis budget tr n Hh Hm Hl Hn.
    destruct (ManagerFacts.semantic_core_copy api raises_for_status openai_create
                json_loads keywords_prompt analysis budget tr _ _ _ _ Hh Hm Hl Hn eq_refl)
      as (sg & tr' & E).
    eexists _, tr'. split; [exact E|reflexivity].
  - intros api raises_for_status openai_create json_loads keywords_prompt
      analysis budget tr e He.
    assert (Hai : Manager._generate_ai_keywords openai_create json_loads keywords_prompt
                    analysis budget = Manager.empty_keywords)
      by (unfold Manager._generate_ai_keywords; rewrite He; reflexivity).
    apply ManagerFacts.semantic_core_copy; cbv zeta; rewrite ?Hai; reflexivity.
Qed.

(** The assembly when the content-generation service is down. *)
Lemma C6_empty_tiers_are_returned_witness :
  Scenarios.generate_down "high" (Scenarios.prompt_stub Scenarios.analysis 3500) =
    Raise (PyException "service unavailable" []) /\
  exists suggestions tr',
    Manager._create_semantic_core_with_yandex Scenarios.api_down Scenarios.always_raises
      Scenarios.generate_down Scenarios.loads_nothing Scenarios.prompt_stub
      Scenarios.analysis 3500 [] =
    (Ok {| Manager.high_priority := Json.JArr [];
           Manager.medium_priority := Json.JArr [];
           Manager.low_priority := Json.JArr [];
           Manager.negative_keywords := Json.JArr [];
           Manager.yandex_suggestions := suggestions |}, tr').
Proof.
  split; [reflexivity|].
  apply (proj2 C6_empty_tiers_are_returned Scenarios.api_down Scenarios.always_raises
           Scenarios.generate_down Scenarios.loads_nothing Scenarios.prompt_stub
           Scenarios.analysis 3500 [] (PyException "service unavailable" [])).
  reflexivity.
Defined.

(** C8.  Parsing never raises, and generated text without JSON parses to
    the empty dictionary; but the semantic-core construction then raises
    [KeyError] on that empty dictionary, for every platform and every
    JSON decoder. *)
Theorem C8_parse_failure_breaks_assembly :
  forall api raises_for_status json_loads keywords_prompt analysis budget tr,
    Manager._safe_json_parse json_loads
      "Sorry, I cannot produce keywords for this business." = [] /\
    fst (Manager._create_semantic_core_with_yandex api raises_for_status
           Scenarios.generate_prose json_loads keywords_prompt analysis budget tr) =
      Raise (KeyError "high_priority").
Proof.
  intros. split; [reflexivity|].
  apply ManagerFacts.semantic_core_missing_key. reflexivity.
Qed.

(** C9.  When the platform cannot be reached, the suggestion step does not
    raise, but what it returns is the empty list, for every list of seed
    keywords: the fallback built from the seeds is not used. *)
Theorem C9_remote_failure_yields_empty_list :
  forall raises_for_status base_keywords tr,
    Manager._get_yandex_keyword_suggestions Scenarios.api_down raises_for_status
      base_keywords tr =
      (Ok [],
       tr ++ [{| Direct.service := "keywordsresearch"; Direct.method := "get";
                 Direct.req_params :=
                   Direct.KeywordsByKeyword (firstn 10 base_keywords) [225] |}]) /\
    Manager.fallback_suggestions ["shoes"; "boots"] <> [].
Proof.
  intros raises_for_status base_keywords tr. split; [|discriminate].
  apply ManagerFacts.yandex_suggestions_remote_failure with
    (e := PyException "request failed" []).
  reflexivity.
Qed.

(** * Further properties *)

(** ** Provisioning *)

(** X1.  Once the platform has answered the ad-group batch,
    [create_ad_groups] is all or nothing: it returns the ids of the items
    that hold one, in the order of the answer, when no item without an id
    carries errors, and otherwise raises with all those errors, the created
    ids being lost.  The errors of an item that also holds an id are
    ignored, and an item holding neither is skipped. *)
Theorem ad_group_batch_all_or_nothing :
  forall api raises_for_status campaign_id groups_config tr r tr',
    Direct._make_request api raises_for_status "adgroups" "add"
      (Direct.AdGroupsParams (map (Direct.build_ad_group campaign_id) groups_config)) tr =
      (Ok (Some r), tr') ->
    Direct.create_ad_groups api raises_for_status campaign_id groups_config tr =
      (match flat_map Rollout.item_errors (dict_get (Direct.AddResults r) []) with
       | [] => Ok {| Direct.created_ids :=
                       flat_map Rollout.item_ids (dict_get (Direct.AddResults r) []);
                     Direct.raw_result := r |}
       | errs => Raise (PyException "ad group creation errors" errs)
       end, tr').
Proof.
  intros. apply RolloutFacts.create_ad_groups_reply. assumption.
Qed.

(** An answer whose first item holds an id and errors, whose second holds
    neither and whose third holds an id gives the ids 7 and 9. *)
Lemma ad_group_batch_all_or_nothing_witness :
  exists tr',
    Direct.create_ad_groups Examples.api_mixed_groups Scenarios.always_raises 100
      [Scenarios.group_named "A"; Scenarios.group_named "B"; Scenarios.group_named "C"] [] =
      (Ok {| Direct.created_ids := [7; 9];
             Direct.raw_result := Scenarios.add_results Examples.mixed_items |}, tr').
Proof.
  eexists.
  apply (ad_group_batch_all_or_nothing Examples.api_mixed_groups Scenarios.always_raises 100
           [Scenarios.group_named "A"; Scenarios.group_named "B"; Scenarios.group_named "C"]
           [] (Scenarios.add_results Examples.mixed_items)).
  reflexivity.
Defined.

(** X2.  When the campaign is created and the platform's answer to the
    ad-group batch has no ["AddResults"], the run reports success with zero
    groups: it returns a summary in state "created_in_draft" after the
    campaign request and the ad-group request only, and creates nothing
    under the campaign. *)
Theorem run_without_group_results_succeeds_empty :
  forall api raises_for_status today now_iso plan tr c cid rest tr1 r tr2,
    Direct.create_campaign api raises_for_status today
      (dict_get (Direct.sc_campaign plan) Direct.empty_campaign_config) tr = (Ok c, tr1) ->
    Direct.created_ids c = cid :: rest ->
    Direct._make_request api raises_for_status "adgroups" "add"
      (Direct.AdGroupsParams
         (map (Direct.build_ad_group cid) (dict_get (Direct.sc_ad_groups plan) [])))
      tr1 = (Ok (Some r), tr2) ->
    Direct.AddResults r = None ->
    exists summary,
      Direct.create_full_campaign_from_strategy api raises_for_status today now_iso plan tr =
        (Ok summary,
         tr ++ [Direct.campaign_request today
                  (dict_get (Direct.sc_campaign plan) Direct.empty_campaign_config);
                Direct.groups_request cid (dict_get (Direct.sc_ad_groups plan) [])]) /\
      Direct.campaign_id summary = cid /\
      Direct.groups_count summary = 0 /\
      Direct.status summary = "created_in_draft".
Proof.
  intros api raises_for_status today now_iso plan tr c cid rest tr1 r tr2 Hc Hid Hreq Hnone.
  pose proof (RolloutFacts.create_ad_groups_reply api raises_for_status cid _ tr1 r tr2 Hreq)
    as Hg.
  rewrite Hnone in Hg. cbn [dict_get flat_map] in Hg.
  pose proof (DirectFacts.create_campaign_trace api raises_for_status today
                (dict_get (Direct.sc_campaign plan) Direct.empty_campaign_config) tr) as H1.
  rewrite Hc in H1. cbn [snd] in H1.
  pose proof (DirectFacts._make_request_trace api raises_for_status "adgroups" "add"
                (Direct.AdGroupsParams
                   (map (Direct.build_ad_group cid)
                      (dict_get (Direct.sc_ad_groups plan) []))) tr1) as H2.
  rewrite Hreq in H2. cbn [snd] in H2.
  unfold Direct.create_full_campaign_from_strategy. rewrite DirectFacts.logged_id.
  rewrite (DirectFacts.bind_ok _ _ _ _ _ Hc). cbv beta. rewrite Hid.
  rewrite (DirectFacts.bind_ok _ _ _ cid tr1) by reflexivity. cbv beta zeta.
  rewrite (DirectFacts.bind_ok _ _ _ _ _ Hg). cbv beta.
  cbn [Direct.created_ids Direct.keywords_stage Direct.ads_stage].
  eexists. split.
  - unfold Direct.bind, Direct.ret. rewrite H2, H1, <- app_assoc. reflexivity.
  - repeat split.
Qed.

(** The run of a two-group plan against such a platform. *)
Lemma run_without_group_results_succeeds_empty_witness :
  exists summary,
    Direct.create_full_campaign_from_strategy Examples.api_groups_without_results
      Scenarios.always_raises Scenarios.today Scenarios.now_iso Scenarios.plan_AB [] =
      (Ok summary,
       [] ++ [Direct.campaign_request Scenarios.today
                (dict_get (Direct.sc_campaign Scenarios.plan_AB) Direct.empty_campaign_config);
              Direct.groups_request 100
                (dict_get (Direct.sc_ad_groups Scenarios.plan_AB) [])]) /\
    Direct.campaign_id summary = 100 /\
    Direct.groups_count summary = 0 /\
    Direct.status summary = "created_in_draft".
Proof.
  eapply (run_without_group_results_succeeds_empty Examples.api_groups_without_results
            Scenarios.always_raises Scenarios.today Scenarios.now_iso Scenarios.plan_AB []
            _ 100 [] _ Direct.empty_result).
  - reflexivity.
  - reflexivity.
  - reflexivity.
  - reflexivity.
Defined.

(** X3.  When the platform answers the campaign request with a campaign
    id and the ad-group batch with group ids, the run sends, after those
    two requests, an initial part of this list, in this order: one keyword
    batch for each returned group id, paired by position in the order of
    the answer with a configured group that has keywords, then one ad
    batch for each such pair that has ads.  It returns exactly when the
    platform accepts every one of these batches, having sent them all; the
    summary then names the campaign id and counts the returned group ids.
    Otherwise it raises. *)
Theorem run_follows_plan :
  forall api raises_for_status today now_iso plan tr campaign_id group_ids,
    let campaign_config := dict_get (Direct.sc_campaign plan) Direct.empty_campaign_config in
    let groups_config := dict_get (Direct.sc_ad_groups plan) [] in
    let tr2 := tr ++ [Direct.campaign_request today campaign_config;
                      Direct.groups_request campaign_id groups_config] in
    let batches := Rollout.planned_keywords group_ids groups_config
                     ++ Rollout.planned_ads group_ids groups_config in
    Rollout.campaign_id_answered api raises_for_status today campaign_config tr =
      Some campaign_id ->
    Rollout.batch_ids api raises_for_status
      (Direct.groups_request campaign_id groups_config)
      (tr ++ [Direct.campaign_request today campaign_config]) = Some group_ids ->
    (exists sent,
       snd (Direct.create_full_campaign_from_strategy api raises_for_status today now_iso
              plan tr) = tr2 ++ sent /\
       Rollout.initial_part sent batches) /\
    (Rollout.accepted api raises_for_status batches tr2 = true ->
     Direct.create_full_campaign_from_strategy api raises_for_status today now_iso plan tr =
       (Ok (Rollout.summary_of now_iso campaign_id group_ids), tr2 ++ batches)) /\
    (Rollout.accepted api raises_for_status batches tr2 = false ->
     exists e,
       fst (Direct.create_full_campaign_from_strategy api raises_for_status today now_iso
              plan tr) = Raise e).
Proof.
  intros api raises_for_status today now_iso plan tr campaign_id group_ids
    campaign_config groups_config tr2 batches Hc Hg.
  apply (RolloutFacts.run_plan api raises_for_status today now_iso plan tr
           campaign_id group_ids Hc Hg).
Qed.

(** A platform that creates everything, with the group ids 1 and 2: the
    run of the two-group plan sends its six requests, the keywords and ads
    of group A under id 1 and those of group B under id 2. *)
Lemma run_follows_plan_witness :
  Direct.create_full_campaign_from_strategy Examples.api_creates_all
    Scenarios.always_raises Scenarios.today Scenarios.now_iso Scenarios.plan_AB [] =
    (Ok (Rollout.summary_of Scenarios.now_iso 100 [1; 2]),
     [Direct.campaign_request Scenarios.today Direct.empty_campaign_config;
      Direct.groups_request 100 [Scenarios.group_named "A"; Scenarios.group_named "B"];
      Rollout.keywords_request 1 [Scenarios.keyword_buy];
      Rollout.keywords_request 2 [Scenarios.keyword_buy];
      Rollout.ads_request 1 [Scenarios.ad_shoes];
      Rollout.ads_request 2 [Scenarios.ad_shoes]]).
Proof.
  apply (proj1 (proj2 (run_follows_plan Examples.api_creates_all Scenarios.always_raises
                         Scenarios.today Scenarios.now_iso Scenarios.plan_AB [] 100 [1; 2]
                         eq_refl eq_refl))).
  reflexivity.
Defined.

(** X4.  A run sends at most two requests plus two for every configured
    ad group. *)
Theorem run_request_count :
  forall api raises_for_status today now_iso plan tr,
  exists sent,
    snd (Direct.create_full_campaign_from_strategy api raises_for_status today now_iso
           plan tr) = tr ++ sent /\
    (List.length sent <= 2 + 2 * List.length (dict_get (Direct.sc_ad_groups plan) []))%nat.
Proof.
  intros api raises_for_status today now_iso plan tr.
  destruct (RolloutFacts.run_trace api raises_for_status today now_iso plan tr)
    as (sent & cid & ids & Hs & (more & Hp) & _).
  exists sent. split; [exact Hs|].
  apply (f_equal (@List.length _)) in Hp.
  unfold Rollout.planned_requests in Hp. cbn [List.length] in Hp.
  rewrite !length_app in Hp.
  pose proof (RolloutFacts.planned_keywords_length ids
                (dict_get (Direct.sc_ad_groups plan) [])).
  pose proof (RolloutFacts.planned_ads_length ids
                (dict_get (Direct.sc_ad_groups plan) [])).
  lia.
Qed.

(** X5.  A run only ever adds: every request it sends, on success and on
    failure alike, has the method "add".  Nothing created before a
    failure is removed or changed afterwards. *)
Theorem run_only_adds :
  forall api raises_for_status today now_iso plan tr,
  exists sent,
    snd (Direct.create_full_campaign_from_strategy api raises_for_status today now_iso
           plan tr) = tr ++ sent /\
    Forall (fun r => Direct.method r = "add") sent.
Proof.
  intros api raises_for_status today now_iso plan tr.
  destruct (RolloutFacts.run_trace api raises_for_status today now_iso plan tr)
    as (sent & cid & ids & Hs & (more & Hp) & _).
  exists sent. split; [exact Hs|].
  pose proof (RolloutFacts.planned_requests_add today plan cid ids) as Hall.
  rewrite Hp in Hall. apply Forall_app in Hall. apply Hall.
Qed.

(** X6.  Once the platform has answered the campaign request,
    [create_campaign] raises when the answer has no ["AddResults"] (where
    [create_ad_groups] carries on with none), raises with the collected
    errors when an item without an id carries errors, and otherwise
    returns the ids found, in the order of the answer; the list may be
    empty. *)
Theorem campaign_answer_outcome :
  forall api raises_for_status today campaign_config tr r tr',
    Direct._make_request api raises_for_status "campaigns" "add"
      (Direct.CampaignsParams [Direct.build_campaign_data today campaign_config]) tr =
      (Ok (Some r), tr') ->
    Direct.create_campaign api raises_for_status today campaign_config tr =
      (match Direct.AddResults r with
       | None => Raise (PyException "unexpected API response structure" [])
       | Some add_results =>
           match flat_map Rollout.item_errors add_results with
           | [] => Ok {| Direct.created_ids := flat_map Rollout.item_ids add_results;
                         Direct.raw_result := r |}
           | errs => Raise (PyException "campaign creation errors" errs)
           end
       end, tr').
Proof.
  intros. apply RolloutFacts.create_campaign_reply. assumption.
Qed.

(** The answer without ["AddResults"] that [create_ad_groups] accepts
    makes [create_campaign] raise. *)
Lemma campaign_answer_outcome_witness :
  exists tr',
    Direct.create_campaign (fun _ _ => Scenarios.reply_ok Direct.empty_result)
      Scenarios.always_raises Scenarios.today Direct.empty_campaign_config [] =
      (Raise (PyException "unexpected API response structure" []), tr').
Proof.
  eexists.
  apply (campaign_answer_outcome (fun _ _ => Scenarios.reply_ok Direct.empty_result)
           Scenarios.always_raises Scenarios.today Direct.empty_campaign_config []
           Direct.empty_result).
  reflexivity.
Defined.

(** X23.  In every run the ad batches come last.  As soon as one request
    to the ads service has been sent, the platform has answered the
    campaign request with a campaign id and the ad-group batch with group
    ids, it has accepted the keyword batch of every group paired with one
    of these ids, and those requests have all been sent before the first ad
    batch, in that order.  A keyword batch that fails therefore leaves
    every group without ads. *)
Theorem ads_are_sent_after_all_keywords :
  forall api raises_for_status today now_iso plan tr,
  exists sent,
    snd (Direct.create_full_campaign_from_strategy api raises_for_status today now_iso
           plan tr) = tr ++ sent /\
    forall r, In r sent -> Direct.service r = "ads" ->
      exists campaign_id group_ids ads_sent,
        Rollout.campaign_id_answered api raises_for_status today
          (dict_get (Direct.sc_campaign plan) Direct.empty_campaign_config) tr =
          Some campaign_id /\
        Rollout.batch_ids api raises_for_status
          (Direct.groups_request campaign_id (dict_get (Direct.sc_ad_groups plan) []))
          (tr ++ [Direct.campaign_request today
                    (dict_get (Direct.sc_campaign plan) Direct.empty_campaign_config)]) =
          Some group_ids /\
        Rollout.accepted api raises_for_status
          (Rollout.planned_keywords group_ids (dict_get (Direct.sc_ad_groups plan) []))
          (tr ++ [Direct.campaign_request today
                    (dict_get (Direct.sc_campaign plan) Direct.empty_campaign_config);
                  Direct.groups_request campaign_id
                    (dict_get (Direct.sc_ad_groups plan) [])]) = true /\
        sent =
          Direct.campaign_request today
            (dict_get (Direct.sc_campaign plan) Direct.empty_campaign_config)
            :: Direct.groups_request campaign_id (dict_get (Direct.sc_ad_groups plan) [])
            :: Rollout.planned_keywords group_ids (dict_get (Direct.sc_ad_groups plan) [])
            ++ ads_sent /\
        Rollout.initial_part ads_sent
          (Rollout.planned_ads group_ids (dict_get (Direct.sc_ad_groups plan) [])).
Proof.
  intros. apply RolloutFacts.run_ads_last.
Qed.

(** ** Keyword suggestions *)

(** X7.  [get_keyword_suggestions] never raises and always sends exactly
    one request, to "keywordsresearch" with the method "get"; the request
    carries the first ten seed keywords and the region 225, so seeds
    beyond the tenth are never submitted. *)
Theorem suggestions_one_request_first_ten_seeds :
  forall api raises_for_status base_keywords tr,
  exists suggestions,
    Direct.get_keyword_suggestions api raises_for_status base_keywords tr =
      (Ok suggestions,
       tr ++ [{| Direct.service := "keywordsresearch"; Direct.method := "get";
                 Direct.req_params :=
                   Direct.KeywordsByKeyword (firstn 10 base_keywords) [225] |}]).
Proof.
  intros. apply SuggestFacts.get_keyword_suggestions_trace.
Qed.

(** X8.  [_get_yandex_keyword_suggestions] never raises and sends that one
    request.  When every suggestion the client found has an average bid
    that [int] accepts, the result holds one entry for each of them, in
    the same order, with the same keyword, search volume and competition,
    the bid truncated to an integer and the source "yandex_api".  When
    some average bid is an infinity or not a number, and only then, the
    result is the fallback built from the first five seeds. *)
Theorem yandex_suggestions_formatted_or_fallback :
  forall api raises_for_status base_keywords tr,
  exists found,
    Direct.get_keyword_suggestions api raises_for_status base_keywords tr =
      (Ok found, tr ++ [Suggest.suggestion_request base_keywords]) /\
    Manager._get_yandex_keyword_suggestions api raises_for_status base_keywords tr =
      (Ok (if forallb Suggest.convertible found
           then map Suggest.formatted found
           else Manager.fallback_suggestions base_keywords),
       tr ++ [Suggest.suggestion_request base_keywords]).
Proof.
  intros. apply SuggestFacts.yandex_suggestions_cases.
Qed.

(** X9.  When the platform answers the suggestion request with search
    results in which every ["AverageBid"] is absent or an integer number of
    micro-roubles of magnitude below [2^52], the semantic core receives one
    suggestion for every keyword of the answer, in the order of the
    answer, with the bid in whole roubles truncated toward zero (an absent
    bid counts as 0), the search volume defaulting to 0 and the
    competition to "UNKNOWN". *)
Theorem yandex_suggestions_bids_in_whole_roubles :
  forall api raises_for_status base_keywords tr r tr' results,
    Direct._make_request api raises_for_status "keywordsresearch" "get"
      (Direct.KeywordsByKeyword (firstn 10 base_keywords) [225]) tr = (Ok (Some r), tr') ->
    Direct.KeywordsByKeywordSearchResults r = Some results ->
    forallb Suggest.has_micro_bid (Suggest.reply_keywords results) = true ->
    Manager._get_yandex_keyword_suggestions api raises_for_status base_keywords tr =
      (Ok (map Suggest.in_roubles (Suggest.reply_keywords results)), tr').
Proof.
  intros. eapply SuggestFacts.yandex_suggestions_in_roubles; eassumption.
Qed.

(** Bids of 45000000, 30500000 and 0 micro-roubles arrive as 45, 30 and 0
    roubles. *)
Lemma yandex_suggestions_bids_in_whole_roubles_witness :
  exists tr',
    Manager._get_yandex_keyword_suggestions Examples.api_suggests Scenarios.always_raises
      ["shoes"] [] =
      (Ok (map Suggest.in_roubles (Suggest.reply_keywords Examples.search_results)), tr') /\
    map Manager.cs_bid (map Suggest.in_roubles (Suggest.reply_keywords Examples.search_results))
      = [45; 30; 0].
Proof.
  eexists. split.
  - apply (yandex_suggestions_bids_in_whole_roubles Examples.api_suggests
             Scenarios.always_raises ["shoes"] []
             {| Direct.AddResults := None; Direct.Errors := None;
                Direct.KeywordsByKeywordSearchResults := Some Examples.search_results |}).
    + reflexivity.
    + reflexivity.
    + reflexivity.
  - reflexivity.
Defined.

(** ** Generated text *)

(** X10.  [_safe_json_parse] hands the decoder exactly the stretch from
    the first opening brace to the last closing brace of the text and
    ignores what surrounds it; a decoding error gives the empty
    dictionary.  Conversely, a result that is not empty is what the
    decoder made of that stretch. *)
Theorem safe_json_parse_reads_outer_braces :
  forall json_loads,
    (forall pre mid post,
       Text.occurs "{" pre = false -> Text.occurs "}" post = false ->
       Manager._safe_json_parse json_loads (Text.around pre mid post) =
         match json_loads (Text.braced mid) with
         | Ok parsed => parsed
         | Raise _ => []
         end) /\
    (forall content,
       Manager._safe_json_parse json_loads content <> [] ->
       exists pre mid post,
         content = Text.around pre mid post /\
         Text.occurs "{" pre = false /\ Text.occurs "}" post = false /\
         json_loads (Text.braced mid) =
           Ok (Manager._safe_json_parse json_loads content)).
Proof.
  intros json_loads. split.
  - intros pre mid post Hpre Hpost. unfold Manager._safe_json_parse.
    rewrite TextFacts.search_braces_around by assumption. reflexivity.
  - intros content H. unfold Manager._safe_json_parse in *.
    destruct (Json.search_braces content) as [m|] eqn:Em; [|congruence].
    destruct (TextFacts.search_braces_inv _ _ Em) as (pre & mid & post & -> & -> & Hpre & Hpost).
    exists pre, mid, post. repeat split; try assumption.
    destruct (json_loads (Text.braced mid)); [reflexivity|congruence].
Qed.

(** An object inside a sentence is found and decoded. *)
Lemma safe_json_parse_reads_outer_braces_witness :
  Manager._safe_json_parse Scenarios.loads_conflict Examples.answer_in_prose =
    Scenarios.parsed_conflict.
Proof.
  destruct (safe_json_parse_reads_outer_braces Scenarios.loads_conflict) as [Hfound _].
  unfold Examples.answer_in_prose.
  rewrite (Hfound "Here is the core: "%string Examples.conflict_body " Good luck."%string)
    by reflexivity.
  reflexivity.
Defined.

(** ** Semantic core *)

(** X11.  [_generate_ai_keywords] builds its prompt before its [try]:
    when the keywords, the pain points or the value propositions of the
    analysis cannot be joined (a number, a boolean, null, or a list with
    an element that is not a string), it raises [TypeError].  Otherwise it
    never raises: it returns what is parsed from the generated text, and
    the four empty tiers when the generation fails.  For an analysis whose
    fields hold what [LandingAnalysis] declares, strings and lists of
    strings, the prompt is always built, and assembling the semantic core
    sends exactly one request to the platform, the suggestion request for
    the keywords of the analysis, whatever the generated text holds and
    whether the assembly returns or raises. *)
Theorem semantic_core_sends_one_request :
  forall api raises_for_status openai_create json_loads keywords_prompt answer budget,
    let generated :=
      Generated._generate_ai_keywords openai_create json_loads keywords_prompt
        answer budget in
    let prompt_builds :=
      Generated.joinable (Generated.keywords answer) &&
      Generated.joinable (Generated.pain_points answer) &&
      Generated.joinable (Generated.unique_value_propositions answer) in
    (prompt_builds = false -> generated = Raise TypeError) /\
    (prompt_builds = true ->
     generated =
       Ok match openai_create "high" (keywords_prompt answer budget) with
          | Ok output_text => Manager._safe_json_parse json_loads output_text
          | Raise _ => Manager.empty_keywords
          end) /\
    (forall analysis tr,
       Generated.as_declared answer = Some analysis ->
       let typed_prompt :=
         fun analysis budget => keywords_prompt (Generated.declared analysis) budget in
       prompt_builds = true /\
       generated =
         Ok (Manager._generate_ai_keywords openai_create json_loads typed_prompt
               analysis budget) /\
       snd (Manager._create_semantic_core_with_yandex api raises_for_status openai_create
              json_loads typed_prompt analysis budget tr) =
         tr ++ [Suggest.suggestion_request (Manager.keywords analysis)]).
Proof.
  intros api raises_for_status openai_create json_loads keywords_prompt answer budget
    generated prompt_builds.
  split; [|split].
  - intros H. subst generated. unfold Generated._generate_ai_keywords.
    fold prompt_builds. rewrite H. reflexivity.
  - intros H. subst generated. unfold Generated._generate_ai_keywords.
    fold prompt_builds. rewrite H. reflexivity.
  - intros analysis tr H typed_prompt. split; [|split].
    + pose proof (PlanFacts.as_declared_inv _ _ H) as <-. subst prompt_builds.
      cbn [Generated.declared Generated.keywords Generated.pain_points
           Generated.unique_value_propositions].
      rewrite !PlanFacts.joinable_texts. reflexivity.
    + apply PlanFacts.generate_ai_keywords_declared. assumption.
    + unfold Manager._create_semantic_core_with_yandex.
      destruct (SuggestFacts.yandex_suggestions_shape api raises_for_status
                  (Manager.keywords analysis) tr) as (found & l & _ & Hl & _).
      rewrite (DirectFacts.bind_ok _ _ _ _ _ Hl).
      unfold Direct.bind, Direct.lift, Direct.ret.
      repeat match goal with
             | |- context [Json.getitem ?d ?k] => destruct (Json.getitem d k); [|reflexivity]
             end.
      cbn [Manager.high_priority].
      match goal with |- context [Json.len ?v] => destruct (Json.len v) end; reflexivity.
Qed.

(** An analysis with numbers among its pain points, and the analysis of a
    shoe shop with an answer in prose: the first stops at the prompt, the
    second gets no keys and the assembly raises after its one request. *)
Lemma semantic_core_sends_one_request_witness :
  Generated._generate_ai_keywords Scenarios.generate_prose Scenarios.loads_nothing
    Examples.core_prompt_for Examples.analysis_numbers 3500 = Raise TypeError /\
  Generated._generate_ai_keywords Scenarios.generate_prose Scenarios.loads_nothing
    Examples.core_prompt_for Examples.analysis_answer 3500 = Ok [] /\
  Manager._create_semantic_core_with_yandex Scenarios.api_down Scenarios.always_raises
    Scenarios.generate_prose Scenarios.loads_nothing
    (fun analysis budget => Examples.core_prompt_for (Generated.declared analysis) budget)
    Scenarios.analysis 3500 [] =
    (Raise (KeyError "high_priority"), [Suggest.suggestion_request ["shoes"; "boots"]]).
Proof.
  split; [|split].
  - apply (semantic_core_sends_one_request Scenarios.api_down Scenarios.always_raises
             Scenarios.generate_prose Scenarios.loads_nothing Examples.core_prompt_for
             Examples.analysis_numbers 3500).
    reflexivity.
  - destruct (semantic_core_sends_one_request Scenarios.api_down Scenarios.always_raises
                Scenarios.generate_prose Scenarios.loads_nothing Examples.core_prompt_for
                Examples.analysis_answer 3500) as (_ & H & _).
    rewrite H; reflexivity.
  - destruct (semantic_core_sends_one_request Scenarios.api_down Scenarios.always_raises
                Scenarios.generate_prose Scenarios.loads_nothing Examples.core_prompt_for
                Examples.analysis_answer 3500) as (_ & _ & H).
    destruct (H Scenarios.analysis [] eq_refl) as (_ & _ & Ht).
    apply injective_projections; [reflexivity|exact Ht].
Defined.

(** X12.  The assembly checks the length of the high tier only.  When the
    parsed text holds the four keys and a medium or low tier that has no
    length (a number, a boolean or null), the assembly returns a semantic
    core, and the budget stage then raises [TypeError] on that core
    whatever the budget. *)
Theorem uncountable_tier_fails_at_budget_stage :
  forall api raises_for_status openai_create json_loads keywords_prompt analysis budget tr
         h m l n,
    let ai :=
      Manager._generate_ai_keywords openai_create json_loads keywords_prompt analysis budget in
    Json.getitem ai "high_priority" = Ok h ->
    Json.getitem ai "medium_priority" = Ok m ->
    Json.getitem ai "low_priority" = Ok l ->
    Json.getitem ai "negative_keywords" = Ok n ->
    is_ok (Json.len h) = true ->
    is_ok (Json.len m) = false \/ is_ok (Json.len l) = false ->
    exists core,
      fst (Manager._create_semantic_core_with_yandex api raises_for_status openai_create
             json_loads keywords_prompt analysis budget tr) = Ok core /\
      forall business_info,
        Manager._calculate_budget_and_forecast business_info core analysis =
          Raise TypeError.
Proof.
  intros api raises_for_status openai_create json_loads keywords_prompt analysis budget tr
         h m l n ai Hh Hm Hl Hn Hlen Hbad.
  destruct (ManagerFacts.semantic_core_copy api raises_for_status openai_create json_loads
              keywords_prompt analysis budget tr h m l n Hh Hm Hl Hn Hlen)
    as (suggestions & tr' & E).
  eexists. split; [rewrite E; reflexivity|].
  intros business_info. apply PlanFacts.calculate_uncountable.
  cbn [Manager.high_priority Manager.medium_priority Manager.low_priority].
  right. exact Hbad.
Qed.

(** Generated text whose medium tier is the number 3. *)
Lemma uncountable_tier_fails_at_budget_stage_witness :
  exists core,
    fst (Manager._create_semantic_core_with_yandex Scenarios.api_down
           Scenarios.always_raises Examples.generate_flat Examples.loads_flat
           Scenarios.prompt_stub Scenarios.analysis 3500 []) = Ok core /\
    forall business_info,
      Manager._calculate_budget_and_forecast business_info core Scenarios.analysis =
        Raise TypeError.
Proof.
  apply (uncountable_tier_fails_at_budget_stage Scenarios.api_down Scenarios.always_raises
           Examples.generate_flat Examples.loads_flat Scenarios.prompt_stub
           Scenarios.analysis 3500 []
           (Json.JArr []) (Json.JNum (PyNum.PyInt 3)) (Json.JArr []) (Json.JArr [])).
  - reflexivity.
  - reflexivity.
  - reflexivity.
  - reflexivity.
  - reflexivity.
  - left. reflexivity.
Defined.

(** ** The interactive intake *)

(** X13.  The budget loop returns the first typed line that is a positive
    integer, whatever was typed before it and after it, and it ends with
    [EOFError] exactly when no typed line is a positive integer. *)
Theorem budget_loop_returns_first_positive :
  (forall lines budget,
     Manager.read_budget lines = Ok budget <->
     exists before after,
       lines = before ++ Some budget :: after /\ 0 < budget /\
       forallb Console.turned_away before = true) /\
  (forall lines,
     Manager.read_budget lines = Raise EOFError <->
     forallb Console.turned_away lines = true).
Proof.
  split.
  - intros lines budget. split.
    + apply PlanFacts.read_budget_ok.
    + intros (before & after & -> & Hb & Hbefore).
      rewrite PlanFacts.read_budget_skips by assumption. cbn [Manager.read_budget].
      destruct (Z.gtb_spec budget 0); [reflexivity|lia].
  - intros lines. split; apply PlanFacts.read_budget_eof.
Qed.

(** Text, zero and a negative number are turned away; 3500 is returned and
    the 7 after it is not read. *)
Lemma budget_loop_returns_first_positive_witness :
  Manager.read_budget [None; Some 0; Some (-5); Some 3500; Some 7] = Ok 3500.
Proof.
  destruct budget_loop_returns_first_positive as [Hfirst _].
  apply (Hfirst [None; Some 0; Some (-5); Some 3500; Some 7] 3500).
  exists [None; Some 0; Some (-5)], [Some 7].
  split; [reflexivity|]. split; [lia|reflexivity].
Defined.

(** X14.  Whatever is typed, the business information the intake returns
    has a positive daily budget in "RUB", and a website only when that
    website starts with "http://" or "https://" and is more than the bare
    scheme; the description is then empty. *)
Theorem intake_returns_checked_information :
  forall strip int_of_line lines info,
    Console._collect_business_info strip int_of_line lines = Ok info ->
    0 < Manager.budget_daily info /\
    Manager.budget_currency info = "RUB" /\
    match Manager.website info with
    | Some website =>
        Console.starts_with_scheme website = true /\
        website <> "https://" /\ website <> "http://" /\
        Manager.description info = EmptyString
    | None => True
    end.
Proof.
  intros. eapply PlanFacts.collected_info. eassumption.
Qed.

(** A website typed without scheme gets "https://" in front. *)
Lemma intake_returns_checked_information_witness :
  exists info,
    Console._collect_business_info Examples.no_strip Examples.int_of_line
      Examples.typed_lines = Ok info /\
    Manager.website info = Some "https://shop.example" /\
    Manager.budget_daily info = 3500 /\
    0 < Manager.budget_daily info.
Proof.
  eexists. split; [reflexivity|]. split; [reflexivity|]. split; [reflexivity|].
  apply (intake_returns_checked_information Examples.no_strip Examples.int_of_line
           Examples.typed_lines _ eq_refl).
Defined.

(** ** The forecast *)

(** X15.  For every daily budget of magnitude below [2^51] the forecast is
    computed without error; the expected clicks per day are the budget
    divided by the click price of 45 and truncated toward zero, and the
    monthly budget is thirty times the daily budget. *)
Theorem forecast_clicks_are_budget_over_45 :
  forall business_info semantic_core analysis,
    Manager.tiers_are_lists semantic_core = true ->
    Z.abs (Manager.budget_daily business_info) < 2 ^ 51 ->
    exists allocation performance,
      Manager._calculate_budget_and_forecast business_info semantic_core analysis =
        Ok (allocation, performance) /\
      Manager.expected_clicks_per_day performance =
        Z.quot (Manager.budget_daily business_info) 45 /\
      Manager.expected_cpc performance = 45 /\
      Manager.monthly_budget performance = Manager.budget_daily business_info * 30.
Proof.
  intros business_info semantic_core analysis Hl Hb.
  unfold Manager._calculate_budget_and_forecast.
  unfold Manager.tiers_are_lists in Hl.
  apply andb_prop in Hl. destruct Hl as [Hl Hlow].
  apply andb_prop in Hl. destruct Hl as [Hhigh Hmed].
  destruct (Manager.high_priority semantic_core); try discriminate.
  destruct (Manager.medium_priority semantic_core); try discriminate.
  destruct (Manager.low_priority semantic_core); try discriminate.
  cbn [Json.len rbind].
  rewrite BudgetFacts.allocate_spec by assumption. cbn [rbind].
  destruct (PlanFacts.forecast_clicks _ Hb) as (p & -> & Hc & Hp & Hm). cbn [rbind].
  eexists _, p. split; [reflexivity|]. repeat split; assumption.
Qed.

(** A budget of 3500 forecasts 77 clicks a day. *)
Lemma forecast_clicks_are_budget_over_45_witness :
  exists allocation performance,
    Manager._calculate_budget_and_forecast (Scenarios.business 3500) Scenarios.core_5_3_2
      Scenarios.analysis = Ok (allocation, performance) /\
    Manager.expected_clicks_per_day performance = 77.
Proof.
  destruct (forecast_clicks_are_budget_over_45 (Scenarios.business 3500)
              Scenarios.core_5_3_2 Scenarios.analysis eq_refl eq_refl)
    as (allocation & performance & E & Hc & _).
  exists allocation, performance. split; [exact E|exact Hc].
Defined.

(** ** Bid optimisation at target positions 4 to 6 *)

(** X16.  For a target position from 4 to 6 the call needs no conversion
    to float: it raises [ZeroDivisionError] when some bid is zero, and
    otherwise returns one entry per input entry, in order, with the same
    keyword and with old and new bid both equal to the input bid, however
    large; the change is a zero for every integer or finite float bid. *)
Theorem middle_positions_keep_every_bid :
  forall target_position keyword_bids,
    3 < target_position <= 6 ->
    (Exists (fun e => Rebid.is_zero_bid (Rebid.bid_of e) = true) keyword_bids ->
     Rebid.optimize_keyword_bids keyword_bids target_position = Raise ZeroDivisionError) /\
    (Forall (fun e => Rebid.is_zero_bid (Rebid.bid_of e) = false) keyword_bids ->
     exists optimized_bids,
       Rebid.optimize_keyword_bids keyword_bids target_position = Ok optimized_bids /\
       map Rebid.ob_keyword optimized_bids = map Rebid.keyword_of keyword_bids /\
       map Rebid.old_bid optimized_bids = map Rebid.bid_of keyword_bids /\
       map Rebid.new_bid optimized_bids = map Rebid.bid_of keyword_bids /\
       Forall2 (fun e o => Bids.is_finite_bid (Rebid.bid_of e) = true ->
                           Rebid.is_zero_bid (Rebid.change_percent o) = true)
         keyword_bids optimized_bids).
Proof.
  intros target_position keyword_bids Ht. split.
  - intros Hz. unfold Rebid.optimize_keyword_bids.
    apply MiddleRankFacts.optimize_loop_middle_zero; assumption.
  - intros Hnz. unfold Rebid.optimize_keyword_bids.
    destruct (MiddleRankFacts.optimize_loop_middle target_position keyword_bids Ht [] Hnz)
      as (out & E & H). exists out. split; [exact E|exact H].
Qed.

(** An integer bid of [2^1024], which no float can hold, is kept at
    target position 5. *)
Lemma middle_positions_keep_every_bid_witness :
  exists optimized_bids,
    Rebid.optimize_keyword_bids [Scenarios.entry_huge; Scenarios.entry_50] 5 =
      Ok optimized_bids /\
    map Rebid.new_bid optimized_bids = [PyNum.PyInt (2 ^ 1024); PyNum.PyInt 50].
Proof.
  destruct (middle_positions_keep_every_bid 5 [Scenarios.entry_huge; Scenarios.entry_50]
              ltac:(lia)) as [_ Hkeep].
  destruct Hkeep as (optimized_bids & E & _ & _ & Hnew & _).
  - repeat constructor.
  - exists optimized_bids. split; [exact E|exact Hnew].
Defined.

(** ** Creatives *)

(** X17.  [_generate_professional_creatives] raises [TypeError] exactly
    when the pain points or the value propositions of the analysis cannot
    be joined into its prompt: one of them is null, a number or a boolean,
    or a list that holds something else than strings.  Otherwise it never
    raises.  It returns three empty lists when the service fails, and also
    when the ["ads"] of the answer has no length, in which case the
    sitelinks and callouts of the answer are dropped with it; in every
    other case it returns the three values read from the parsed answer.
    The ads it returns always have a length. *)
Theorem creatives_are_complete_or_empty :
  forall openai_create json_loads creatives_prompt analysis semantic_core,
    let outcome :=
      Generated._generate_professional_creatives openai_create json_loads
        creatives_prompt analysis semantic_core in
    let read := fun output_text =>
      Generated.creatives_of (Manager._safe_json_parse json_loads output_text) in
    let prompt_builds :=
      Generated.joinable (Generated.pain_points analysis) &&
      Generated.joinable (Generated.unique_value_propositions analysis) in
    (prompt_builds = false -> outcome = Raise TypeError) /\
    (prompt_builds = true ->
     (forall e,
        openai_create "medium" (creatives_prompt analysis) = Raise e ->
        outcome = Ok Generated.no_creatives) /\
     (forall output_text,
        openai_create "medium" (creatives_prompt analysis) = Ok output_text ->
        outcome =
          Ok (if is_ok (Json.len (Generated.ads (read output_text)))
              then read output_text
              else Generated.no_creatives))) /\
    (forall creatives,
       outcome = Ok creatives -> is_ok (Json.len (Generated.ads creatives)) = true).
Proof.
  intros openai_create json_loads creatives_prompt analysis semantic_core
    outcome read prompt_builds.
  unfold outcome, Generated._generate_professional_creatives. fold prompt_builds.
  destruct prompt_builds.
  - split; [discriminate|].
    destruct (openai_create "medium" (creatives_prompt analysis)) as [text|e0];
      cbn [rbind].
    + fold (read text).
      destruct (Json.len (Generated.ads (read text))) as [n|e1] eqn:El; cbn [rbind is_ok].
      * split.
        -- intros _. split; [discriminate|].
           intros t Ht. inversion Ht; subst t. rewrite El. reflexivity.
        -- intros c Hc. inversion Hc; subst c. rewrite El. reflexivity.
      * split.
        -- intros _. split; [discriminate|].
           intros t Ht. inversion Ht; subst t. rewrite El. reflexivity.
        -- intros c Hc. inversion Hc; subst c. reflexivity.
    + split.
      * intros _. split; [reflexivity|]. discriminate.
      * intros c Hc. inversion Hc; subst c. reflexivity.
  - split; [reflexivity|]. split; discriminate.
Qed.

(** Pain points that are numbers make the call raise.  An answer whose
    ["ads"] is null loses its callouts too. *)
Lemma creatives_are_complete_or_empty_witness :
  Generated._generate_professional_creatives Examples.generate_ads Examples.loads_ads
    Examples.prompt_for Examples.analysis_numbers Scenarios.core_5_3_2 = Raise TypeError /\
  Generated._generate_professional_creatives Examples.generate_ads Examples.loads_ads
    Examples.prompt_for Examples.analysis_answer Scenarios.core_5_3_2 =
    Ok Generated.no_creatives /\
  Generated.callouts (Generated.creatives_of Examples.parsed_ads) =
    Json.JArr [Json.JStr "Free delivery"].
Proof.
  split; [|split; [|reflexivity]].
  - apply (proj1 (creatives_are_complete_or_empty Examples.generate_ads Examples.loads_ads
                    Examples.prompt_for Examples.analysis_numbers Scenarios.core_5_3_2)).
    reflexivity.
  - destruct (creatives_are_complete_or_empty Examples.generate_ads Examples.loads_ads
                Examples.prompt_for Examples.analysis_answer Scenarios.core_5_3_2)
      as (_ & Hbuilt & _).
    destruct (Hbuilt eq_refl) as (_ & Hread).
    rewrite (Hread (Text.braced Examples.ads_body) eq_refl). reflexivity.
Defined.

(** ** Business analysis *)

(** X18.  [_analyze_business_deep] raises in two cases only: when its own
    generation call raises, with that exception, and when the keywords or
    the pain points read from the parsed answer have no length, with
    [TypeError]; in every other case it returns the analysis read from
    the parsed answer, so an answer without any JSON object gives the
    analysis made of the defaults.  A page that cannot be fetched counts
    as empty content, and a description that cannot be enhanced stays as
    it was; the business information is left with the enhanced
    description. *)
Theorem analysis_absorbs_fetch_and_enhancement_failures :
  forall openai_create json_loads strip page_text enhance_prompt analysis_prompt
         business_info,
    let run :=
      Generated._analyze_business_deep openai_create json_loads strip page_text
        enhance_prompt analysis_prompt business_info in
    let after := Generated.enhanced openai_create strip enhance_prompt business_info in
    let content := fst (Generated.content_and_source page_text after) in
    let source := snd (Generated.content_and_source page_text after) in
    let read := fun output_text =>
      Generated.analysis_of source (Manager._safe_json_parse json_loads output_text) in
    snd run = after /\
    (forall e,
       openai_create "medium" (analysis_prompt content) = Raise e -> fst run = Raise e) /\
    (forall output_text,
       openai_create "medium" (analysis_prompt content) = Ok output_text ->
       fst run =
         if is_ok (Json.len (Generated.keywords (read output_text))) &&
            is_ok (Json.len (Generated.pain_points (read output_text)))
         then Ok (read output_text)
         else Raise TypeError) /\
    (forall output_text,
       openai_create "medium" (analysis_prompt content) = Ok output_text ->
       Json.search_braces output_text = None ->
       fst run = Ok (Generated.analysis_of source [])) /\
    (forall e, openai_create "low"
                 (enhance_prompt (Manager.description business_info)) = Raise e ->
       Manager.description after = Manager.description business_info) /\
    (forall url e,
       Direct.truthy_string (Manager.website business_info) = Some url ->
       page_text url = Raise e -> content = EmptyString).
Proof.
  intros openai_create json_loads strip page_text enhance_prompt analysis_prompt
         business_info run after content source read.
  unfold run, Generated._analyze_business_deep. fold after.
  unfold read, content, source.
  destruct (Generated.content_and_source page_text after) as [c s] eqn:Ecs.
  cbn [fst snd]. split; [reflexivity|]. split; [|split; [|split; [|split]]].
  - intros e ->. reflexivity.
  - intros text ->. cbn [rbind].
    destruct (PlanFacts.len_cases (Generated.keywords
                (Generated.analysis_of s (Manager._safe_json_parse json_loads text))))
      as [(n1 & ->)| ->]; cbn [rbind is_ok andb]; [|reflexivity].
    destruct (PlanFacts.len_cases (Generated.pain_points
                (Generated.analysis_of s (Manager._safe_json_parse json_loads text))))
      as [(n2 & ->)| ->]; reflexivity.
  - intros text -> Hnone. cbn [rbind].
    unfold Manager._safe_json_parse. rewrite Hnone. reflexivity.
  - intros e He. unfold after, Generated.enhanced.
    destruct (Manager.description business_info) as [|a d] eqn:Ed; [exact Ed|].
    unfold Generated._enhance_business_description. rewrite He. reflexivity.
  - intros url e Hurl Hpage. unfold Generated.content_and_source in Ecs.
    assert (Hw : Manager.website after = Manager.website business_info).
    { unfold after, Generated.enhanced.
      destruct (Manager.description business_info); reflexivity. }
    rewrite Hw, Hurl in Ecs. unfold Generated._fetch_page_content in Ecs.
    rewrite Hpage in Ecs. inversion Ecs. reflexivity.
Qed.

(** An answer written in prose gives a described business the analysis
    made of the defaults. *)
Lemma analysis_absorbs_fetch_and_enhancement_failures_witness :
  fst (Generated._analyze_business_deep Scenarios.generate_prose Scenarios.loads_nothing
         Examples.no_strip Examples.page_unreachable Examples.prompt_of Examples.prompt_of
         (Scenarios.business 3500)) =
    Ok (Generated.analysis_of "description" []).
Proof.
  destruct (analysis_absorbs_fetch_and_enhancement_failures Scenarios.generate_prose
              Scenarios.loads_nothing Examples.no_strip Examples.page_unreachable
              Examples.prompt_of Examples.prompt_of (Scenarios.business 3500))
    as (_ & _ & _ & Hprose & _).
  apply (Hprose "Sorry, I cannot produce keywords for this business."%string);
    reflexivity.
Defined.

(** ** The other endpoints of the client *)

(** X19.  [get_keyword_statistics] never raises, sends exactly one report
    request and returns the empty list whatever the platform answers: the
    report it asks for is never read. *)
Theorem statistics_are_always_empty :
  forall api raises_for_status keywords date_from date_to tr,
    Endpoints.get_keyword_statistics api raises_for_status keywords date_from date_to tr =
      (Ok [],
       tr ++ [{| Endpoints.service := "reports"; Endpoints.method := "get";
                 Endpoints.req_params := Endpoints.SearchQueryReport date_from date_to |}]).
Proof.
  intros. apply EndpointFacts.statistics_empty.
Qed.

(** X20.  [get_keyword_forecast] never raises, and what it sends and
    returns is fixed by the platform's answers.  It first asks for a
    forecast of the first fifty keywords in region 225.  When that request
    raises, or gives no dictionary, the result is the empty list and
    nothing more is sent.  When the answer is a dictionary without
    ["ForecastId"], the result is [None] and nothing more is sent.  When
    the answer holds ["ForecastId"], exactly one more request is sent,
    which fetches the forecast of that id; the result is then the list
    read from the ["KeywordForecasts"] of its answer, and the empty list
    when that request raises, gives no dictionary, has no
    ["KeywordForecasts"], or when reading the items raises. *)
Theorem forecast_returns_none_without_forecast_id :
  forall api raises_for_status keywords tr,
    let create :=
      {| Endpoints.service := "keywordsresearch"; Endpoints.method := "CreateNewForecast";
         Endpoints.req_params := Endpoints.CreateNewForecast [225] (firstn 50 keywords) |} in
    let fetch forecast_id :=
      {| Endpoints.service := "keywordsresearch"; Endpoints.method := "GetForecast";
         Endpoints.req_params := Endpoints.GetForecast forecast_id |} in
    let first :=
      fst (Endpoints._make_request api raises_for_status "keywordsresearch"
             "CreateNewForecast"
             (Endpoints.CreateNewForecast [225] (firstn 50 keywords)) tr) in
    let run := Endpoints.get_keyword_forecast api raises_for_status keywords tr in
    (forall e, first = Raise e -> run = (Ok (Some []), tr ++ [create])) /\
    (first = Ok None -> run = (Ok (Some []), tr ++ [create])) /\
    (forall r, first = Ok (Some r) -> Endpoints.ForecastId r = None ->
       run = (Ok None, tr ++ [create])) /\
    (forall r forecast_id,
       first = Ok (Some r) -> Endpoints.ForecastId r = Some forecast_id ->
       let second :=
         fst (Endpoints._make_request api raises_for_status "keywordsresearch"
                "GetForecast" (Endpoints.GetForecast forecast_id) (tr ++ [create])) in
       run =
         (Ok (Some match second with
                   | Ok (Some forecast_result) =>
                       match Endpoints.KeywordForecasts forecast_result with
                       | Some items =>
                           match Endpoints.forecasts_of items [] with
                           | Ok forecasts => forecasts
                           | Raise _ => []
                           end
                       | None => []
                       end
                   | _ => []
                   end),
          tr ++ [create; fetch forecast_id])).
Proof.
  intros. apply EndpointFacts.forecast_outcome.
Qed.

(** Three platforms: one that answers with empty dictionaries, one that
    hands out forecast 7 and then its two keywords, and one that hands out
    forecast 7 and then fails. *)
Lemma forecast_returns_none_without_forecast_id_witness :
  Endpoints.get_keyword_forecast Examples.api_empty_answers Scenarios.always_raises
    ["shoes"] [] = (Ok None, [Examples.forecast_request ["shoes"]]) /\
  Endpoints.get_keyword_forecast Examples.api_forecasts Scenarios.always_raises
    ["shoes"; "boots"] [] =
    (Ok (Some Examples.forecasts_read),
     [Examples.forecast_request ["shoes"; "boots"]; Examples.fetch_request 7]) /\
  Endpoints.get_keyword_forecast Examples.api_forecast_lost Scenarios.always_raises
    ["shoes"] [] =
    (Ok (Some []), [Examples.forecast_request ["shoes"]; Examples.fetch_request 7]).
Proof.
  split; [|split].
  - destruct (forecast_returns_none_without_forecast_id Examples.api_empty_answers
                Scenarios.always_raises ["shoes"] []) as (_ & _ & H & _).
    apply (H Endpoints.empty_result); reflexivity.
  - destruct (forecast_returns_none_without_forecast_id Examples.api_forecasts
                Scenarios.always_raises ["shoes"; "boots"] []) as (_ & _ & _ & H).
    rewrite (H Examples.forecast_handed_out 7 eq_refl eq_refl). reflexivity.
  - destruct (forecast_returns_none_without_forecast_id Examples.api_forecast_lost
                Scenarios.always_raises ["shoes"] []) as (_ & _ & _ & H).
    rewrite (H Examples.forecast_handed_out 7 eq_refl eq_refl). reflexivity.
Defined.

(** X21.  [update_bids] pairs ids and bids by position and stops at the
    shorter list, so ids or bids without a partner are left out without
    notice.  With integer bids it sends one update request with every bid
    multiplied by 1000000 and returns or raises as that request does.
    When one of the paired bids is an infinity or not a number it raises
    before anything is sent. *)
Theorem update_bids_pairs_by_position :
  forall api raises_for_status keyword_ids,
    (forall bids tr,
       Endpoints.update_bids api raises_for_status keyword_ids (map PyNum.PyInt bids) tr =
         Endpoints._make_request api raises_for_status "keywords" "update"
           (Endpoints.KeywordsUpdate (Endpoints.in_micro_roubles keyword_ids bids)) tr) /\
    (forall new_bids tr,
       existsb Endpoints.is_unbounded (firstn (List.length keyword_ids) new_bids) = true ->
       exists e,
         Endpoints.update_bids api raises_for_status keyword_ids new_bids tr = (Raise e, tr)).
Proof.
  intros api raises_for_status keyword_ids. split.
  - intros. apply EndpointFacts.update_bids_integers.
  - intros. apply EndpointFacts.update_bids_unbounded. assumption.
Qed.

(** Three ids with two bids: the third id is not updated.  An infinite
    bid: nothing is sent. *)
Lemma update_bids_pairs_by_position_witness :
  snd (Endpoints.update_bids Examples.api_empty_answers Scenarios.always_raises
         [1; 2; 3] [PyNum.PyInt 10; PyNum.PyInt 20] []) =
    [{| Endpoints.service := "keywords"; Endpoints.method := "update";
        Endpoints.req_params := Endpoints.KeywordsUpdate [(1, 10000000); (2, 20000000)] |}] /\
  exists e,
    Endpoints.update_bids Examples.api_empty_answers Scenarios.always_raises
      [1; 2; 3] [PyNum.PyInt 10; Examples.infinite_bid] [] = (Raise e, []).
Proof.
  destruct (update_bids_pairs_by_position Examples.api_empty_answers Scenarios.always_raises
              [1; 2; 3]) as [Hint Hunbounded].
  split.
  - change [PyNum.PyInt 10; PyNum.PyInt 20] with (map PyNum.PyInt [10; 20]).
    rewrite (Hint [10; 20] []). reflexivity.
  - apply Hunbounded. reflexivity.
Defined.

(** X22.  [optimize_campaign_bids] sends exactly one request, the report
    on the campaign for the last seven days, and never an update.  It
    raises exactly when that request raises, and otherwise returns a
    result for the same campaign with [changes_made] 0. *)
Theorem optimize_campaign_bids_changes_nothing :
  forall api raises_for_status today week_ago now_iso campaign_id tr,
    snd (Endpoints.optimize_campaign_bids api raises_for_status today week_ago now_iso
           campaign_id tr) =
      tr ++ [{| Endpoints.service := "reports"; Endpoints.method := "get";
                Endpoints.req_params :=
                  Endpoints.CampaignReport week_ago today [campaign_id] today |}] /\
    (forall e,
       fst (Endpoints.optimize_campaign_bids api raises_for_status today week_ago now_iso
              campaign_id tr) = Raise e <->
       fst (Endpoints._make_request api raises_for_status "reports" "get"
              (Endpoints.CampaignReport week_ago today [campaign_id] today) tr) = Raise e) /\
    (forall outcome,
       fst (Endpoints.optimize_campaign_bids api raises_for_status today week_ago now_iso
              campaign_id tr) = Ok outcome ->
       Endpoints.or_campaign_id outcome = campaign_id /\
       Endpoints.changes_made outcome = 0).
Proof.
  intros. apply EndpointFacts.optimize_campaign_bids_outcome.
Qed.
